(** * lib/gui/control_helper.py: helper functions and classes for GUI controls

    A shallow embedding of the control helper of the GUI: the slider
    rounding function, the auto-fill container, the control builder, the
    file browser attachment and the control panel, over an explicit model of
    the widget toolkit's state (widgets, bound variables, tooltips). *)

From Stdlib Require Import ZArith QArith Qabs Ascii String List Bool Lia.
From stdpp Require Import base option list gmap strings.
Import ListNotations.

Local Open Scope Z_scope.

(** ** Python strings

    Strings are modelled as Rocq strings of 8-bit characters, and the case
    conversions and the line breaks are those of ASCII: on ASCII text
    ([is_ascii]) the functions of this module are those of Python.  The
    case mappings of Unicode, which can change the length of a text with
    other characters, are outside the model. *)
Module PyStr.

Definition nl : ascii := "010"%char.
Definition tab : ascii := "009"%char.
Definition dquote : ascii := "034"%char.

Definition chr (c : ascii) : string := String c EmptyString.

(** [str.isascii()] *)
Definition is_ascii (s : string) : bool :=
  forallb (fun c => Nat.ltb (nat_of_ascii c) 128) (list_ascii_of_string s).

Definition is_upper (c : ascii) : bool :=
  let n := nat_of_ascii c in (Nat.leb 65 n && Nat.leb n 90)%bool.
Definition is_lower (c : ascii) : bool :=
  let n := nat_of_ascii c in (Nat.leb 97 n && Nat.leb n 122)%bool.
Definition is_digit (c : ascii) : bool :=
  let n := nat_of_ascii c in (Nat.leb 48 n && Nat.leb n 57)%bool.

Definition to_upper (c : ascii) : ascii :=
  if is_lower c then ascii_of_nat (nat_of_ascii c - 32) else c.
Definition to_lower (c : ascii) : ascii :=
  if is_upper c then ascii_of_nat (nat_of_ascii c + 32) else c.

Fixpoint map_chars (f : ascii -> ascii) (s : string) : string :=
  match s with
  | EmptyString => EmptyString
  | String c s' => String (f c) (map_chars f s')
  end.

(** [str.lower()] and [str.upper()] *)
Definition lower : string -> string := map_chars to_lower.
Definition upper : string -> string := map_chars to_upper.

(** [str.capitalize()]: the first character in upper case, all the others
    in lower case. *)
Definition capitalize (s : string) : string :=
  match s with
  | EmptyString => EmptyString
  | String c s' => String (to_upper c) (lower s')
  end.

(** [str.title()]: a cased character is upper-cased when the character
    before it is not cased, lower-cased when it is. *)
Fixpoint title_aux (prev_cased : bool) (s : string) : string :=
  match s with
  | EmptyString => EmptyString
  | String c s' =>
      if is_lower c then
        String (if prev_cased then c else to_upper c) (title_aux true s')
      else if is_upper c then
        String (if prev_cased then to_lower c else c) (title_aux true s')
      else String c (title_aux false s')
  end.
Definition title : string -> string := title_aux false.

(** [s.startswith(p)] *)
Definition startswith (p s : string) : bool := String.prefix p s.

(** [s[n:]] for [n >= 0] *)
Fixpoint drop (n : nat) (s : string) : string :=
  match n, s with
  | O, _ => s
  | S k, EmptyString => EmptyString
  | S k, String _ s' => drop k s'
  end.

(** [s.replace(old, new)]: the occurrences of [old] are found from left to
    right and do not overlap.  [skip] counts the characters of a matched
    occurrence that are still to be passed over. *)
Fixpoint replace_aux (old new : string) (skip : nat) (s : string) : string :=
  match s with
  | EmptyString => EmptyString
  | String c s' =>
      match skip with
      | S k => replace_aux old new k s'
      | O =>
          if String.prefix old s
          then String.append new (replace_aux old new (String.length old - 1) s')
          else String c (replace_aux old new O s')
      end
  end.

(** With an empty [old], Python inserts [new] before every character and at
    the end. *)
Fixpoint intersperse (new s : string) : string :=
  match s with
  | EmptyString => new
  | String c s' => String.append new (String c (intersperse new s'))
  end.

Definition replace (old new s : string) : string :=
  match old with
  | EmptyString => intersperse new s
  | _ => replace_aux old new O s
  end.

Fixpoint rev_acc (acc s : string) : string :=
  match s with
  | EmptyString => acc
  | String c s' => rev_acc (String c acc) s'
  end.
Definition rev (s : string) : string := rev_acc EmptyString s.

(** [s.split(sep)] for a non-empty separator (every call of the source
    passes a literal one): [cur] holds the current piece, reversed. *)
Fixpoint split_aux (sep : string) (skip : nat) (cur : string) (s : string)
  : list string :=
  match s with
  | EmptyString => [rev cur]
  | String c s' =>
      match skip with
      | S k => split_aux sep k cur s'
      | O =>
          if String.prefix sep s
          then rev cur :: split_aux sep (String.length sep - 1) EmptyString s'
          else split_aux sep O (String c cur) s'
      end
  end.
Definition split (sep s : string) : list string := split_aux sep O EmptyString s.

(** [sep.join(l)] *)
Definition join (sep : string) (l : list string) : string := String.concat sep l.

(** [needle in s] *)
Fixpoint contains (needle s : string) : bool :=
  if String.prefix needle s then true
  else match s with
       | EmptyString => false
       | String _ s' => contains needle s'
       end.

(** The characters [str.splitlines()] breaks lines at (those of the 8-bit
    range below 128; a carriage return followed by a line feed is one
    break). *)
Definition is_linebreak (c : ascii) : bool :=
  let n := nat_of_ascii c in
  (Nat.leb 10 n && Nat.leb n 13)%bool || (Nat.leb 28 n && Nat.leb n 30)%bool.

(** [s.splitlines()]: [cur] holds the current line, reversed, and [open]
    tells whether a line has been started; no empty line is added after a
    final break. *)
Fixpoint splitlines_aux (cur : string) (open : bool) (s : string) : list string :=
  match s with
  | EmptyString => if open then [rev cur] else []
  | String c s' =>
      if is_linebreak c then
        match s' with
        | String c' s'' =>
            if (Ascii.eqb c "013" && Ascii.eqb c' "010")%bool
            then rev cur :: splitlines_aux EmptyString false s''
            else rev cur :: splitlines_aux EmptyString false s'
        | EmptyString => [rev cur]
        end
      else splitlines_aux (String c cur) true s'
  end.
Definition splitlines (s : string) : list string :=
  splitlines_aux EmptyString false s.

(** White space for [s.split()] *)
Definition is_space (c : ascii) : bool :=
  let n := nat_of_ascii c in
  (Nat.leb 9 n && Nat.leb n 13)%bool || (Nat.leb 28 n && Nat.leb n 32)%bool.

(** [s.split()]: the words between runs of white space. *)
Fixpoint split_ws_aux (cur : string) (s : string) : list string :=
  match s with
  | EmptyString => match cur with EmptyString => [] | _ => [rev cur] end
  | String c s' =>
      if is_space c then
        match cur with
        | EmptyString => split_ws_aux EmptyString s'
        | _ => rev cur :: split_ws_aux EmptyString s'
        end
      else split_ws_aux (String c cur) s'
  end.
Definition split_ws (s : string) : list string := split_ws_aux EmptyString s.

(** [re.sub(r'[^A-Za-z0-9\-]+', '', s)]: only the letters, the digits and
    the hyphens are kept. *)
Fixpoint keep_word_chars (s : string) : string :=
  match s with
  | EmptyString => EmptyString
  | String c s' =>
      if (is_upper c || is_lower c || is_digit c || Ascii.eqb c "-")%bool
      then String c (keep_word_chars s')
      else keep_word_chars s'
  end.

End PyStr.

(** ** Help text formatting (ControlBuilder.format_helptext) *)

Definition s_nl : string := PyStr.chr PyStr.nl.

(** [format_helptext]: [None] is returned as it is; otherwise the text is
    rewritten, its segments between ". " capitalized and the title put in
    front. *)
Definition format_helptext (title : string) (helptext : option string)
  : option string :=
  match helptext with
  | None => None
  | Some helptext =>
      let helptext :=
        if PyStr.startswith "R|" helptext
        then PyStr.replace s_nl (s_nl ++ s_nl)
               (PyStr.replace (s_nl ++ "L|") (s_nl ++ " - ") (PyStr.drop 2 helptext))
        else PyStr.replace "%%" "%"
               (PyStr.replace (s_nl ++ PyStr.chr PyStr.tab) (s_nl ++ "  - ") helptext)
      in
      let helptext :=
        PyStr.join ". " (map PyStr.capitalize (PyStr.split ". " helptext)) in
      Some (title ++ " - " ++ helptext)
  end%string.

(** ** Python values, exceptions and the toolkit state *)

(** The exceptions the modelled code can raise; [TclError] is the
    toolkit's own. *)
Inductive exn : Type :=
| ValueError | IndexError | KeyError | AttributeError | TypeError
| UnboundLocalError | ZeroDivisionError | TclError.

Inductive result (A : Type) : Type :=
| Ok (a : A)
| Raise (e : exn).
Arguments Ok {A} a.
Arguments Raise {A} e.

(** A Python number: an [int], or a [float] given by its exact value (every
    finite double is a rational). *)
Inductive num : Type :=
| NInt (z : Z)
| NFloat (q : Q).

(** The values that flow through the controls.  [PRound x n] stands for
    [round(x, n)] of the float [x], which is left unevaluated: the binary
    float nearest to the rounded decimal is outside the model. *)
Inductive pyval : Type :=
| PNone
| PBool (b : bool)
| PNum (n : num)
| PRound (x : Q) (ndigits : option Z)
| PStr (s : string)
| PStrs (l : list string).

(** Truth value of a Python value ([if x:]).  [round(x, n)] is zero exactly
    when [x] is at most half a unit of the [n]-th decimal away from zero
    (a tie is rounded to the even neighbour, zero). *)
Definition truthy (v : pyval) : bool :=
  match v with
  | PNone => false
  | PBool b => b
  | PNum (NInt z) => negb (z =? 0)
  | PNum (NFloat q) => negb (Qeq_bool q 0)
  | PRound x n => negb (Qle_bool (Qabs x * Qpower 10 (default 0 n)) (1 # 2))
  | PStr s => negb (String.eqb s "")
  | PStrs l => negb (Nat.eqb (List.length l) 0)
  end.

(** The data type of an option: [bool], [int], [float], [str] or any other
    type object. *)
Inductive dtype : Type := DBool | DInt | DFloat | DStr | DOther.

Definition dtype_eqb (a b : dtype) : bool :=
  match a, b with
  | DBool, DBool | DInt, DInt | DFloat, DFloat | DStr, DStr | DOther, DOther => true
  | _, _ => false
  end.

(** Handles into the toolkit state. *)
Abbreviation wid := nat (only parsing).   (* a widget *)
Abbreviation vid := nat (only parsing).   (* a tkinter variable *)
Abbreviation cid := nat (only parsing).   (* an AutoFillContainer object *)
Abbreviation bid := nat (only parsing).   (* a FileBrowser object *)

Inductive varclass : Type := BooleanVar | IntVar | DoubleVar | StringVar.

(** A tkinter variable: its class, its master and the value it was last
    set to, as its class took it. *)
Record tkvar : Type := mkVar {
  var_class : varclass;
  var_master : wid;
  var_value : pyval }.

Inductive wclass : Type :=
| Frame | LabelFrame | Label | Entry | Combobox | Checkbutton | Radiobutton
| Scale | Button | Canvas | Scrollbar.

Definition wclass_eqb (a b : wclass) : bool :=
  match a, b with
  | Frame, Frame | LabelFrame, LabelFrame | Label, Label | Entry, Entry
  | Combobox, Combobox | Checkbutton, Checkbutton | Radiobutton, Radiobutton
  | Scale, Scale | Button, Button | Canvas, Canvas | Scrollbar, Scrollbar => true
  | _, _ => false
  end.

(** What a widget runs on its event: the slider's rounding callback with
    the values its lambda captured, or a file browser's dialog routine. *)
Inductive command : Type :=
| CmdSlider (var : vid) (dt : dtype) (rn : option num) (mm : option (num * num))
| CmdBrowse (browser : bid) (kind : string).

(** The name of a widget: chosen by the toolkit, given by the caller, or
    built as ["{}_{}".format(base, idx)] from another widget's name. *)
Inductive wname : Type :=
| AutoName
| Named (s : string)
| Indexed (base : wname) (idx : Z).

Record widget : Type := mkWidget {
  w_class : wclass;
  w_master : option wid;
  w_name : wname;
  w_text : option string;
  w_value : option string;
  w_variable : option vid;
  w_command : option command;
  w_values : list string;
  w_range : option (num * num);
  w_width : option Z;
  w_packed : bool }.

Definition new_widget (c : wclass) (master : option wid) : widget :=
  mkWidget c master AutoName None None None None [] None None false.

(** A tooltip attached to a widget by the tooltip service. *)
Record tooltip : Type := mkTooltip {
  tt_widget : wid;
  tt_text : option string;
  tt_wraplength : Z }.

(** The AutoFillContainer object. *)
Record AutoFillContainer : Type := mkContainer {
  parent : wid;
  columns : Z;
  _items : Z;
  _idx : Z;
  subframes : list wid }.

(** The attribute [FileBrowser.action_option]: the option's name as
    configured (or None), later replaced by that option's variable. *)
Inductive action_ref : Type :=
| ActNone
| ActName (name : string)
| ActVar (v : vid).

Record FileBrowser : Type := mkBrowser {
  fb_tk_var : vid;
  fb_frame : wid;
  browser : list string;
  filetypes : string;
  action_option : action_ref;
  fb_command : option string;
  destination : option string }.

(** The state of the GUI: the widgets, variables and tooltips of the
    toolkit and the module's own mutable objects, each addressed by its
    index. *)
Record gui : Type := mkGui {
  widgets : list widget;
  vars : list tkvar;
  tooltips : list tooltip;
  containers : list AutoFillContainer;
  browsers : list FileBrowser }.

Definition empty_gui : gui := mkGui [] [] [] [] [].

(** ** The state-and-exception monad

    A computation runs on a state and ends with a value or a raised
    exception; what was written before the exception stays written. *)
Definition M (A : Type) : Type := gui -> result A * gui.

Definition ret {A} (a : A) : M A := fun g => (Ok a, g).
Definition raise {A} (e : exn) : M A := fun g => (Raise e, g).
Definition bind {A B} (m : M A) (k : A -> M B) : M B :=
  fun g => match m g with
           | (Ok a, g') => k a g'
           | (Raise e, g') => (Raise e, g')
           end.
Definition lift {A} (r : result A) : M A := fun g => (r, g).

Declare Scope gui_scope.
Delimit Scope gui_scope with gui.
Notation "x <- m ;; k" := (bind m (fun x => k))
  (at level 100, m at next level, right associativity) : gui_scope.
Notation "m ;;; k" := (bind m (fun _ => k))
  (at level 100, right associativity) : gui_scope.
Local Open Scope gui_scope.

Fixpoint for_each {A} (l : list A) (body : A -> M unit) : M unit :=
  match l with
  | [] => ret tt
  | x :: l' => body x ;;; for_each l' body
  end.

(** The strings the interpreter of the toolkit takes for a boolean
    ([Tcl_GetBoolean] of Tcl 8.5 and 8.6): "0" and "1", and, in any letter
    case, "yes", "no", "true", "false" and their beginnings, "on", "off" and
    "of". *)
Definition tcl_boolean (s : string) : option bool :=
  if String.eqb s "" then None
  else if String.eqb s "0" then Some false
  else if String.eqb s "1" then Some true
  else
    let l := PyStr.lower s in
    if String.prefix l "yes" then Some true
    else if String.prefix l "no" then Some false
    else if String.prefix l "true" then Some true
    else if String.prefix l "false" then Some false
    else if String.eqb l "on" then Some true
    else if String.eqb l "of" || String.eqb l "off" then Some false
    else None.

(** [getboolean(x)] of the toolkit: an int or a bool is true when it is not
    zero ([round(x, None)] is an int); a string is read by the interpreter,
    which raises [TclError] on one that is no boolean (a string with a null
    character is refused before, with ValueError); anything else is a
    TypeError. *)
Definition getboolean (x : pyval) : result bool :=
  match x with
  | PBool b => Ok b
  | PNum (NInt z) => Ok (negb (z =? 0))
  | PRound _ None => Ok (truthy x)
  | PStr s =>
      if existsb (Ascii.eqb "000"%char) (list_ascii_of_string s) then Raise ValueError
      else match tcl_boolean s with
           | Some b => Ok b
           | None => Raise TclError
           end
  | PNone | PNum (NFloat _) | PRound _ (Some _) | PStrs _ => Raise TypeError
  end.

(** What [set] of a variable of the class [c] stores for [x]:
    [BooleanVar.set] stores [getboolean(x)], the [set] of the other classes
    stores what it is given. *)
Definition converted (c : varclass) (x : pyval) : result pyval :=
  match c with
  | BooleanVar =>
      match getboolean x with
      | Ok b => Ok (PBool b)
      | Raise e => Raise e
      end
  | IntVar | DoubleVar | StringVar => Ok x
  end.

Definition set_value (x : pyval) (v : tkvar) : tkvar :=
  mkVar (var_class v) (var_master v) x.

(** [var.set(x)]: the value is stored as the class of the variable converts
    it; when the conversion raises nothing is stored.  (A handle to no
    variable, which the code cannot have, raises as it does in [var_get].) *)
Definition var_set (v : vid) (x : pyval) : M unit :=
  fun g =>
    match vars g !! v with
    | Some var =>
        match converted (var_class var) x with
        | Ok y => (Ok tt, mkGui (widgets g) (alter (set_value y) v (vars g))
                            (tooltips g) (containers g) (browsers g))
        | Raise e => (Raise e, g)
        end
    | None => (Raise AttributeError, g)
    end.

(** [var.get()] *)
Definition var_get (v : vid) : M pyval :=
  fun g => match vars g !! v with
           | Some var => (Ok (var_value var), g)
           | None => (Raise AttributeError, g)
           end.

(** ** Slider rounding (set_slider_rounding) *)

(** [int(x)] of a float: truncation toward zero. *)
Definition int_of_float (q : Q) : Z := Z.quot (Qnum q) (Z.pos (Qden q)).

(** [range(start, stop, step)] as a list; a zero step raises. *)
Definition range_len (start stop step : Z) : Z :=
  if 0 <? step then (if start <? stop then (stop - start - 1) / step + 1 else 0)
  else (if stop <? start then (start - stop - 1) / (- step) + 1 else 0).

Definition py_range (start stop step : Z) : result (list Z) :=
  if step =? 0 then Raise ValueError
  else Ok (map (fun i => start + Z.of_nat i * step)
               (seq 0 (Z.to_nat (range_len start stop step)))).

(** [min(l, key=key)]: the first element whose key is minimal; an empty
    sequence raises. *)
Fixpoint min_from (key : Z -> Z) (best : Z) (l : list Z) : Z :=
  match l with
  | [] => best
  | x :: l' => if key x <? key best then min_from key x l' else min_from key best l'
  end.

Definition py_min (key : Z -> Z) (l : list Z) : result Z :=
  match l with
  | [] => Raise ValueError
  | x :: l' => Ok (min_from key x l')
  end.

(** [set_slider_rounding(value, var, d_type, round_to, min_max)].  [value]
    is the float [float(value)] of the string the scale passes.  In the
    integer branch [range] wants three ints. *)
Definition set_slider_rounding (value : Q) (var : vid) (d_type : dtype)
    (round_to : option num) (min_max : option (num * num)) : M unit :=
  if dtype_eqb d_type DFloat then
    match round_to with
    | None => var_set var (PRound value None)
    | Some (NInt n) => var_set var (PRound value (Some n))
    | Some (NFloat _) => raise TypeError
    end
  else
    match min_max, round_to with
    | Some (NInt lo, NInt hi), Some (NInt step) =>
        steps <- lift (py_range lo (hi + step) step) ;;
        value <- lift (py_min (fun x => Z.abs (x - int_of_float value)) steps) ;;
        var_set var (PNum (NInt value))
    | _, _ => raise TypeError
    end.

(** The lattice of a slider: the points [lo + i * step] below [hi + step]
    (what [range(lo, hi + step, step)] enumerates for a positive step), and
    the same up to [hi + step] included. *)
Definition on_lattice (lo hi step x : Z) : Prop :=
  exists i, 0 <= i /\ x = lo + i * step /\ x < hi + step.

Definition on_lattice_le (lo hi step x : Z) : Prop :=
  exists i, 0 <= i /\ x = lo + i * step /\ x <= hi + step.

(** [r] is the closest of the points [P] to [n], the lowest one on a tie. *)
Definition closest_low (P : Z -> Prop) (n r : Z) : Prop :=
  forall x, P x ->
    Z.abs (r - n) <= Z.abs (x - n) /\ (Z.abs (x - n) = Z.abs (r - n) -> r <= x).

(** A state with a frame and one integer variable, and the slider of the
    bounds (0, 100) and step 10 moved to [value] on it. *)
Definition one_var : gui :=
  mkGui [new_widget Frame None] [mkVar IntVar 0%nat (PNum (NInt 0))] [] [] [].

Definition slide (value : Q) : option pyval :=
  var_value <$> vars (snd (set_slider_rounding value 0%nat DInt (Some (NInt 10))
                             (Some (NInt 0, NInt 100)) one_var)) !! 0%nat.

(** ** Widgets *)

Definition with_widgets (f : list widget -> list widget) (g : gui) : gui :=
  mkGui (f (widgets g)) (vars g) (tooltips g) (containers g) (browsers g).
Definition with_containers (f : list AutoFillContainer -> list AutoFillContainer)
    (g : gui) : gui :=
  mkGui (widgets g) (vars g) (tooltips g) (f (containers g)) (browsers g).
Definition with_browsers (f : list FileBrowser -> list FileBrowser) (g : gui) : gui :=
  mkGui (widgets g) (vars g) (tooltips g) (containers g) (f (browsers g)).

(** Creating a widget: it is added to the toolkit's widgets, not yet
    packed. *)
Definition create_widget (w : widget) : M wid :=
  fun g => (Ok (length (widgets g)), with_widgets (fun ws => ws ++ [w]) g).

Definition set_packed (w : widget) : widget :=
  mkWidget (w_class w) (w_master w) (w_name w) (w_text w) (w_value w)
    (w_variable w) (w_command w) (w_values w) (w_range w) (w_width w) true.

(** [widget.pack(...)]: the geometry options are not recorded. *)
Definition pack (w : wid) : M unit :=
  fun g => (Ok tt, with_widgets (alter set_packed w) g).

(** [widget.winfo_name()] *)
Definition winfo_name (w : wid) : M wname :=
  fun g => match widgets g !! w with
           | Some x => (Ok (w_name x), g)
           | None => (Raise AttributeError, g)
           end.

Definition named_frame (master : wid) (name : wname) : widget :=
  mkWidget Frame (Some master) name None None None None [] None None false.

(** Modelled from the spec: the class [Tooltip] of the GUI's tooltip module
    is not part of this file; the tooltip service "attaches hover text with
    a given wrap width to any control".  [Tooltip(widget, text=...,
    wraplength=...)] records what it is given. *)
Definition Tooltip (w : wid) (text : option string) (wraplength : Z) : M unit :=
  fun g => (Ok tt, mkGui (widgets g) (vars g)
                     (tooltips g ++ [mkTooltip w text wraplength])
                     (containers g) (browsers g)).

(** [l[i]] on a list: a negative index counts from the end, an index out of
    range raises. *)
Definition py_index {A} (l : list A) (i : Z) : result A :=
  let n := Z.of_nat (length l) in
  let j := if i <? 0 then i + n else i in
  if (j <? 0) || (n <=? j) then Raise IndexError
  else match l !! Z.to_nat j with
       | Some x => Ok x
       | None => Raise IndexError
       end.

(** [range(n)] *)
Definition range0 (n : Z) : list Z := map Z.of_nat (seq 0 (Z.to_nat n)).

(** ** AutoFillContainer *)

Definition get_container (c : cid) : M AutoFillContainer :=
  fun g => match containers g !! c with
           | Some o => (Ok o, g)
           | None => (Raise AttributeError, g)
           end.

Definition update_container (c : cid) (f : AutoFillContainer -> AutoFillContainer)
  : M unit :=
  fun g => (Ok tt, with_containers (alter f c) g).

Definition incr_items (o : AutoFillContainer) : AutoFillContainer :=
  mkContainer (parent o) (columns o) (_items o + 1) (_idx o) (subframes o).
Definition set_idx (i : Z) (o : AutoFillContainer) : AutoFillContainer :=
  mkContainer (parent o) (columns o) (_items o) i (subframes o).
Definition set_subframes_field (l : list wid) (o : AutoFillContainer)
  : AutoFillContainer :=
  mkContainer (parent o) (columns o) (_items o) (_idx o) l.

(** The body of the loop of [set_subframes] for one [idx]; [acc] is the
    local list [subframes]. *)
Definition set_subframes_step (c : cid) (acc : list wid) (idx : Z) : M (list wid) :=
  o <- get_container c ;;
  acc' <- (if negb (columns o =? 1) then
             base <- winfo_name (parent o) ;;
             subframe <- create_widget (named_frame (parent o) (Indexed base idx)) ;;
             pack subframe ;;;
             ret (acc ++ [subframe])
           else ret (acc ++ [parent o])) ;;
  update_container c incr_items ;;;
  ret acc'.

Fixpoint set_subframes_loop (c : cid) (acc : list wid) (idxs : list Z)
  : M (list wid) :=
  match idxs with
  | [] => ret acc
  | idx :: rest =>
      acc' <- set_subframes_step c acc idx ;;
      set_subframes_loop c acc' rest
  end.

(** [set_subframes]: a sub-frame for each requested column. *)
Definition set_subframes (c : cid) : M (list wid) :=
  o <- get_container c ;;
  set_subframes_loop c [] (range0 (columns o)).

(** [AutoFillContainer(parent, columns)] *)
Definition new_container (parent : wid) (columns : Z) : M cid :=
  c <- (fun g => (Ok (length (containers g)),
                  with_containers (fun cs => cs ++ [mkContainer parent columns 0 0 []]) g)) ;;
  l <- set_subframes c ;;
  update_container c (set_subframes_field l) ;;;
  ret c.

(** The property [items] *)
Definition items (c : cid) : M Z :=
  o <- get_container c ;; ret (_items o).

(** The property [subframe]: the next sub-frame to be populated. *)
Definition subframe (c : cid) : M wid :=
  o <- get_container c ;;
  frame <- lift (py_index (subframes o) (_idx o)) ;;
  let next_idx := if negb (_idx o + 1 =? columns o) then _idx o + 1 else 0 in
  update_container c (set_idx next_idx) ;;;
  ret frame.

(** The property [last_subframe] *)
Definition last_subframe (c : cid) : M wid :=
  o <- get_container c ;;
  lift (py_index (subframes o) (columns o - 1)).

(** [k] successive requests of the next sub-frame, with what each
    returned. *)
Fixpoint requests (c : cid) (k : nat) : M (list wid) :=
  match k with
  | O => ret []
  | S k' => frame <- subframe c ;; rest <- requests c k' ;; ret (frame :: rest)
  end.

(** [r] is at least as close to the raw value [q] as every point of [P]. *)
Definition closest_to_raw (P : Z -> Prop) (q : Q) (r : Z) : Prop :=
  forall x, P x -> (Qabs (inject_Z r - q) <= Qabs (inject_Z x - q))%Q.

(** ** FileBrowser *)

(** The file-browser dict of an option ([sysbrowser]); an absent key is
    [None]. *)
Record sysbrowser : Type := mkSysbrowser {
  sb_browser : option (list string);
  sb_filetypes : option string;
  sb_action_option : option string;
  sb_command : option string;
  sb_destination : option string }.

(** [d[key]] for a key that may be absent *)
Definition required {A} (x : option A) : M A :=
  match x with
  | Some a => ret a
  | None => raise KeyError
  end.

(** The dialog routines of the class: [getattr(self, "ask_" + browser)]
    finds one for these kinds only. *)
Definition has_ask_method (kind : string) : bool :=
  existsb (String.eqb kind) ["folder"; "load"; "load_multi"; "save"; "nothing"; "context"]%string.

(** The property [helptext]: the tooltip of each button. *)
Definition browser_helptext (kind : string) : option string :=
  if String.eqb kind "folder" then Some "Select a folder..."
  else if String.eqb kind "load" then Some "Select a file..."
  else if String.eqb kind "load_multi" then Some "Select one or more files..."
  else if String.eqb kind "context" then Some "Select a file or folder..."
  else if String.eqb kind "save" then Some "Select a save location..."
  else None.

(** Modelled from the spec: the icon lookup [get_images().icons] of the GUI
    utilities is not part of this file; it "returns a named icon image for
    each browser-button kind", the kinds of the buttons "with a fixed icon
    and a fixed tooltip string (folder/open/open-multiple/save/
    context-dependent)".  [icons[browser]] is a subscript, which raises
    KeyError for a name without icon; an icon is promised for these five
    names only and the model has no other. *)
Definition icon_names : list string :=
  ["folder"; "load"; "load_multi"; "save"; "context"]%string.

Definition icons (kind : string) : M unit :=
  if existsb (String.eqb kind) icon_names then ret tt else raise KeyError.

Definition button (master : wid) (cmd : command) : widget :=
  mkWidget Button (Some master) AutoName None None None (Some cmd) [] None None false.

(** [add_browser_buttons]: one button per requested dialog kind. *)
Definition add_browser_button (b : bid) (frame : wid) (kind : string) : M unit :=
  icons kind ;;;
  (if has_ask_method kind then ret tt else raise AttributeError) ;;;
  fileopn <- create_widget (button frame (CmdBrowse b kind)) ;;
  pack fileopn ;;;
  text <- required (browser_helptext kind) ;;
  Tooltip fileopn (Some text) 200.

Definition get_browser (b : bid) : M FileBrowser :=
  fun g => match browsers g !! b with
           | Some o => (Ok o, g)
           | None => (Raise AttributeError, g)
           end.

Definition add_browser_buttons (b : bid) : M unit :=
  o <- get_browser b ;;
  for_each (browser o) (add_browser_button b (fb_frame o)).

(** A new FileBrowser object with the attributes [__init__] sets. *)
Definition alloc_browser (o : FileBrowser) : M bid :=
  fun g => (Ok (length (browsers g)), with_browsers (fun bs => bs ++ [o]) g).

Definition action_of_name (name : option string) : action_ref :=
  match name with
  | Some n => ActName n
  | None => ActNone
  end.

(** [FileBrowser(tk_var, control_frame, sysbrowser_dict)] *)
Definition new_filebrowser (tk_var : vid) (control_frame : wid)
    (sysbrowser_dict : sysbrowser) : M bid :=
  kinds <- required (sb_browser sysbrowser_dict) ;;
  ftypes <- required (sb_filetypes sysbrowser_dict) ;;
  b <- alloc_browser
         (mkBrowser tk_var control_frame kinds ftypes
            (action_of_name (sb_action_option sysbrowser_dict))
            (sb_command sysbrowser_dict)
            (sb_destination sysbrowser_dict)) ;;
  add_browser_buttons b ;;;
  ret b.

Definition set_action_option (a : action_ref) (o : FileBrowser) : FileBrowser :=
  mkBrowser (fb_tk_var o) (fb_frame o) (browser o) (filetypes o) a
    (fb_command o) (destination o).

(** ** Option descriptors *)

(** The ControlBuilder object, as its attributes stand when [__init__]
    returns. *)
Record ControlBuilder : Type := mkControlBuilder {
  cb_title : string;
  cb_default : pyval;
  cb_helptext : option string;
  helpset : bool;
  cb_label_width : Z;
  filebrowser : option bid;
  cb_frame : wid;
  chkbtns : option cid;
  control : wclass;
  tk_var : vid }.

(** The dict of one option.  The keys the panel always reads are fields;
    [opts], [sysbrowser] and the two keys the panel writes back
    ([selected], [_gui_option]) may be absent ([None]). *)
Record descriptor : Type := mkDescriptor {
  o_type : dtype;
  o_default : pyval;
  o_value : pyval;
  o_choices : option (list string);
  o_gui_radio : bool;
  o_rounding : option num;
  o_min_max : option (num * num);
  o_helptext : option string;
  o_group : option string;
  o_sysbrowser : option sysbrowser;
  o_opts : option (list string);
  o_selected : option vid;
  o_gui_option : option ControlBuilder }.

(** A value of the options mapping: the dict of an option, or the text kept
    under the reserved key [helptext]. *)
Inductive item : Type :=
| Text (s : string)
| Descr (d : descriptor).

(** The options mapping, in the order of the dict. *)
Definition options_map : Type := list (string * item).

Definition as_descr (i : item) : M descriptor :=
  match i with
  | Descr d => ret d
  | Text _ => raise TypeError
  end.

(** [{item["opts"][0]: item["selected"] for item in options.values()}]:
    a later item replaces an earlier one under the same key. *)
Fixpoint action_vars (values : list item) (acc : gmap string vid)
  : M (gmap string vid) :=
  match values with
  | [] => ret acc
  | i :: rest =>
      d <- as_descr i ;;
      opts <- required (o_opts d) ;;
      key <- lift (py_index opts 0) ;;
      selected <- required (o_selected d) ;;
      action_vars rest (<[key := selected]> acc)
  end.

(** [set_context_action_option(options)]: the variable of the option that
    dictates the context sensitive file browser.  In
    [actions[self.action_option]] a name that is no key raises KeyError, and
    so does None; a variable, which the action option is once it is
    resolved, cannot be hashed and raises TypeError. *)
Definition set_context_action_option (b : bid) (options : options_map) : M unit :=
  o <- get_browser b ;;
  if negb (bool_decide (browser o = ["context"%string])) then ret tt
  else
    actions <- action_vars (map snd options) ∅ ;;
    match action_option o with
    | ActName name =>
        match actions !! name with
        | Some v => fun g => (Ok tt, with_browsers (alter (set_action_option (ActVar v)) b) g)
        | None => raise KeyError
        end
    | ActNone => raise KeyError
    | ActVar _ => raise TypeError
    end.

(** ** The dialog routines *)

Section Dialogs.

(** The file dialog service [FileHandler(...).retfile] of the GUI
    utilities, which is not part of this file: what the dialog of a mode
    returns for the given file types, command, action and variable. *)
Variable FileHandler :
  string -> string -> option string -> pyval -> option string -> pyval.

Definition retfile (mode ftypes : string) : pyval :=
  FileHandler mode ftypes None PNone None.

(** [ask_folder(filepath, filetypes)] *)
Definition ask_folder (filepath : vid) (ftypes : string) : M unit :=
  let dirname := retfile "dir" ftypes in
  if truthy dirname then var_set filepath dirname else ret tt.

(** [ask_load(filepath, filetypes)] *)
Definition ask_load (filepath : vid) (ftypes : string) : M unit :=
  let filename := retfile "filename" ftypes in
  if truthy filename then var_set filepath filename else ret tt.

(** ["\"{}\"".format(fname)] *)
Definition quoted (fname : string) : string :=
  (PyStr.chr PyStr.dquote ++ fname ++ PyStr.chr PyStr.dquote)%string.

(** What the file names of a dialog result iterate to: the elements of a
    tuple or list, the characters of a string. *)
Fixpoint chars (s : string) : list string :=
  match s with
  | EmptyString => []
  | String c s' => PyStr.chr c :: chars s'
  end.

Definition iterate (v : pyval) : M (list string) :=
  match v with
  | PStrs l => ret l
  | PStr s => ret (chars s)
  | _ => raise TypeError
  end.

(** [ask_load_multi(filepath, filetypes)] *)
Definition ask_load_multi (filepath : vid) (ftypes : string) : M unit :=
  let filenames := retfile "filename_multi" ftypes in
  if truthy filenames then
    names <- iterate filenames ;;
    let final_names := PyStr.join " " (map quoted names) in
    var_set filepath (PStr final_names)
  else ret tt.

(** [ask_save(filepath, filetypes)] *)
Definition ask_save (filepath : vid) (ftypes : string) : M unit :=
  let filename := retfile "savefilename" ftypes in
  if truthy filename then var_set filepath filename else ret tt.

(** [ask_nothing(filepath, filetypes)] *)
Definition ask_nothing (filepath : vid) (ftypes : string) : M unit := ret tt.

(** [ask_context(filepath, filetypes)] of the browser object [b] *)
Definition ask_context (b : bid) (filepath : vid) (ftypes : string) : M unit :=
  o <- get_browser b ;;
  selected_action <-
    match action_option o with
    | ActVar v => var_get v
    | _ => raise AttributeError
    end ;;
  let selected_variable := destination o in
  let filename :=
    FileHandler "context" ftypes (fb_command o) selected_action selected_variable in
  if truthy filename then var_set filepath filename else ret tt.

(** The routine behind a button: [getattr(self, "ask_" + browser)] called
    on the browser's variable and file types. *)
Definition ask (b : bid) (kind : string) : M unit :=
  o <- get_browser b ;;
  let filepath := fb_tk_var o in
  let ftypes := filetypes o in
  if String.eqb kind "folder" then ask_folder filepath ftypes
  else if String.eqb kind "load" then ask_load filepath ftypes
  else if String.eqb kind "load_multi" then ask_load_multi filepath ftypes
  else if String.eqb kind "save" then ask_save filepath ftypes
  else if String.eqb kind "nothing" then ask_nothing filepath ftypes
  else if String.eqb kind "context" then ask_context b filepath ftypes
  else raise AttributeError.

End Dialogs.

(** ** ControlBuilder *)

(** [if choices:] on a list, a tuple or None *)
Definition has_choices (choices : option (list string)) : bool :=
  match choices with
  | Some (_ :: _) => true
  | _ => false
  end.

(** [control_frame(parent)]: the frame that holds the control and its
    label. *)
Definition control_frame (parent : wid) : M wid :=
  frame <- create_widget (new_widget Frame (Some parent)) ;;
  pack frame ;;;
  ret frame.

(** [set_control(dtype, choices, is_radio)]: the control type for the
    option. *)
Definition set_control (dt : dtype) (choices : option (list string))
    (is_radio : bool) : wclass :=
  if has_choices choices && is_radio then Radiobutton
  else if has_choices choices then Combobox
  else if dtype_eqb dt DBool then Checkbutton
  else if dtype_eqb dt DInt || dtype_eqb dt DFloat then Scale
  else Entry.

Definition var_class_of (dt : dtype) : varclass :=
  if dtype_eqb dt DBool then BooleanVar
  else if dtype_eqb dt DInt then IntVar
  else if dtype_eqb dt DFloat then DoubleVar
  else StringVar.

(** The value a tkinter variable holds when it is created. *)
Definition var_initial (c : varclass) : pyval :=
  match c with
  | BooleanVar => PBool false
  | IntVar => PNum (NInt 0)
  | DoubleVar => PNum (NFloat 0)
  | StringVar => PStr ""
  end.

Definition new_var (c : varclass) (master : wid) : M vid :=
  fun g => (Ok (length (vars g)),
            mkGui (widgets g) (vars g ++ [mkVar c master (var_initial c)])
              (tooltips g) (containers g) (browsers g)).

Definition is_none (v : pyval) : bool :=
  match v with
  | PNone => true
  | _ => false
  end.

(** [set_tk_var(dtype, selected_value, blank_nones)]: a variable of the
    class of the data type, set to the selected value or else the default,
    and to the empty string for None when [blank_nones] holds. *)
Definition set_tk_var (frame : wid) (default : pyval) (dt : dtype)
    (selected_value : pyval) (blank_nones : bool) : M vid :=
  var <- new_var (var_class_of dt) frame ;;
  let val := if is_none selected_value then default else selected_value in
  let val := if is_none val && blank_nones then PStr "" else val in
  var_set var val ;;;
  ret var.

(** [title.replace("_", " ").title()] *)
Definition display_title (title : string) : string :=
  PyStr.title (PyStr.replace "_" " " title).

Definition label (master : wid) (text : string) (width : Z) : widget :=
  mkWidget Label (Some master) AutoName (Some text) None None None [] None
    (Some width) false.

(** [build_control_label]: the label of the control, with the help text as
    its tooltip when there is one. *)
Definition build_control_label (frame : wid) (title : string) (label_width : Z)
    (helptext : option string) : M unit :=
  lbl <- create_widget (label frame (display_title title) label_width) ;;
  pack lbl ;;;
  match helptext with
  | Some _ => Tooltip lbl helptext 720
  | None => ret tt
  end.

Definition set_range (r : num * num) (w : widget) : widget :=
  mkWidget (w_class w) (w_master w) (w_name w) (w_text w) (w_value w)
    (w_variable w) (w_command w) (w_values w) (Some r) (w_width w) (w_packed w).
Definition set_values (l : list string) (w : widget) : widget :=
  mkWidget (w_class w) (w_master w) (w_name w) (w_text w) (w_value w)
    (w_variable w) (w_command w) l (w_range w) (w_width w) (w_packed w).
Definition set_width (n : Z) (w : widget) : widget :=
  mkWidget (w_class w) (w_master w) (w_name w) (w_text w) (w_value w)
    (w_variable w) (w_command w) (w_values w) (w_range w) (Some n) (w_packed w).

Definition configure (w : wid) (f : widget -> widget) : M unit :=
  fun g => (Ok tt, with_widgets (alter f w) g).

(** [slider_control(dtype, rounding, min_max)]: an entry box and a scale on
    the same variable; the scale's callback keeps the rounding arguments.
    The context menu of the entry box belongs to the GUI utilities and
    leaves no trace in the state. *)
Definition slider_control (frame : wid) (tk_var : vid) (dt : dtype)
    (rounding : option num) (min_max : option (num * num)) : M wid :=
  tbox <- create_widget
            (mkWidget Entry (Some frame) AutoName None None (Some tk_var) None []
               None (Some 8) false) ;;
  pack tbox ;;;
  ctl <- create_widget
           (mkWidget Scale (Some frame) AutoName None None (Some tk_var)
              (Some (CmdSlider tk_var dt rounding min_max)) [] None None false) ;;
  match min_max with
  | None => raise TypeError
  | Some r => configure ctl (set_range r) ;;; ret ctl
  end.

(** The per-choice help of a radio group: for each help line that starts
    with " - ", its first word (lower case, letters, digits and hyphens
    only) mapped to the line without its bullet. *)
Fixpoint help_items (lines : list string) (acc : gmap string string)
  : M (gmap string string) :=
  match lines with
  | [] => ret acc
  | line :: rest =>
      if PyStr.startswith " - " line then
        let words := PyStr.split_ws line in
        word <- lift (py_index words 1) ;;
        let key := PyStr.keep_word_chars (PyStr.lower word) in
        help_items rest (<[key := PyStr.join " " (tl words)]> acc)
      else help_items rest acc
  end.

Definition radiobutton (master : wid) (choice : string) (tk_var : vid) : widget :=
  mkWidget Radiobutton (Some master) AutoName (Some (PyStr.title choice))
    (Some choice) (Some tk_var) None [] None None false.

(** One round of the loop over the choices of [radio_control]; the result
    is the new value of [helpset]. *)
Definition radio_step (radio_holder : cid) (columns : Z) (tk_var : vid)
    (intro : option string) (helpitems : gmap string string)
    (helpset : bool) (choice : string) : M bool :=
  (if columns =? 0 then raise ZeroDivisionError else ret tt) ;;;
  frame <- subframe radio_holder ;;
  radio <- create_widget (radiobutton frame choice tk_var) ;;
  helpset' <-
    match helpitems !! PyStr.lower choice with
    | Some h =>
        let h := PyStr.capitalize h in
        match intro with
        | Some intro =>
            Tooltip radio
              (Some (intro ++ s_nl ++ s_nl ++ " - "
                     ++ PyStr.join ". " (map PyStr.capitalize (PyStr.split ". " h)))%string)
              400 ;;;
            ret true
        | None => raise UnboundLocalError
        end
    | None => ret helpset
    end ;;
  pack radio ;;;
  ret helpset'.

Fixpoint radio_loop (radio_holder : cid) (columns : Z) (tk_var : vid)
    (intro : option string) (helpitems : gmap string string)
    (helpset : bool) (choices : list string) : M bool :=
  match choices with
  | [] => ret helpset
  | choice :: rest =>
      helpset' <- radio_step radio_holder columns tk_var intro helpitems helpset choice ;;
      radio_loop radio_holder columns tk_var intro helpitems helpset' rest
  end.

(** [radio_control(choices, columns)]: a group of radio buttons.  The result
    is the group's frame and the new value of [helpset]. *)
Definition radio_control (frame : wid) (title : string) (tk_var : vid)
    (helptext : option string) (choices : option (list string)) (columns : Z)
  : M (wid * bool) :=
  match helptext with
  | None => raise AttributeError
  | Some helptext =>
      let all_help := PyStr.splitlines helptext in
      let intro := if existsb (PyStr.startswith " - ") all_help
                   then hd_error all_help else None in
      helpitems <- help_items all_help ∅ ;;
      ctl <- create_widget
               (mkWidget LabelFrame (Some frame) AutoName (Some (display_title title))
                  None None None [] None None false) ;;
      radio_holder <- new_container ctl columns ;;
      match choices with
      | None => raise TypeError
      | Some choices =>
          helpset <- radio_loop radio_holder columns tk_var intro helpitems false choices ;;
          o <- get_container radio_holder ;;
          ret (parent o, helpset)
      end
  end.

(** [control_to_optionsframe(choices, sysbrowser)]: the controls that are
    no check buttons sit in the main options frame.  The result is the
    control and the file browser attached to it, if any.  The context menu
    of the control belongs to the GUI utilities and leaves no trace in the
    state. *)
Definition control_to_optionsframe (frame : wid) (control : wclass) (tk_var : vid)
    (choices : option (list string)) (sysbrowser_dict : option sysbrowser)
  : M (wid * option bid) :=
  r <- (if wclass_eqb control Checkbutton then
          ctl <- create_widget
                   (mkWidget control (Some frame) AutoName None None (Some tk_var)
                      None [] None None false) ;;
          ret (ctl, None)
        else
          fb <- match sysbrowser_dict with
                | Some d => b <- new_filebrowser tk_var frame d ;; ret (Some b)
                | None => ret None
                end ;;
          ctl <- create_widget
                   (mkWidget control (Some frame) AutoName None None (Some tk_var)
                      None [] None None false) ;;
          ret (ctl, fb)) ;;
  (if has_choices choices
   then configure (fst r) (set_values (default [] choices))
   else ret tt) ;;;
  ret r.

Definition checkbutton (master : wid) (title : string) (tk_var : vid) : widget :=
  mkWidget Checkbutton (Some master) (Named (PyStr.lower title))
    (Some (display_title title)) None (Some tk_var) None [] None None false.

(** [control_to_checkframe()]: check buttons go to the next column of the
    check button frame, with the help text as tooltip whatever it is. *)
Definition control_to_checkframe (chkbtns : option cid) (title : string)
    (tk_var : vid) (helptext : option string) : M wid :=
  match chkbtns with
  | None => raise AttributeError
  | Some chk =>
      chkframe <- subframe chk ;;
      ctl <- create_widget (checkbutton chkframe title tk_var) ;;
      Tooltip ctl helptext 200 ;;;
      pack ctl ;;;
      ret ctl
  end.

(** [set_control_width(ctl, control_width)] *)
Definition set_control_width (ctl : wid) (control_width : option Z) : M unit :=
  match control_width with
  | Some n => configure ctl (set_width n)
  | None => ret tt
  end.

(** [build_one_control(...)]: the control is built and placed.  The result
    is the file browser attached to it, if any, and the value of
    [helpset]. *)
Definition build_one_control (frame : wid) (title : string) (control : wclass)
    (tk_var : vid) (helptext : option string) (chkbtns : option cid)
    (choices : option (list string)) (dt : dtype) (rounding : option num)
    (min_max : option (num * num)) (sysbrowser_dict : option sysbrowser)
    (radio_columns : Z) (control_width : option Z) : M (option bid * bool) :=
  r <- (if wclass_eqb control Scale then
          ctl <- slider_control frame tk_var dt rounding min_max ;;
          ret (ctl, None, false)
        else if wclass_eqb control Radiobutton then
          r <- radio_control frame title tk_var helptext choices radio_columns ;;
          ret (fst r, None, snd r)
        else if wclass_eqb control Checkbutton then
          ctl <- control_to_checkframe chkbtns title tk_var helptext ;;
          ret (ctl, None, false)
        else
          r <- control_to_optionsframe frame control tk_var choices sysbrowser_dict ;;
          ret (fst r, snd r, false)) ;;
  let '(ctl, fb, helpset) := r in
  set_control_width ctl control_width ;;;
  (if negb (wclass_eqb control Checkbutton) then
     pack ctl ;;;
     match helptext with
     | Some _ => if negb helpset then Tooltip ctl helptext 720 else ret tt
     | None => ret tt
     end
   else ret tt) ;;;
  ret (fb, helpset).

(** [build_control(...)]: the label, for the controls that have one, and
    the control. *)
Definition build_control (frame : wid) (title : string) (label_width : Z)
    (control : wclass) (tk_var : vid) (helptext : option string)
    (chkbtns : option cid) (choices : option (list string)) (dt : dtype)
    (rounding : option num) (min_max : option (num * num))
    (sysbrowser_dict : option sysbrowser) (radio_columns : Z)
    (control_width : option Z) : M (option bid * bool) :=
  (if negb (wclass_eqb control Checkbutton || wclass_eqb control Radiobutton)
   then build_control_label frame title label_width helptext
   else ret tt) ;;;
  build_one_control frame title control tk_var helptext chkbtns choices dt
    rounding min_max sysbrowser_dict radio_columns control_width.

(** [ControlBuilder(parent, title, dtype, default, ...)] *)
Definition new_control (parent : wid) (title : string) (dt : dtype)
    (default : pyval) (selected_value : pyval) (choices : option (list string))
    (is_radio : bool) (rounding : option num) (min_max : option (num * num))
    (sysbrowser_dict : option sysbrowser) (helptext : option string)
    (radio_columns : Z) (label_width : Z) (checkbuttons_frame : option cid)
    (control_width : option Z) (blank_nones : bool) : M ControlBuilder :=
  let helptext := format_helptext title helptext in
  frame <- control_frame parent ;;
  let control := set_control dt choices is_radio in
  tk_var <- set_tk_var frame default dt selected_value blank_nones ;;
  r <- build_control frame title label_width control tk_var helptext
         checkbuttons_frame choices dt rounding min_max sysbrowser_dict
         radio_columns control_width ;;
  ret (mkControlBuilder title default helptext (snd r) label_width (fst r) frame
         checkbuttons_frame control tk_var).

(** ** ControlPanel *)

(** The frames of a group: the frame of its controls and the container of
    its check buttons. *)
Record group_frame : Type := mkGroupFrame {
  gf_frame : wid;
  gf_chkbtns : cid }.

(** The ControlPanel object. *)
Record ControlPanel : Type := mkPanel {
  cp_self : wid;
  cp_options : options_map;
  cp_label_width : Z;
  cp_columns : Z;
  cp_radio_columns : Z;
  cp_canvas : wid;
  cp_mainframe : wid;
  optsframe : cid;
  group_frames : gmap string group_frame }.

(** [add_info(frame)]: the header block, one label per non-empty line; the
    last label made is bound to the resize handler. *)
Fixpoint add_info_lines (label_frame : wid) (lines : list string)
    (info : option wid) : M (option wid) :=
  match lines with
  | [] => ret info
  | line :: rest =>
      if String.eqb line "" then add_info_lines label_frame rest info
      else
        lbl <- create_widget
                 (mkWidget Label (Some label_frame) AutoName (Some line) None None
                    None [] None None false) ;;
        pack lbl ;;;
        add_info_lines label_frame rest (Some lbl)
  end.

Definition add_info (frame : wid) (header_text : string) : M unit :=
  info_frame <- create_widget (new_widget Frame (Some frame)) ;;
  pack info_frame ;;;
  label_frame <- create_widget (new_widget Frame (Some info_frame)) ;;
  pack label_frame ;;;
  info <- add_info_lines label_frame (PyStr.splitlines header_text) None ;;
  match info with
  | Some _ => ret tt
  | None => raise UnboundLocalError
  end.

(** [get_opts_frame()]: the main frame and the container of the options. *)
Definition get_opts_frame (canvas : wid) (header_text : option string)
    (columns : Z) : M (wid * cid) :=
  mainframe <- create_widget (new_widget Frame (Some canvas)) ;;
  match header_text with
  | Some h => add_info mainframe h
  | None => ret tt
  end ;;;
  optsframe <- create_widget (new_widget Frame (Some mainframe)) ;;
  pack optsframe ;;;
  holder <- new_container optsframe columns ;;
  ret (mainframe, holder).

(** [add_scrollbar()] *)
Definition add_scrollbar (self : wid) : M unit :=
  scrollbar <- create_widget (new_widget Scrollbar (Some self)) ;;
  pack scrollbar.

(** [checkbuttons_frame(frame)]: the frame and the container that hold the
    check buttons; the frame is not packed here. *)
Definition checkbuttons_frame (frame : wid) (radio_columns : Z) : M cid :=
  chk_frame <- create_widget (named_frame frame (Named "chkbuttons")) ;;
  new_container chk_frame radio_columns.

(** [get_group_frame(group)]: the frames of the group, made on its first
    use. *)
Definition get_group_frame (opts : cid) (radio_columns : Z)
    (gfs : gmap string group_frame) (group : string)
  : M (group_frame * gmap string group_frame) :=
  let group := PyStr.lower group in
  match gfs !! group with
  | Some gf => ret (gf, gfs)
  | None =>
      let is_master := String.eqb group "_master" in
      opts_frame <- subframe opts ;;
      frame <- create_widget
                 (if is_master then named_frame opts_frame (Named (PyStr.lower group))
                  else mkWidget LabelFrame (Some opts_frame) (Named (PyStr.lower group))
                         (Some (PyStr.title group)) None None None [] None None false) ;;
      pack frame ;;;
      chk <- checkbuttons_frame frame radio_columns ;;
      let gf := mkGroupFrame frame chk in
      ret (gf, <[group := gf]> gfs)
  end.

Definition set_built (ctl : ControlBuilder) (d : descriptor) : descriptor :=
  mkDescriptor (o_type d) (o_default d) (o_value d) (o_choices d) (o_gui_radio d)
    (o_rounding d) (o_min_max d) (o_helptext d) (o_group d) (o_sysbrowser d)
    (o_opts d) (Some (tk_var ctl)) (Some ctl).

(** The body of the first loop of [build_panel] for one option. *)
Definition build_option (opts : cid) (label_width radio_columns : Z)
    (blank_nones : bool) (gfs : gmap string group_frame) (key : string)
    (val : item) : M (item * gmap string group_frame) :=
  if String.eqb key "helptext" then ret (val, gfs)
  else
    d <- as_descr val ;;
    let group := default "_master"%string (o_group d) in
    r <- get_group_frame opts radio_columns gfs group ;;
    let '(gf, gfs') := r in
    ctl <- new_control (gf_frame gf) key (o_type d) (o_default d) (o_value d)
             (o_choices d) (o_gui_radio d) (o_rounding d) (o_min_max d)
             (o_sysbrowser d) (o_helptext d) radio_columns label_width
             (Some (gf_chkbtns gf)) None blank_nones ;;
    n <- items (gf_chkbtns gf) ;;
    (if 0 <? n then
       chk <- get_container (gf_chkbtns gf) ;;
       pack (parent chk)
     else ret tt) ;;;
    ret (Descr (set_built ctl d), gfs').

Fixpoint build_options (opts : cid) (label_width radio_columns : Z)
    (blank_nones : bool) (gfs : gmap string group_frame) (todo : options_map)
  : M (options_map * gmap string group_frame) :=
  match todo with
  | [] => ret ([], gfs)
  | (key, val) :: rest =>
      r <- build_option opts label_width radio_columns blank_nones gfs key val ;;
      r' <- build_options opts label_width radio_columns blank_nones (snd r) rest ;;
      ret ((key, fst r) :: fst r', snd r')
  end.

(** The body of the second loop of [build_panel]. *)
Definition finish_option (options : options_map) (entry : string * item) : M unit :=
  if String.eqb (fst entry) "helptext" then ret tt
  else
    d <- as_descr (snd entry) ;;
    ctl <- required (o_gui_option d) ;;
    match filebrowser ctl with
    | Some b => set_context_action_option b options
    | None => ret tt
    end.

(** [build_panel(radio_columns, blank_nones)]: the options frame. *)
Definition build_panel (self : wid) (opts : cid) (label_width radio_columns : Z)
    (blank_nones : bool) (options : options_map)
  : M (options_map * gmap string group_frame) :=
  add_scrollbar self ;;;
  r <- build_options opts label_width radio_columns blank_nones ∅ options ;;
  for_each (fst r) (finish_option (fst r)) ;;;
  ret r.

(** [ControlPanel(parent, options, label_width, columns, radio_columns,
    header_text, blank_nones)] *)
Definition new_panel (parent : wid) (options : options_map) (label_width : Z)
    (columns radio_columns : Z) (header_text : option string)
    (blank_nones : bool) : M ControlPanel :=
  self <- create_widget (new_widget Frame (Some parent)) ;;
  pack self ;;;
  canvas <- create_widget (new_widget Canvas (Some self)) ;;
  pack canvas ;;;
  fr <- get_opts_frame canvas header_text columns ;;
  r <- build_panel self (snd fr) label_width radio_columns blank_nones options ;;
  ret (mkPanel self (fst r) label_width columns radio_columns canvas (fst fr)
         (snd fr) (snd r)).

(** ** Observations on a built panel *)

(** The check buttons routed into a container: the check button widgets
    whose master is one of its columns. *)
Definition routed_checkbuttons (g : gui) (c : cid) : list widget :=
  match containers g !! c with
  | Some o =>
      filter (fun w => wclass_eqb (w_class w) Checkbutton
                       && match w_master w with
                          | Some m => existsb (Nat.eqb m) (subframes o)
                          | None => false
                          end)
        (widgets g)
  | None => []
  end.

(** Whether the check button frame of a group is packed. *)
Definition chkbtns_packed (g : gui) (gf : group_frame) : option bool :=
  match containers g !! gf_chkbtns gf with
  | Some o => w_packed <$> widgets g !! parent o
  | None => None
  end.

(** A state with the root window only. *)
Definition root_gui : gui := mkGui [new_widget Frame None] [] [] [] [].

(** An option of the given type with nothing else set. *)
Definition plain_option (dt : dtype) (default : pyval) : descriptor :=
  mkDescriptor dt default PNone None false None None None None None None None None.

(** A panel with one text option and no check box, built with the default
    column counts. *)
Definition text_only_options : options_map :=
  [("input_dir"%string, Descr (plain_option DStr (PStr "")))].

Definition text_only_panel : result ControlPanel * gui :=
  new_panel 0%nat text_only_options 20 1 4 None true root_gui.

(** ** Fixtures for the file browser *)

(** A dialog service whose every dialog is cancelled. *)
Definition cancelled : string -> string -> option string -> pyval -> option string -> pyval :=
  fun _ _ _ _ _ => PStr "".

(** A dialog service whose multi-file dialog returns two paths. *)
Definition two_files : string -> string -> option string -> pyval -> option string -> pyval :=
  fun mode _ _ _ _ =>
    if String.eqb mode "filename_multi" then PStrs ["a b.txt"; "c.txt"]%string
    else PStr "".

(** A state with a text variable (0) holding a path, an action variable (1)
    and a context file browser on them. *)
Definition browser_gui : gui :=
  mkGui [new_widget Frame None]
        [mkVar StringVar 0%nat (PStr "/old/path"); mkVar StringVar 0%nat (PStr "extract")]
        [] []
        [mkBrowser 0%nat 0%nat ["context"%string] "all" (ActVar 1%nat) (Some "convert"%string)
           (Some "output"%string)].

(** The first command line switch of an option, [item["opts"][0]]. *)
Definition first_opt (d : descriptor) : option string :=
  match o_opts d with
  | Some (key :: _) => Some key
  | _ => None
  end.

(** An option that has its switches and its variable. *)
Definition wired (i : item) : Prop :=
  exists d key v, i = Descr d /\ first_opt d = Some key /\ o_selected d = Some v.

(** The characters of the paths [l], each path between double quotes and
    one space between two quoted paths. *)
Fixpoint quoted_and_spaced (l : list string) : list ascii :=
  match l with
  | [] => []
  | x :: rest =>
      (PyStr.dquote :: list_ascii_of_string x ++ [PyStr.dquote])
      ++ match rest with
         | [] => []
         | _ => " "%char :: quoted_and_spaced rest
         end
  end.

(** An option with the command line switches [opts], built on the variable
    [v]. *)
Definition switch_option (opts : list string) (v : vid) : descriptor :=
  mkDescriptor DStr (PStr "") PNone None false None None None None None
    (Some opts) (Some v) None.

(** The options of a command: an input path (variable 0) and the action
    that decides its dialog (variable 1). *)
Definition context_options : options_map :=
  [("input"%string, Descr (switch_option ["-i"; "--input"]%string 0%nat));
   ("action"%string, Descr (switch_option ["-a"; "--action"]%string 1%nat))].

(** A context file browser as it is before the panel is finished: its
    action option is still the name of a switch. *)
Definition context_browser : FileBrowser :=
  mkBrowser 0%nat 0%nat ["context"%string] "all" (ActName "-a") (Some "convert"%string)
    (Some "output"%string).

Definition unfinished_gui : gui :=
  mkGui [new_widget Frame None]
        [mkVar StringVar 0%nat (PStr "/old/path"); mkVar StringVar 0%nat (PStr "extract")]
        [] [] [context_browser].

(** The reflowed help text of the example: ["R|first.\nL|second item"]. *)
Definition reflow_example : string := ("R|first." ++ s_nl ++ "L|second item")%string.

(** ** Comparing two runs *)

(** Two states that differ in their tooltips at most. *)
Definition same_but_tooltips (g1 g2 : gui) : Prop :=
  widgets g1 = widgets g2 /\ vars g1 = vars g2
  /\ containers g1 = containers g2 /\ browsers g1 = browsers g2.

(** Two results of the same kind: values related by [R], or the same
    exception. *)
Definition same_result {A B} (R : A -> B -> Prop) (r1 : result A) (r2 : result B)
  : Prop :=
  match r1, r2 with
  | Ok a, Ok b => R a b
  | Raise e1, Raise e2 => e1 = e2
  | _, _ => False
  end.

(** Two computations that, run on states that differ in their tooltips at
    most, end alike and in such states again. *)
Definition alike {A B} (R : A -> B -> Prop) (m1 : M A) (m2 : M B) : Prop :=
  forall g1 g2, same_but_tooltips g1 g2 ->
    same_result R (fst (m1 g1)) (fst (m2 g2))
    /\ same_but_tooltips (snd (m1 g1)) (snd (m2 g2)).

(** How a construction ends: without exception, or with which one. *)
Definition outcome {A} (r : result A * gui) : option exn :=
  match fst r with
  | Ok _ => None
  | Raise e => Some e
  end.

(** ** Fixtures for the control builder *)

(** A control built in the root window of [root_gui], next to a check
    button container of four columns. *)
Definition build_sample (dt : dtype) (default : pyval)
    (choices : option (list string)) (is_radio : bool)
    (min_max : option (num * num)) (helptext : option string)
  : result ControlBuilder * gui :=
  (chk <- checkbuttons_frame 0%nat 4 ;;
   new_control 0%nat "sample" dt default PNone choices is_radio (Some (NInt 1))
     min_max None helptext 3 20 (Some chk) None true) root_gui.

Definition two_choices : option (list string) := Some ["fast"; "slow"]%string.

(** The frames [set_subframes] creates for the indices [idxs]. *)
Definition column_frames (p : wid) (base : wname) (idxs : list Z) : list widget :=
  map (fun idx => set_packed (named_frame p (Indexed base idx))) idxs.

(** A computation that leaves every variable as it is. *)
Definition keeps_vars {A} (m : M A) : Prop :=
  forall g, vars (snd (m g)) = vars g.

(** The lattice of a slider with a negative step: the points
    [lo + i * step] above [hi + step], which
    [range(lo, hi + step, step)] runs through downward. *)
Definition on_lattice_down (lo hi step x : Z) : Prop :=
  exists i, 0 <= i /\ x = lo + i * step /\ hi + step < x.

(** [r] is the closest of the points [P] to [n], the highest one on a
    tie. *)
Definition closest_high (P : Z -> Prop) (n r : Z) : Prop :=
  forall x, P x ->
    Z.abs (r - n) <= Z.abs (x - n) /\ (Z.abs (x - n) = Z.abs (r - n) -> x <= r).

(** The button [add_browser_buttons] leaves for a dialog kind, and the
    tooltip of the button at position [i] after [n] widgets. *)
Definition browser_button (b : bid) (frame : wid) (kind : string) : widget :=
  set_packed (button frame (CmdBrowse b kind)).

Definition browser_tooltip (n : nat) (i : nat) (kind : string) : tooltip :=
  mkTooltip (n + i) (browser_helptext kind) 200.

(** ** Fixtures for the panel *)

(** The root window with the container of the options (one column), and
    the first use of the group "Output" on it, with four check button
    columns. *)
Definition panel_ready : gui := snd (new_container 0%nat 1 root_gui).

Definition output_group : result (group_frame * gmap string group_frame) * gui :=
  get_group_frame 0%nat 4 ∅ "Output" panel_ready.

(** The frame [get_group_frame] makes for a group name in lower case, in
    the column [column]: a plain frame for the master group, a titled frame
    for any other. *)
Definition group_widget (column : wid) (group : string) : widget :=
  if String.eqb group "_master" then named_frame column (Named (PyStr.lower group))
  else mkWidget LabelFrame (Some column) (Named (PyStr.lower group))
         (Some (PyStr.title group)) None None None [] None None false.

(** The label [add_info] makes for a line of the header, and the lines it
    makes one for. *)
Definition header_label (label_frame : wid) (line : string) : widget :=
  set_packed (mkWidget Label (Some label_frame) AutoName (Some line) None None
                None [] None None false).

Definition header_lines (header_text : string) : list string :=
  List.filter (fun line => negb (String.eqb line "")) (PyStr.splitlines header_text).

(** A computation that only adds variables, after those there are. *)
Definition grows_vars {A} (m : M A) : Prop :=
  forall g, exists more, vars (snd (m g)) = vars g ++ more.

(** What the first loop of [build_panel] makes of an entry of the options
    mapping, seen from the table of group frames [gfs'] and the state [g']
    the loop ends with.  The entry under [helptext] is left as it is.  Any
    other is the dict [d] of an option and becomes this dict with
    [selected] and [_gui_option] set, all other keys as they were:
    [_gui_option] is the control [ctl] that the constructor returned for
    this option, called with the key as title and the values of [d] in the
    frame [gf] of the option's group, and [selected] is the variable of
    [ctl], which in [g'] is of the class of the option's type, belongs to
    the frame of the control and holds the initial value of the option. *)
Definition built_entry (label_width radio_columns : Z) (blank_nones : bool)
    (gfs' : gmap string group_frame) (g' : gui) (e e' : string * item) : Prop :=
  fst e' = fst e
  /\ if String.eqb (fst e) "helptext" then snd e' = snd e
     else exists d ctl gf g0 g1 y,
         snd e = Descr d
         /\ snd e'
            = Descr (mkDescriptor (o_type d) (o_default d) (o_value d) (o_choices d)
                       (o_gui_radio d) (o_rounding d) (o_min_max d) (o_helptext d)
                       (o_group d) (o_sysbrowser d) (o_opts d)
                       (Some (tk_var ctl)) (Some ctl))
         /\ gfs' !! PyStr.lower (default "_master"%string (o_group d)) = Some gf
         /\ new_control (gf_frame gf) (fst e) (o_type d) (o_default d) (o_value d)
              (o_choices d) (o_gui_radio d) (o_rounding d) (o_min_max d)
              (o_sysbrowser d) (o_helptext d) radio_columns label_width
              (Some (gf_chkbtns gf)) None blank_nones g0 = (Ok ctl, g1)
         /\ converted (var_class_of (o_type d))
              (let val := if is_none (o_value d) then o_default d else o_value d in
               if is_none val && blank_nones then PStr "" else val) = Ok y
         /\ vars g' !! tk_var ctl
            = Some (mkVar (var_class_of (o_type d)) (cb_frame ctl) y).

(** The options of [text_only_options] built on [panel_ready]. *)
Definition text_only_built
  : result (options_map * gmap string group_frame) * gui :=
  build_options 0%nat 20 4 true ∅ text_only_options panel_ready.

(** The help text after the first step of [format_helptext], before the
    capitalization: the reflow markers rewritten, or the tab bullets and
    the doubled percent signs. *)
Definition marked_up (helptext : string) : string :=
  if PyStr.startswith "R|" helptext
  then PyStr.replace s_nl (s_nl ++ s_nl)
         (PyStr.replace (s_nl ++ "L|") (s_nl ++ " - ") (PyStr.drop 2 helptext))
  else PyStr.replace "%%" "%"
         (PyStr.replace (s_nl ++ PyStr.chr PyStr.tab) (s_nl ++ "  - ") helptext).

(** The exception with which the variable of an option refuses its initial
    value, None when it takes it. *)
Definition refused (dt : dtype) (default selected : pyval) (blank_nones : bool)
  : option exn :=
  let val := if is_none selected then default else selected in
  let val := if is_none val && blank_nones then PStr "" else val in
  match converted (var_class_of dt) val with
  | Ok _ => None
  | Raise e => Some e
  end.

(** * Properties *)

Example format_helptext_plain :
  format_helptext "scale" (Some "the size. in pixels. 100%% is FULL")
  = Some "scale - The size. In pixels. 100% is full"%string.
Proof. vm_compute. reflexivity. Qed.

(** ** Slider rounding *)

Example slide_34 : slide 34 = Some (PNum (NInt 30)).
Proof. vm_compute. reflexivity. Qed.

Example slide_35 : slide 35 = Some (PNum (NInt 30)).
Proof. vm_compute. reflexivity. Qed.

Example slide_36 : slide 36 = Some (PNum (NInt 40)).
Proof. vm_compute. reflexivity. Qed.

Example slide_35_5 : slide (71 # 2) = Some (PNum (NInt 30)).
Proof. vm_compute. reflexivity. Qed.

Section MinFrom.
Variable key : Z -> Z.

(** [min_from] returns the first element of minimal key. *)
Lemma min_from_first (l : list Z) : forall best,
  exists l1 l2,
    best :: l = l1 ++ min_from key best l :: l2
    /\ Forall (fun x => key (min_from key best l) < key x) l1
    /\ Forall (fun x => key (min_from key best l) <= key x) l2
    /\ key (min_from key best l) <= key best.
Proof.
  induction l as [|x0 l' IH]; intros best; simpl.
  - exists [], []. repeat split; auto; lia.
  - destruct (Z.ltb_spec (key x0) (key best)) as [Hlt|Hge].
    + destruct (IH x0) as (l1 & l2 & Heq & H1 & H2 & H3).
      exists (best :: l1), l2. rewrite Heq. repeat split; auto; try lia.
      constructor; auto. lia.
    + destruct (IH best) as (l1 & l2 & Heq & H1 & H2 & H3).
      destruct l1 as [|b l1'].
      * simpl in Heq. injection Heq as Hb Hl.
        rewrite <- Hb in H2 |- *. subst l2.
        exists [], (x0 :: l'). simpl.
        repeat split; auto; try lia.
      * simpl in Heq. injection Heq as Hb Hl. subst b.
        exists (best :: x0 :: l1'), l2.
        inversion H1; subst.
        split; [simpl; do 2 f_equal; exact Hl|].
        repeat split; auto; try lia.
        constructor; auto. constructor; auto. lia.
Qed.
End MinFrom.

(** Where [map f (seq k n)] is cut, the cut element is [f] of its position
    and every earlier position lies before the cut. *)
Lemma map_seq_split (f : nat -> Z) (l1 : list Z) : forall k n r l2,
  map f (seq k n) = l1 ++ r :: l2 ->
  r = f (k + length l1)%nat /\ (length l1 < n)%nat
  /\ (forall j, (k <= j < k + length l1)%nat -> In (f j) l1).
Proof.
  induction l1 as [|x l1 IH]; intros k n r l2 Heq.
  - destruct n as [|n]; [discriminate|]. simpl in Heq. injection Heq as Hr _.
    simpl. rewrite Nat.add_0_r. repeat split; [congruence | lia | lia].
  - destruct n as [|n]; [discriminate|]. simpl in Heq. injection Heq as Hx Hl.
    destruct (IH _ _ _ _ Hl) as (Hr & Hn & Hin). simpl.
    split; [rewrite Hr; f_equal; lia|]. split; [lia|].
    intros j Hj. destruct (Nat.eq_dec j k) as [->|Hne]; [left; congruence|].
    right. apply Hin. lia.
Qed.

Lemma range_len_pos (lo stop step : Z) :
  0 < step -> lo < stop ->
  0 < range_len lo stop step
  /\ forall i, 0 <= i -> (lo + i * step < stop <-> i < range_len lo stop step).
Proof.
  intros Hs Hlt. unfold range_len.
  destruct (Z.ltb_spec 0 step); [|lia]. destruct (Z.ltb_spec lo stop); [|lia].
  pose proof (Z.div_pos (stop - lo - 1) step ltac:(lia) Hs) as Hq.
  split; [lia|]. intros i Hi.
  pose proof (Z.mul_div_le (stop - lo - 1) step Hs) as Hle.
  pose proof (Z.mul_succ_div_gt (stop - lo - 1) step Hs) as Hgt.
  split; intros H'; nia.
Qed.

(** The integer branch on a positive step: the value written is the first
    minimum of [range(lo, hi + step, step)] for the distance to [n]. *)
Lemma snap_closest (lo hi step n : Z) :
  0 < step -> lo < hi + step ->
  exists l r,
    py_range lo (hi + step) step = Ok l
    /\ py_min (fun x => Z.abs (x - n)) l = Ok r
    /\ on_lattice lo hi step r
    /\ closest_low (on_lattice lo hi step) n r.
Proof.
  intros Hs Hlt.
  destruct (range_len_pos lo (hi + step) step Hs Hlt) as [Hpos Hlen].
  unfold py_range. destruct (Z.eqb_spec step 0) as [?|_]; [lia|].
  set (f := fun i : nat => lo + Z.of_nat i * step).
  set (len := Z.to_nat (range_len lo (hi + step) step)).
  assert (Hlen0 : (0 < len)%nat) by (unfold len; lia).
  destruct len as [|len'] eqn:Elen; [lia|].
  eexists. exists (min_from (fun x => Z.abs (x - n)) (f 0%nat) (map f (seq 1 len'))).
  split; [reflexivity|]. split; [reflexivity|].
  destruct (min_from_first (fun x => Z.abs (x - n)) (map f (seq 1 len')) (f 0%nat))
    as (l1 & l2 & Heq & H1 & H2 & _).
  set (r := min_from _ _ _) in *.
  change (f 0%nat :: map f (seq 1 len')) with (map f (seq 0 (S len'))) in Heq.
  destruct (map_seq_split f l1 _ _ _ _ Heq) as (Hr & Hl1 & Hin). simpl in Hr.
  assert (Hon : on_lattice lo hi step r).
  { exists (Z.of_nat (length l1)). split; [lia|]. split; [exact Hr|].
    rewrite Hr. unfold f. apply Hlen; lia. }
  split; [exact Hon|].
  intros x (i & Hi & Hx & Hxlt).
  assert (Hilt : (Z.to_nat i < S len')%nat).
  { rewrite Hx in Hxlt. apply Hlen in Hxlt; [|exact Hi]. lia. }
  assert (Hxf : x = f (Z.to_nat i)) by (unfold f; rewrite Z2Nat.id by lia; exact Hx).
  assert (Hxin : In x (l1 ++ r :: l2)).
  { rewrite <- Heq, Hxf. apply in_map. apply in_seq. lia. }
  rewrite Forall_forall in H1, H2.
  split.
  - apply in_app_or in Hxin. destruct Hxin as [Hx1|[Hxr|Hx2]].
    + apply list_elem_of_In, H1 in Hx1. lia.
    + subst x. rewrite Hxr. lia.
    + apply list_elem_of_In, H2 in Hx2. lia.
  - intros Htie.
    destruct (Nat.lt_ge_cases (Z.to_nat i) (length l1)) as [Hlt1|Hge1].
    + assert (Hx1 : In x l1) by (rewrite Hxf; apply Hin; lia).
      apply list_elem_of_In, H1 in Hx1. lia.
    + rewrite Hr, Hx. unfold f. nia.
Qed.

(** C3, as the code has it: on a value-change of an integer slider with a
    positive step and a non-empty lattice, the raw value is first truncated
    toward zero to an integer [n]; the variable is then set to the point of
    the lattice [lo, lo + step, ...] below [hi + step] that is closest to
    [n], the lower one when two are equally close.  For [n <= hi] (the
    slider's own range) it is also the closest among the points up to
    [hi + step] included. *)
Theorem slider_snaps_truncated_value
    (value : Q) (var : vid) (lo hi step : Z) (g : gui) :
  0 < step -> lo < hi + step ->
  exists r,
    set_slider_rounding value var DInt (Some (NInt step)) (Some (NInt lo, NInt hi)) g
    = var_set var (PNum (NInt r)) g
    /\ on_lattice lo hi step r
    /\ closest_low (on_lattice lo hi step) (int_of_float value) r
    /\ (int_of_float value <= hi ->
        closest_low (on_lattice_le lo hi step) (int_of_float value) r).
Proof.
  intros Hs Hlt.
  destruct (snap_closest lo hi step (int_of_float value) Hs Hlt)
    as (l & r & Hrange & Hmin & Hon & Hclose).
  exists r. split; [|split; [exact Hon|split; [exact Hclose|]]].
  - unfold set_slider_rounding. simpl. unfold bind, lift.
    rewrite Hrange, Hmin. reflexivity.
  - intros Hn x (i & Hi & Hx & Hxle).
    destruct (Z.eq_dec x (hi + step)) as [Htop|Hne].
    + assert (Hhi : on_lattice lo hi step hi).
      { exists (i - 1). split; [nia|]. split; lia. }
      destruct (Hclose hi Hhi) as [Hd _]. split; [lia|]. intros Htie. lia.
    + apply Hclose. exists i. split; [exact Hi|]. split; [exact Hx|lia].
Qed.

Lemma slider_snaps_truncated_value_witness :
  exists r,
    set_slider_rounding 35 0%nat DInt (Some (NInt 10)) (Some (NInt 0, NInt 100)) one_var
    = var_set 0%nat (PNum (NInt r)) one_var
    /\ on_lattice 0 100 10 r
    /\ closest_low (on_lattice 0 100 10) (int_of_float 35) r
    /\ (int_of_float 35 <= 100 ->
        closest_low (on_lattice_le 0 100 10) (int_of_float 35) r).
Proof.
  apply (slider_snaps_truncated_value 35 0%nat 0 100 10 one_var); lia.
Defined.

(** The value written is not always the lattice point closest to the raw
    value: the slider of bounds (0, 100) and step 10 moved to 35.5 is set to
    30, and 40 is closer. *)
Lemma slider_raw_value_not_closest :
  ~ (forall value : Q, exists r,
       slide value = Some (PNum (NInt r))
       /\ closest_to_raw (on_lattice_le 0 100 10) value r).
Proof.
  intros H. destruct (H (71 # 2)) as (r & Hr & Hc).
  vm_compute in Hr. injection Hr as <-.
  assert (Hon : on_lattice_le 0 100 10 40) by (exists 4; lia).
  specialize (Hc 40 Hon). vm_compute in Hc. apply Hc. reflexivity.
Qed.

(** ** AutoFillContainer *)

Ltac gui_simpl :=
  cbn [containers widgets vars tooltips browsers columns parent _items _idx
       subframes negb fst snd].

Lemma alter_last {A} (f : A -> A) (l : list A) (x : A) :
  alter f (length l) (l ++ [x]) = l ++ [f x].
Proof.
  replace (length l) with (length l + 0)%nat by lia.
  rewrite alter_app_r. reflexivity.
Qed.

Lemma lookup_last {A} (l : list A) (x : A) : (l ++ [x]) !! length l = Some x.
Proof. apply list_lookup_middle. reflexivity. Qed.

Section SetSubframes.
Variables (p : wid) (C : Z) (base : wname).
Variables (vs : list tkvar) (ts : list tooltip) (bs : list FileBrowser).
Variable cs : list AutoFillContainer.

(** With more than one column the loop creates and packs one frame per
    index, under the parent, and counts it. *)
Lemma set_subframes_loop_many (idxs : list Z) : C <> 1 ->
  forall ws acc it,
    (exists pw, ws !! p = Some pw /\ w_name pw = base) ->
    set_subframes_loop (length cs) acc idxs
      (mkGui ws vs ts (cs ++ [mkContainer p C it 0 []]) bs)
    = (Ok (acc ++ seq (length ws) (length idxs)),
       mkGui (ws ++ column_frames p base idxs) vs ts
         (cs ++ [mkContainer p C (it + Z.of_nat (length idxs)) 0 []]) bs).
Proof.
  intros HC. induction idxs as [|idx rest IH]; intros ws acc it (pw & Hp & Hb).
  - simpl. unfold ret. rewrite !app_nil_r, Z.add_0_r. reflexivity.
  - cbn [set_subframes_loop]. unfold bind at 1.
    unfold set_subframes_step, bind, get_container, winfo_name, create_widget,
      pack, update_container, ret, with_widgets, with_containers.
    gui_simpl. rewrite lookup_last. gui_simpl.
    destruct (Z.eqb_spec C 1) as [?|_]; [contradiction|]. gui_simpl.
    rewrite Hp, Hb. gui_simpl.
    rewrite !alter_last. unfold incr_items. gui_simpl.
    rewrite IH.
    + rewrite length_app. cbn [length column_frames map].
      rewrite <- !app_assoc. cbn [app].
      replace (it + 1 + Z.of_nat (length rest))
        with (it + Z.of_nat (S (length rest))) by lia.
      replace (length ws + 1)%nat with (S (length ws)) by lia. reflexivity.
    + exists pw. split; [|exact Hb]. apply lookup_app_l_Some. exact Hp.
Qed.
End SetSubframes.

Lemma length_range0 (n : Z) : length (range0 n) = Z.to_nat n.
Proof. unfold range0. rewrite length_map, length_seq. reflexivity. Qed.

(** Construction with a column count other than 1, on an existing parent:
    one packed frame per column is created under the parent, the columns
    are these frames, and [_items] is the number of columns. *)
Lemma new_container_many (p : wid) (C : Z) (g : gui) (pw : widget) :
  C <> 1 -> widgets g !! p = Some pw ->
  new_container p C g
  = (Ok (length (containers g)),
     mkGui (widgets g ++ column_frames p (w_name pw) (range0 C)) (vars g) (tooltips g)
       (containers g ++
          [mkContainer p C (Z.of_nat (Z.to_nat C)) 0
             (seq (length (widgets g)) (Z.to_nat C))])
       (browsers g)).
Proof.
  intros HC Hp. destruct g as [ws vs ts cs bs]. cbn [widgets] in Hp. gui_simpl.
  unfold new_container, bind at 1. unfold with_containers. gui_simpl.
  unfold bind at 1. unfold set_subframes, bind at 1, get_container. gui_simpl.
  rewrite lookup_last. gui_simpl.
  rewrite (set_subframes_loop_many p C (w_name pw) vs ts bs cs (range0 C) HC ws [] 0)
    by (exists pw; auto).
  unfold bind, update_container, ret, with_containers. gui_simpl.
  rewrite alter_last. unfold set_subframes_field. gui_simpl.
  rewrite length_range0. reflexivity.
Qed.

(** Construction with one column: no widget is created and the single
    column is the parent itself. *)
Lemma new_container_one (p : wid) (g : gui) :
  new_container p 1 g
  = (Ok (length (containers g)),
     with_containers (fun cs => cs ++ [mkContainer p 1 1 0 [p]]) g).
Proof.
  destruct g as [ws vs ts cs bs].
  unfold new_container, bind at 1. unfold with_containers. gui_simpl.
  unfold bind at 1. unfold set_subframes, bind at 1, get_container. gui_simpl.
  rewrite lookup_last. gui_simpl. change (range0 1) with [0].
  cbn [set_subframes_loop]. unfold bind at 1.
  unfold set_subframes_step, bind, get_container, update_container, ret,
    with_containers. gui_simpl.
  rewrite lookup_last. gui_simpl. cbn [Z.eqb Pos.eqb negb app].
  gui_simpl. rewrite !alter_last. reflexivity.
Qed.

(** A request on a container whose cursor is inside its columns returns the
    column at the cursor and moves the cursor on, back to 0 after the last
    column. *)
Lemma subframe_run (c : cid) (g : gui) (o : AutoFillContainer) :
  containers g !! c = Some o ->
  0 <= _idx o < Z.of_nat (length (subframes o)) ->
  exists w,
    subframes o !! Z.to_nat (_idx o) = Some w
    /\ subframe c g
       = (Ok w, with_containers
                  (alter (set_idx (if negb (_idx o + 1 =? columns o)
                                   then _idx o + 1 else 0)) c) g).
Proof.
  intros Hc Hidx.
  destruct (lookup_lt_is_Some_2 (subframes o) (Z.to_nat (_idx o))) as [w Hw]; [lia|].
  exists w. split; [exact Hw|].
  unfold subframe, bind, get_container, lift, update_container, ret.
  rewrite Hc. unfold py_index.
  destruct (Z.ltb_spec (_idx o) 0) as [?|_]; [lia|].
  destruct (Z.ltb_spec (_idx o) 0) as [?|_]; [lia|].
  destruct (Z.leb_spec (Z.of_nat (length (subframes o))) (_idx o)) as [?|_]; [lia|].
  cbn [orb]. rewrite Hw. reflexivity.
Qed.

Lemma map_Some_inj {A} (l1 l2 : list A) : map Some l1 = map Some l2 -> l1 = l2.
Proof.
  revert l2. induction l1 as [|x l1 IH]; intros [|y l2] H; try discriminate; auto.
  simpl in H. injection H as Hx Hl. f_equal; auto.
Qed.

Lemma map_lookup_seq {A} (l : list A) :
  map (fun j => l !! j) (seq 0 (length l)) = map Some l.
Proof.
  induction l as [|x l IH]; [reflexivity|].
  cbn [length seq map]. rewrite <- seq_shift, map_map. cbn [lookup list_lookup].
  f_equal. exact IH.
Qed.

(** [k] requests in a row return the columns in cyclic order from the
    cursor on. *)
Lemma requests_run (c : cid) (k : nat) : forall (g : gui) (o : AutoFillContainer),
  containers g !! c = Some o ->
  1 <= columns o -> length (subframes o) = Z.to_nat (columns o) ->
  0 <= _idx o < columns o ->
  exists rs gk,
    requests c k g = (Ok rs, gk)
    /\ map Some rs
       = map (fun j => subframes o !! Z.to_nat ((_idx o + Z.of_nat j) mod columns o))
           (seq 0 k).
Proof.
  induction k as [|k IH]; intros g o Hc HC Hlen Hidx.
  - exists [], g. split; reflexivity.
  - destruct (subframe_run c g o Hc ltac:(lia)) as (w & Hw & Hrun).
    set (next := if negb (_idx o + 1 =? columns o) then _idx o + 1 else 0) in *.
    set (g1 := with_containers (alter (set_idx next) c) g) in *.
    assert (Hc1 : containers g1 !! c = Some (set_idx next o)).
    { unfold g1, with_containers. gui_simpl.
      rewrite list_lookup_alter_eq, Hc. reflexivity. }
    assert (Hnext : 0 <= next < columns o).
    { unfold next. destruct (Z.eqb_spec (_idx o + 1) (columns o)); cbn [negb]; lia. }
    destruct (IH g1 (set_idx next o) Hc1 HC Hlen Hnext) as (rs & gk & Hreq & Hrs).
    exists (w :: rs), gk. split.
    + cbn [requests]. unfold bind. rewrite Hrun, Hreq. reflexivity.
    + cbn [seq map]. f_equal.
      * rewrite Z.add_0_r, Z.mod_small by lia. symmetry. exact Hw.
      * rewrite Hrs, <- seq_shift, map_map. apply map_ext. intros j.
        unfold set_idx. gui_simpl. f_equal. f_equal. unfold next.
        destruct (Z.eqb_spec (_idx o + 1) (columns o)) as [He|Hne]; cbn [negb].
        -- replace (_idx o + Z.of_nat (S j)) with (0 + Z.of_nat j + 1 * columns o) by lia.
           rewrite Z_mod_plus_full. reflexivity.
        -- f_equal. lia.
Qed.

(** What construction yields for any column count [C >= 1] on an existing
    parent: a fresh container with [C] columns and the cursor on column 0. *)
Lemma new_container_ready (p : wid) (C : Z) (g : gui) :
  1 <= C -> is_Some (widgets g !! p) ->
  exists c g0 o,
    new_container p C g = (Ok c, g0)
    /\ containers g0 !! c = Some o
    /\ columns o = C /\ _idx o = 0 /\ _items o = C
    /\ length (subframes o) = Z.to_nat C.
Proof.
  intros HC [pw Hp]. destruct (Z.eq_dec C 1) as [->|Hne].
  - rewrite new_container_one. do 3 eexists. split; [reflexivity|].
    unfold with_containers. gui_simpl. rewrite lookup_last.
    split; [reflexivity|]. repeat split.
  - rewrite (new_container_many p C g pw Hne Hp). do 3 eexists.
    split; [reflexivity|]. gui_simpl. rewrite lookup_last.
    split; [reflexivity|]. gui_simpl. rewrite length_seq. repeat split. lia.
Qed.

(** C2: for a container built with [C >= 1] columns, the [k] first
    next-column requests all succeed and request number [j + 1] returns
    column [j mod C]; the first [C] requests return the columns, each once
    and in order, and the request after them returns column 0 again. *)
Theorem next_column_round_robin (p : wid) (C : Z) (g : gui) :
  1 <= C -> is_Some (widgets g !! p) ->
  exists c g0 o,
    new_container p C g = (Ok c, g0)
    /\ containers g0 !! c = Some o
    /\ length (subframes o) = Z.to_nat C
    /\ (forall k : nat, exists rs gk,
          requests c k g0 = (Ok rs, gk)
          /\ map Some rs
             = map (fun j => subframes o !! Z.to_nat (Z.of_nat j mod C)) (seq 0 k))
    /\ (exists gC, requests c (Z.to_nat C) g0 = (Ok (subframes o), gC))
    /\ (exists gC, requests c (S (Z.to_nat C)) g0
                   = (Ok (subframes o ++ take 1 (subframes o)), gC)).
Proof.
  intros HC Hp.
  destruct (new_container_ready p C g HC Hp)
    as (c & g0 & o & Hnew & Hc & Hcols & Hidx & _ & Hlen).
  exists c, g0, o. split; [exact Hnew|]. split; [exact Hc|]. split; [exact Hlen|].
  assert (Hall : forall k : nat, exists rs gk,
             requests c k g0 = (Ok rs, gk)
             /\ map Some rs
                = map (fun j => subframes o !! Z.to_nat (Z.of_nat j mod C)) (seq 0 k)).
  { intros k.
    destruct (requests_run c k g0 o Hc ltac:(lia) ltac:(congruence) ltac:(lia))
      as (rs & gk & Hreq & Hrs).
    exists rs, gk. split; [exact Hreq|]. rewrite Hrs, Hidx, Hcols. reflexivity. }
  assert (Hfirst : map (fun j => subframes o !! Z.to_nat (Z.of_nat j mod C))
                     (seq 0 (Z.to_nat C)) = map Some (subframes o)).
  { rewrite <- map_lookup_seq, Hlen. apply map_ext_in. intros j Hj.
    apply in_seq in Hj. rewrite Z.mod_small by lia. rewrite Nat2Z.id. reflexivity. }
  split; [exact Hall|]. split.
  - destruct (Hall (Z.to_nat C)) as (rs & gk & Hreq & Hrs).
    exists gk. rewrite Hreq. f_equal. f_equal. apply map_Some_inj.
    rewrite Hrs. exact Hfirst.
  - destruct (Hall (S (Z.to_nat C))) as (rs & gk & Hreq & Hrs).
    exists gk. rewrite Hreq. f_equal. f_equal. apply map_Some_inj.
    rewrite Hrs, seq_S, !map_app, Hfirst. f_equal. cbn [map Nat.add].
    rewrite Z2Nat.id, Z.mod_same by lia. cbn [Z.to_nat].
    destruct (subframes o) as [|x l]; [simpl in Hlen; lia|]. reflexivity.
Qed.

Lemma next_column_round_robin_witness :
  exists c g0 o,
    new_container 0%nat 3 one_var = (Ok c, g0)
    /\ containers g0 !! c = Some o
    /\ length (subframes o) = Z.to_nat 3
    /\ (forall k : nat, exists rs gk,
          requests c k g0 = (Ok rs, gk)
          /\ map Some rs
             = map (fun j => subframes o !! Z.to_nat (Z.of_nat j mod 3)) (seq 0 k))
    /\ (exists gC, requests c (Z.to_nat 3) g0 = (Ok (subframes o), gC))
    /\ (exists gC, requests c (S (Z.to_nat 3)) g0
                   = (Ok (subframes o ++ take 1 (subframes o)), gC)).
Proof.
  apply (next_column_round_robin 0%nat 3 one_var); [lia|].
  eexists. reflexivity.
Defined.

Example round_robin_3 :
  fst ((c <- new_container 0%nat 3 ;; requests c 7) one_var)
  = Ok [1; 2; 3; 1; 2; 3; 1]%nat.
Proof. vm_compute. reflexivity. Qed.

(** Requests move the cursor only: no widget is created or changed. *)
Lemma subframe_widgets (c : cid) (g g' : gui) (r : result wid) :
  subframe c g = (r, g') -> widgets g' = widgets g.
Proof.
  unfold subframe, bind, get_container, lift, update_container, ret.
  destruct (containers g !! c) as [o|]; [|intros [= _ <-]; reflexivity].
  destruct (py_index (subframes o) (_idx o)); intros [= _ <-]; reflexivity.
Qed.

Lemma requests_widgets (c : cid) (k : nat) : forall (g g' : gui) r,
  requests c k g = (r, g') -> widgets g' = widgets g.
Proof.
  induction k as [|k IH]; intros g g' r.
  - intros [= _ <-]. reflexivity.
  - cbn [requests]. unfold bind at 1.
    destruct (subframe c g) as [[w|e] g1] eqn:Hs.
    + apply subframe_widgets in Hs. unfold bind, ret.
      destruct (requests c k g1) as [[rs|e] g2] eqn:Hr; intros [= _ <-];
        apply IH in Hr; congruence.
    + apply subframe_widgets in Hs. intros [= _ <-]. exact Hs.
Qed.

(** C8: with one column no region is created and every next-column request
    returns the parent itself; with [C > 1] columns construction creates
    exactly [C] new frames under the parent, and these, all different from
    the parent and from each other, are the columns. *)
Theorem one_column_is_parent_else_new_frames (p : wid) (C : Z) (g : gui) :
  is_Some (widgets g !! p) ->
  (exists c g0,
      new_container p 1 g = (Ok c, g0)
      /\ widgets g0 = widgets g
      /\ forall k : nat, exists rs gk,
           requests c k g0 = (Ok rs, gk)
           /\ length rs = k /\ Forall (fun w => w = p) rs
           /\ widgets gk = widgets g)
  /\ (1 < C ->
      exists c g0 o news,
        new_container p C g = (Ok c, g0)
        /\ containers g0 !! c = Some o
        /\ widgets g0 = widgets g ++ news
        /\ length news = Z.to_nat C
        /\ Forall (fun w => w_class w = Frame /\ w_master w = Some p) news
        /\ subframes o = seq (length (widgets g)) (Z.to_nat C)
        /\ NoDup (subframes o)
        /\ Forall (fun w => w <> p) (subframes o)).
Proof.
  intros [pw Hp]. split.
  - rewrite new_container_one. do 2 eexists. split; [reflexivity|].
    split; [reflexivity|]. intros k.
    set (g0 := with_containers _ g).
    assert (Hc : containers g0 !! length (containers g)
                 = Some (mkContainer p 1 1 0 [p])).
    { unfold g0, with_containers. gui_simpl. apply lookup_last. }
    destruct (requests_run _ k g0 _ Hc ltac:(simpl; lia) eq_refl ltac:(simpl; lia))
      as (rs & gk & Hreq & Hrs).
    exists rs, gk. split; [exact Hreq|]. cbn [columns _idx subframes] in Hrs.
    assert (Hrs' : map Some rs = map (fun _ => Some p) (seq 0 k)).
    { rewrite Hrs. apply map_ext. intros j. rewrite Z.mod_1_r. reflexivity. }
    split; [|split].
    + apply (f_equal (@length _)) in Hrs'.
      rewrite !length_map, length_seq in Hrs'. exact Hrs'.
    + apply Forall_forall. intros w Hw. apply list_elem_of_In in Hw.
      apply (in_map Some) in Hw. rewrite Hrs' in Hw.
      apply in_map_iff in Hw. destruct Hw as (_ & Heq & _). congruence.
    + apply requests_widgets in Hreq. exact Hreq.
  - intros HC. rewrite (new_container_many p C g pw ltac:(lia) Hp).
    do 4 eexists. split; [reflexivity|]. gui_simpl. rewrite lookup_last.
    split; [reflexivity|]. split; [reflexivity|]. gui_simpl.
    split; [unfold column_frames; rewrite length_map; apply length_range0|].
    split; [|split; [reflexivity|split]].
    + unfold column_frames. apply Forall_forall. intros w Hw.
      apply list_elem_of_In, in_map_iff in Hw. destruct Hw as (idx & <- & _).
      split; reflexivity.
    + apply NoDup_seq.
    + apply Forall_forall. intros w Hw. apply list_elem_of_In, in_seq in Hw.
      apply lookup_lt_Some in Hp. lia.
Qed.

Lemma one_column_is_parent_else_new_frames_witness :
  (exists c g0,
      new_container 0%nat 1 one_var = (Ok c, g0)
      /\ widgets g0 = widgets one_var
      /\ forall k : nat, exists rs gk,
           requests c k g0 = (Ok rs, gk)
           /\ length rs = k /\ Forall (fun w => w = 0%nat) rs
           /\ widgets gk = widgets one_var)
  /\ (1 < 4 ->
      exists c g0 o news,
        new_container 0%nat 4 one_var = (Ok c, g0)
        /\ containers g0 !! c = Some o
        /\ widgets g0 = widgets one_var ++ news
        /\ length news = Z.to_nat 4
        /\ Forall (fun w => w_class w = Frame /\ w_master w = Some 0%nat) news
        /\ subframes o = seq (length (widgets one_var)) (Z.to_nat 4)
        /\ NoDup (subframes o)
        /\ Forall (fun w => w <> 0%nat) (subframes o)).
Proof.
  apply (one_column_is_parent_else_new_frames 0%nat 4 one_var).
  eexists. reflexivity.
Defined.

(** ** ControlPanel *)

(** [_items] is only counted up by [set_subframes], once per column: a
    request leaves it as it is. *)
Lemma subframe_keeps_items (c : cid) (g g' : gui) (r : result wid)
    (o : AutoFillContainer) :
  containers g !! c = Some o -> subframe c g = (r, g') ->
  exists o', containers g' !! c = Some o' /\ _items o' = _items o.
Proof.
  intros Hc. unfold subframe, bind, get_container, lift, update_container, ret.
  rewrite Hc. destruct (py_index (subframes o) (_idx o)); intros [= _ <-].
  - unfold with_containers. gui_simpl. rewrite list_lookup_alter_eq, Hc.
    eexists. split; reflexivity.
  - exists o. split; [exact Hc|reflexivity].
Qed.

Lemma requests_keep_items (c : cid) (k : nat) :
  forall (g g' : gui) (r : result (list wid)) (o : AutoFillContainer),
    containers g !! c = Some o -> requests c k g = (r, g') ->
    exists o', containers g' !! c = Some o' /\ _items o' = _items o.
Proof.
  induction k as [|k IH]; intros g g' r o Hc.
  - intros [= _ <-]. exists o. split; [exact Hc|reflexivity].
  - cbn [requests]. unfold bind at 1.
    destruct (subframe c g) as [[w|e] g1] eqn:Hs;
      destruct (subframe_keeps_items c g g1 _ o Hc Hs) as (o1 & Hc1 & Hi1).
    + unfold bind, ret.
      destruct (requests c k g1) as [[rs|e] g2] eqn:Hr; intros [= _ <-];
        destruct (IH _ _ _ _ Hc1 Hr) as (o2 & Hc2 & Hi2);
        exists o2; (split; [exact Hc2|congruence]).
    + intros [= _ <-]. exists o1. split; [exact Hc1|exact Hi1].
Qed.

(** X24: the property [items] of a container is its number of columns,
    right after construction and after any number of requests: placing
    children never counts. *)
Lemma items_counts_columns (p : wid) (C : Z) (g : gui) (k : nat) :
  1 <= C -> is_Some (widgets g !! p) ->
  exists c g0 rs gk,
    new_container p C g = (Ok c, g0)
    /\ requests c k g0 = (Ok rs, gk)
    /\ fst (items c g0) = Ok C
    /\ fst (items c gk) = Ok C.
Proof.
  intros HC Hp.
  destruct (new_container_ready p C g HC Hp)
    as (c & g0 & o & Hnew & Hc & Hcols & Hidx & Hitems & Hlen).
  destruct (requests_run c k g0 o Hc ltac:(lia) ltac:(congruence) ltac:(lia))
    as (rs & gk & Hreq & _).
  exists c, g0, rs, gk. split; [exact Hnew|]. split; [exact Hreq|].
  destruct (requests_keep_items c k g0 gk _ o Hc Hreq) as (o' & Hc' & Hi').
  unfold items, bind, get_container, ret. rewrite Hc, Hc'. cbn [fst].
  split; congruence.
Qed.

(** C1 fails on the code: a panel built from one text option, with the
    default four check button columns, is built without error, has no check
    button at all, and the check button frame of its group is packed all
    the same. *)
Theorem checkbox_frame_packed_without_checkbox :
  match text_only_panel with
  | (Ok panel, g) =>
      match group_frames panel !! "_master"%string with
      | Some gf =>
          chkbtns_packed g gf = Some true
          /\ routed_checkbuttons g (gf_chkbtns gf) = []
          /\ forallb (fun w => negb (wclass_eqb (w_class w) Checkbutton)) (widgets g) = true
          /\ fst (items (gf_chkbtns gf) g) = Ok 4
      | None => False
      end
  | (Raise _, _) => False
  end.
Proof. vm_compute. repeat split. Qed.

(** ** ControlBuilder: the bound variable *)

(** What the toolkit reads as a boolean: the words and their beginnings in
    any letter case, "0" and "1"; not the empty string, no other number, no
    word with a space. *)
Example tcl_boolean_words :
  map tcl_boolean ["True"; "false"; "YES"; "n"; "on"; "of"; "1"; "0"]%string
  = [Some true; Some false; Some true; Some false; Some true; Some false;
     Some true; Some false]
  /\ map tcl_boolean [""; "o"; "2"; "truth"; " true"; "None"]%string
     = [None; None; None; None; None; None].
Proof. split; vm_compute; reflexivity. Qed.

Example getboolean_values :
  getboolean (PBool true) = Ok true
  /\ getboolean (PNum (NInt 0)) = Ok false
  /\ getboolean (PNum (NInt 7)) = Ok true
  /\ getboolean (PStr "no") = Ok false
  /\ getboolean (PStr "") = Raise TclError
  /\ getboolean PNone = Raise TypeError
  /\ getboolean (PNum (NFloat 1)) = Raise TypeError.
Proof. repeat split. Qed.


(** What [set_tk_var] does to the state: one variable more, of the class
    of the data type.  When its class takes the value worked out from the
    selected value, the default and [blank_nones], the variable holds it as
    the class converts it; when not, the variable is left as it was created
    and the exception of [set] goes up. *)
Lemma set_tk_var_run (frame : wid) (default selected : pyval) (dt : dtype)
    (blank_nones : bool) (g : gui) :
  set_tk_var frame default dt selected blank_nones g
  = let val := if is_none selected then default else selected in
    let val := if is_none val && blank_nones then PStr "" else val in
    match converted (var_class_of dt) val with
    | Ok y =>
        (Ok (length (vars g)),
         mkGui (widgets g) (vars g ++ [mkVar (var_class_of dt) frame y])
           (tooltips g) (containers g) (browsers g))
    | Raise e =>
        (Raise e,
         mkGui (widgets g)
           (vars g ++ [mkVar (var_class_of dt) frame (var_initial (var_class_of dt))])
           (tooltips g) (containers g) (browsers g))
    end.
Proof.
  unfold set_tk_var, bind, new_var, var_set, ret. gui_simpl.
  rewrite lookup_last. cbn [var_class].
  destruct (converted _ _) as [y|e]; [|reflexivity].
  rewrite alter_last. reflexivity.
Qed.

(** The classes other than [BooleanVar] store what they are given. *)
Lemma converted_as_given (dt : dtype) (x : pyval) :
  dt <> DBool -> converted (var_class_of dt) x = Ok x.
Proof. destruct dt; try contradiction; reflexivity. Qed.

(** C9, as the code has it: the variable of an option is created with the
    class of the data type.  For every type but [bool] it holds the selected
    value when there is one, else the default; when both are None it holds
    the empty string if [blank_nones] is set (and None if it is not).  The
    variable of a [bool] option takes its value through [getboolean]: a
    boolean selected value, or else default, is held as it is and any other
    value the toolkit reads as a boolean is held as that boolean; a value it
    does not read as one stops the construction with the exception of
    [set], the variable left at False.  So with both values None a [bool]
    option raises TclError under [blank_nones] (the empty string is no
    boolean) and TypeError without. *)
Theorem tk_var_initial_value
    (frame : wid) (default selected : pyval) (dt : dtype) (blank_nones : bool)
    (g : gui) :
  (dt <> DBool ->
   exists v g' var,
     set_tk_var frame default dt selected blank_nones g = (Ok v, g')
     /\ vars g !! v = None
     /\ vars g' !! v = Some var
     /\ var_class var = var_class_of dt
     /\ (selected <> PNone -> var_value var = selected)
     /\ (selected = PNone -> default <> PNone -> var_value var = default)
     /\ (selected = PNone -> default = PNone ->
         var_value var = if blank_nones then PStr "" else PNone))
  /\ (dt = DBool ->
      let val := if is_none selected then default else selected in
      let val := if is_none val && blank_nones then PStr "" else val in
      let r := set_tk_var frame default dt selected blank_nones g in
      let v := length (vars g) in
      exists var,
        vars g !! v = None
        /\ vars (snd r) !! v = Some var
        /\ var_class var = BooleanVar
        /\ (forall b, (if is_none selected then default else selected) = PBool b ->
            fst r = Ok v /\ var_value var = PBool b)
        /\ (forall b, getboolean val = Ok b -> fst r = Ok v /\ var_value var = PBool b)
        /\ (forall e, getboolean val = Raise e ->
            fst r = Raise e /\ var_value var = PBool false)
        /\ (selected = PNone -> default = PNone ->
            fst r = Raise (if blank_nones then TclError else TypeError)
            /\ var_value var = PBool false)).
Proof.
  split.
  - intros Hdt. exists (length (vars g)). rewrite set_tk_var_run. cbv zeta.
    rewrite (converted_as_given dt _ Hdt).
    do 2 eexists. split; [reflexivity|]. gui_simpl.
    split; [apply lookup_ge_None_2; lia|].
    split; [apply lookup_last|]. split; [reflexivity|].
    cbn [var_value].
    split; [|split].
    + intros Hs. destruct selected; try congruence; reflexivity.
    + intros -> Hd. destruct default; try congruence; reflexivity.
    + intros -> ->. destruct blank_nones; reflexivity.
  - intros ->. cbv zeta. rewrite set_tk_var_run. cbv zeta.
    cbn [var_class_of dtype_eqb converted var_initial].
    set (val := if is_none (if is_none selected then default else selected)
                   && blank_nones
                then PStr "" else if is_none selected then default else selected).
    destruct (getboolean val) as [b0|e0] eqn:Hget; gui_simpl; eexists;
      (split; [apply lookup_ge_None_2; lia|]);
      (split; [apply lookup_last|]); (split; [reflexivity|]); cbn [var_value].
    + split; [|split; [|split]].
      * intros b Hb. subst val. rewrite Hb in Hget. cbn in Hget.
        injection Hget as <-. split; reflexivity.
      * intros b [= <-]. split; reflexivity.
      * intros e [=].
      * intros -> ->. subst val. destruct blank_nones; discriminate Hget.
    + split; [|split; [|split]].
      * intros b Hb. subst val. rewrite Hb in Hget. discriminate Hget.
      * intros b [=].
      * intros e [= <-]. split; reflexivity.
      * intros -> ->. subst val. destruct blank_nones; cbn in Hget;
          injection Hget as <-; split; reflexivity.
Qed.

Lemma tk_var_initial_value_witness :
  (exists v g' var,
     set_tk_var 0%nat PNone DStr PNone true one_var = (Ok v, g')
     /\ vars g' !! v = Some var
     /\ var_value var = PStr "")
  /\ (exists var,
        vars (snd (set_tk_var 0%nat (PBool true) DBool PNone true one_var)) !! 1%nat
        = Some var
        /\ fst (set_tk_var 0%nat (PBool true) DBool PNone true one_var) = Ok 1%nat
        /\ var_value var = PBool true).
Proof.
  split.
  - destruct (tk_var_initial_value 0%nat PNone PNone DStr true one_var) as [H _].
    destruct H as (v & g' & var & Hrun & _ & Hvar & _ & _ & _ & Hblank);
      [discriminate|].
    exists v, g', var. split; [exact Hrun|]. split; [exact Hvar|].
    apply Hblank; reflexivity.
  - destruct (tk_var_initial_value 0%nat (PBool true) PNone DBool true one_var)
      as [_ H].
    destruct (H eq_refl) as (var & _ & Hvar & _ & Hbool & _).
    exists var. split; [exact Hvar|]. exact (Hbool true eq_refl).
Defined.

(** A boolean option with neither a selected value nor a default, under
    [blank_nones]: the variable is not created holding the empty string;
    [set] raises TclError on it and the variable stays at False. *)
Lemma bool_variable_refuses_blank :
  set_tk_var 0%nat PNone DBool PNone true one_var
  = (Raise TclError,
     mkGui (widgets one_var) (vars one_var ++ [mkVar BooleanVar 0%nat (PBool false)])
       [] [] [])
  /\ ~ (exists v g' var,
          set_tk_var 0%nat PNone DBool PNone true one_var = (Ok v, g')
          /\ vars g' !! v = Some var /\ var_value var = PStr "").
Proof.
  split; [vm_compute; reflexivity|].
  intros (v & g' & var & Hrun & _). vm_compute in Hrun. discriminate Hrun.
Qed.

Example tk_var_selected :
  (fun r => var_value <$> vars (snd r) !! 1%nat)
    (set_tk_var 0%nat (PStr "default") DStr (PStr "chosen") true one_var)
  = Some (PStr "chosen").
Proof. vm_compute. reflexivity. Qed.

Example tk_var_default :
  (fun r => var_value <$> vars (snd r) !! 1%nat)
    (set_tk_var 0%nat (PNum (NInt 7)) DInt PNone true one_var)
  = Some (PNum (NInt 7)).
Proof. vm_compute. reflexivity. Qed.

Example tk_var_bool_default :
  (fun r => (fst r, var_value <$> vars (snd r) !! 1%nat))
    (set_tk_var 0%nat (PBool true) DBool PNone true one_var)
  = (Ok 1%nat, Some (PBool true)).
Proof. vm_compute. reflexivity. Qed.

Example tk_var_bool_without_value :
  (fun r => (fst r, var_value <$> vars (snd r) !! 1%nat))
    (set_tk_var 0%nat PNone DBool PNone false one_var)
  = (Raise TypeError, Some (PBool false)).
Proof. vm_compute. reflexivity. Qed.

Example tk_var_not_blanked :
  (fun r => var_value <$> vars (snd r) !! 1%nat)
    (set_tk_var 0%nat PNone DStr PNone false one_var)
  = Some PNone.
Proof. vm_compute. reflexivity. Qed.

(** ** FileBrowser *)

Section DialogFacts.
Variable FileHandler :
  string -> string -> option string -> pyval -> option string -> pyval.

(** C5: in each of the five dialog routines an empty result of the file
    handler leaves the whole state, and so the bound variable, as it was;
    the context routine also leaves it when it fails before the dialog. *)
Theorem empty_dialog_result_changes_nothing
    (filepath : vid) (ftypes : string) (b : bid) (g : gui) :
  (truthy (retfile FileHandler "dir" ftypes) = false ->
   ask_folder FileHandler filepath ftypes g = (Ok tt, g))
  /\ (truthy (retfile FileHandler "filename" ftypes) = false ->
      ask_load FileHandler filepath ftypes g = (Ok tt, g))
  /\ (truthy (retfile FileHandler "filename_multi" ftypes) = false ->
      ask_load_multi FileHandler filepath ftypes g = (Ok tt, g))
  /\ (truthy (retfile FileHandler "savefilename" ftypes) = false ->
      ask_save FileHandler filepath ftypes g = (Ok tt, g))
  /\ (forall o v var,
        browsers g !! b = Some o -> action_option o = ActVar v ->
        vars g !! v = Some var ->
        truthy (FileHandler "context" ftypes (fb_command o) (var_value var)
                  (destination o)) = false ->
        ask_context FileHandler b filepath ftypes g = (Ok tt, g))
  /\ ((forall cmd act dst, truthy (FileHandler "context" ftypes cmd act dst) = false) ->
      snd (ask_context FileHandler b filepath ftypes g) = g).
Proof.
  repeat split.
  - intros H. unfold ask_folder. rewrite H. reflexivity.
  - intros H. unfold ask_load. rewrite H. reflexivity.
  - intros H. unfold ask_load_multi. rewrite H. reflexivity.
  - intros H. unfold ask_save. rewrite H. reflexivity.
  - intros o v var Hb Ha Hv H.
    unfold ask_context, bind, get_browser, var_get. rewrite Hb, Ha, Hv, H.
    reflexivity.
  - intros H. unfold ask_context, bind, get_browser, var_get.
    destruct (browsers g !! b) as [o|]; [|reflexivity].
    destruct (action_option o) as [| |v]; try reflexivity.
    destruct (vars g !! v) as [var|]; [|reflexivity].
    rewrite H. reflexivity.
Qed.

(** A non-empty result is written to the bound variable. *)
Lemma chosen_path_is_written (filepath : vid) (ftypes : string) (g : gui) :
  truthy (retfile FileHandler "filename" ftypes) = true ->
  ask_load FileHandler filepath ftypes g
  = var_set filepath (retfile FileHandler "filename" ftypes) g.
Proof. intros H. unfold ask_load. rewrite H. reflexivity. Qed.

(** The multi-file dialog writes its paths as one string: each path between
    double quotes, the quoted paths joined by single spaces. *)
Lemma ask_load_multi_writes (filepath : vid) (ftypes : string) (g : gui)
    (x : string) (l : list string) :
  retfile FileHandler "filename_multi" ftypes = PStrs (x :: l) ->
  ask_load_multi FileHandler filepath ftypes g
  = var_set filepath (PStr (PyStr.join " " (map (quoted) (x :: l)))) g.
Proof. intros H. unfold ask_load_multi. rewrite H. reflexivity. Qed.

End DialogFacts.

Lemma list_ascii_of_string_app (a b : string) :
  list_ascii_of_string (a ++ b) = list_ascii_of_string a ++ list_ascii_of_string b.
Proof. induction a as [|c a IH]; simpl; [reflexivity|]. rewrite IH. reflexivity. Qed.

Lemma join_quoted_chars (l : list string) :
  list_ascii_of_string (PyStr.join " " (map quoted l)) = quoted_and_spaced l.
Proof.
  induction l as [|x rest IH]; [reflexivity|].
  unfold PyStr.join in *. cbn [map String.concat quoted_and_spaced].
  destruct rest as [|y rest'].
  - cbn [map]. unfold quoted. rewrite !list_ascii_of_string_app. simpl.
    rewrite app_nil_r. reflexivity.
  - cbn [map] in *. rewrite !list_ascii_of_string_app, IH.
    unfold quoted. rewrite !list_ascii_of_string_app. simpl.
    rewrite <- app_assoc. reflexivity.
Qed.

(** C6: a non-empty result list of the multi-file dialog is written to the
    bound variable as one string, made of the paths each between double
    quotes and separated by one space: the routine ends as
    [filepath.set(s)] does for this string [s], and a variable that stores
    what it is given (the routines document a StringVar; any class but
    BooleanVar does) then holds [s]. *)
Theorem multi_file_result_quoted_and_spaced
    (FileHandler : string -> string -> option string -> pyval -> option string -> pyval)
    (filepath : vid) (ftypes : string) (g : gui) (var : tkvar) (l : list string) :
  l <> [] ->
  retfile FileHandler "filename_multi" ftypes = PStrs l ->
  vars g !! filepath = Some var ->
  exists s,
    list_ascii_of_string s = quoted_and_spaced l
    /\ ask_load_multi FileHandler filepath ftypes g = var_set filepath (PStr s) g
    /\ (var_class var <> BooleanVar ->
        exists g',
          ask_load_multi FileHandler filepath ftypes g = (Ok tt, g')
          /\ vars g' !! filepath = Some (set_value (PStr s) var)
          /\ length (vars g') = length (vars g)
          /\ (forall v, v <> filepath -> vars g' !! v = vars g !! v)
          /\ widgets g' = widgets g /\ tooltips g' = tooltips g
          /\ containers g' = containers g /\ browsers g' = browsers g).
Proof.
  intros Hl Hres Hvar. destruct l as [|x rest]; [congruence|].
  rewrite (ask_load_multi_writes FileHandler filepath ftypes g x rest Hres).
  eexists. split; [apply join_quoted_chars|]. split; [reflexivity|].
  intros Hclass. unfold var_set. rewrite Hvar.
  assert (Hconv : converted (var_class var)
                    (PStr (PyStr.join " " (map quoted (x :: rest))))
                  = Ok (PStr (PyStr.join " " (map quoted (x :: rest))))).
  { destruct (var_class var); [contradiction| | |]; reflexivity. }
  rewrite Hconv. eexists. split; [reflexivity|]. gui_simpl.
  split; [rewrite list_lookup_alter_eq, Hvar; reflexivity|].
  split; [apply length_alter|].
  split; [intros v Hv; apply list_lookup_alter_ne; congruence|].
  repeat split.
Qed.

(** For the result ["a b.txt", "c.txt"] the variable holds the seventeen
    characters ["a b.txt" "c.txt"], quotes included. *)
Lemma multi_file_result_quoted_and_spaced_witness :
  exists g' s,
    ask_load_multi two_files 0%nat "all" browser_gui = (Ok tt, g')
    /\ vars g' !! 0%nat = Some (mkVar StringVar 0%nat (PStr s))
    /\ list_ascii_of_string s
       = ["034"; "a"; " "; "b"; "."; "t"; "x"; "t"; "034"; " ";
          "034"; "c"; "."; "t"; "x"; "t"; "034"]%char.
Proof.
  destruct (multi_file_result_quoted_and_spaced two_files 0%nat "all" browser_gui
              (mkVar StringVar 0%nat (PStr "/old/path")) ["a b.txt"; "c.txt"]%string)
    as (s & Hs & _ & Hrun); [discriminate | reflexivity | reflexivity |].
  destruct Hrun as (g' & Hrun & Hvar & _); [discriminate|].
  exists g', s. split; [exact Hrun|]. split; [exact Hvar|exact Hs].
Defined.

Lemma empty_dialog_result_changes_nothing_witness :
  ask_folder cancelled 0%nat "all" browser_gui = (Ok tt, browser_gui)
  /\ ask_load cancelled 0%nat "all" browser_gui = (Ok tt, browser_gui)
  /\ ask_load_multi cancelled 0%nat "all" browser_gui = (Ok tt, browser_gui)
  /\ ask_save cancelled 0%nat "all" browser_gui = (Ok tt, browser_gui)
  /\ ask_context cancelled 0%nat 0%nat "all" browser_gui = (Ok tt, browser_gui).
Proof.
  destruct (empty_dialog_result_changes_nothing cancelled 0%nat "all" 0%nat browser_gui)
    as (Hfolder & Hload & Hmulti & Hsave & Hcontext & _).
  split; [apply Hfolder; reflexivity|].
  split; [apply Hload; reflexivity|].
  split; [apply Hmulti; reflexivity|].
  split; [apply Hsave; reflexivity|].
  eapply Hcontext; reflexivity.
Defined.

Lemma py_index_head {A} (x : A) (l : list A) : py_index (x :: l) 0 = Ok x.
Proof. reflexivity. Qed.





(** A second call finds a variable where the name was and raises
    TypeError. *)
Example context_action_option_twice :
  fst ((set_context_action_option 0%nat context_options ;;;
        set_context_action_option 0%nat context_options) unfinished_gui)
  = Raise TypeError.
Proof. vm_compute. reflexivity. Qed.

(** After the caching the context dialog is asked with the value the action
    variable holds at the click. *)
Example context_dialog_reads_cached_action :
  fst ((set_context_action_option 0%nat context_options ;;;
        ask_context (fun mode _ _ action _ => action) 0%nat 0%nat "all") unfinished_gui)
  = Ok tt
  /\ (var_value <$>
      vars (snd ((set_context_action_option 0%nat context_options ;;;
                  ask_context (fun mode _ _ action _ => action) 0%nat 0%nat "all")
                   unfinished_gui)) !! 0%nat)
     = Some (PStr "extract").
Proof. split; vm_compute; reflexivity. Qed.

(** ** Help text *)

(** C4, as the code has it: for a help text that starts with "R|" the
    marker is dropped, every "L|" that follows a newline becomes " - ",
    every newline is doubled, the segments between ". " are capitalized
    (first character upper case, all others lower case) and the title and
    " - " are put in front.  So "R|first.\nL|second item" becomes the title,
    " - First.", an empty line and " - second item": the bullet is neither
    capitalized nor given a full stop. *)
Theorem reflow_helptext_formatted (title rest : string) :
  format_helptext title (Some ("R|" ++ rest)%string)
  = Some (title ++ " - "
          ++ PyStr.join ". "
               (map PyStr.capitalize
                  (PyStr.split ". "
                     (PyStr.replace s_nl (s_nl ++ s_nl)
                        (PyStr.replace (s_nl ++ "L|") (s_nl ++ " - ") rest)))))%string
  /\ format_helptext title (Some reflow_example)
     = Some (title ++ " - First." ++ s_nl ++ s_nl ++ " - second item")%string.
Proof.
  split.
  - unfold format_helptext.
    change ("R|" +:+ rest)%string with (String "R" (String "|" rest)).
    assert (Hpre : PyStr.startswith "R|" (String "R" (String "|" rest)) = true).
    { unfold PyStr.startswith. cbn [String.prefix].
      destruct (ascii_dec "R" "R"); [|congruence].
      destruct (ascii_dec "|" "|"); [|congruence]. destruct rest; reflexivity. }
    rewrite Hpre. reflexivity.
  - unfold format_helptext. f_equal.
Qed.

(** The formatted example has no bullet "- Second item.": its bullet is
    "- second item". *)
Lemma reflow_bullet_not_capitalized :
  exists out,
    format_helptext "opt" (Some reflow_example) = Some out
    /\ PyStr.contains "- Second item." out = false
    /\ PyStr.contains "Second" out = false
    /\ PyStr.contains "- second item" out = true
    /\ PyStr.contains "- second item." out = false.
Proof. eexists. split; [reflexivity|]. repeat split; vm_compute; reflexivity. Qed.

Example capitalize_lowers_the_rest :
  format_helptext "opt" (Some "R|use the GPU. or the CPU")
  = Some "opt - Use the gpu. Or the cpu"%string.
Proof. vm_compute. reflexivity. Qed.

(** ** ControlBuilder: help text and construction *)

Lemma same_but_tooltips_refl (g : gui) : same_but_tooltips g g.
Proof. repeat split. Qed.

Lemma alike_ret {A B} (R : A -> B -> Prop) (a : A) (b : B) :
  R a b -> alike R (ret a) (ret b).
Proof. intros HR g1 g2 Hg. split; [exact HR|exact Hg]. Qed.

Lemma alike_raise {A B} (R : A -> B -> Prop) (e : exn) :
  alike R (raise e) (raise e).
Proof. intros g1 g2 Hg. split; [reflexivity|exact Hg]. Qed.

Lemma alike_bind {A A' B B'} (R : A -> A' -> Prop) (R' : B -> B' -> Prop)
    (m1 : M A) (m2 : M A') (k1 : A -> M B) (k2 : A' -> M B') :
  alike R m1 m2 -> (forall a a', R a a' -> alike R' (k1 a) (k2 a')) ->
  alike R' (bind m1 k1) (bind m2 k2).
Proof.
  intros Hm Hk g1 g2 Hg. unfold bind.
  destruct (Hm g1 g2 Hg) as [Hr Hs].
  destruct (m1 g1) as [[a|e1] g1'], (m2 g2) as [[a'|e2] g2']; cbn [fst snd] in *;
    try contradiction.
  - exact (Hk a a' Hr g1' g2' Hs).
  - split; [exact Hr|exact Hs].
Qed.

Lemma alike_bind_eq {A B B'} (R' : B -> B' -> Prop)
    (m1 m2 : M A) (k1 : A -> M B) (k2 : A -> M B') :
  alike eq m1 m2 -> (forall a, alike R' (k1 a) (k2 a)) ->
  alike R' (bind m1 k1) (bind m2 k2).
Proof.
  intros Hm Hk. apply (alike_bind eq R'); [exact Hm|]. intros a a' <-. apply Hk.
Qed.

Lemma alike_weaken {A B} (R R' : A -> B -> Prop) (m1 : M A) (m2 : M B) :
  (forall a b, R a b -> R' a b) -> alike R m1 m2 -> alike R' m1 m2.
Proof.
  intros HR Hm g1 g2 Hg. destruct (Hm g1 g2 Hg) as [Hr Hs]. split; [|exact Hs].
  destruct (fst (m1 g1)), (fst (m2 g2)); cbn in *; auto.
Qed.

Lemma alike_lift {A} (r : result A) : alike eq (lift r) (lift r).
Proof. intros g1 g2 Hg. split; [destruct r; reflexivity|exact Hg]. Qed.

Lemma alike_create_widget (w : widget) : alike eq (create_widget w) (create_widget w).
Proof.
  intros g1 g2 (Hw & Hv & Hc & Hb). unfold create_widget, with_widgets.
  cbn [fst snd same_result]. rewrite Hw. repeat split; gui_simpl; congruence.
Qed.

Lemma alike_configure (w : wid) (f : widget -> widget) :
  alike eq (configure w f) (configure w f).
Proof.
  intros g1 g2 (Hw & Hv & Hc & Hb). unfold configure, with_widgets.
  cbn [fst snd same_result]. repeat split; gui_simpl; congruence.
Qed.

Lemma alike_pack (w : wid) : alike eq (pack w) (pack w).
Proof.
  intros g1 g2 (Hw & Hv & Hc & Hb). unfold pack, with_widgets.
  cbn [fst snd same_result]. repeat split; gui_simpl; congruence.
Qed.

Lemma alike_new_var (c : varclass) (w : wid) : alike eq (new_var c w) (new_var c w).
Proof.
  intros g1 g2 (Hw & Hv & Hc & Hb). unfold new_var.
  cbn [fst snd same_result]. rewrite Hv. repeat split; gui_simpl; congruence.
Qed.

Lemma alike_var_set (v : vid) (x : pyval) : alike eq (var_set v x) (var_set v x).
Proof.
  intros g1 g2 (Hw & Hv & Hc & Hb). unfold var_set. rewrite Hv.
  destruct (vars g2 !! v) as [var|]; [|repeat split; assumption].
  destruct (converted (var_class var) x) as [y|e];
    cbn [fst snd same_result]; repeat split; gui_simpl; congruence.
Qed.

Lemma alike_get_container (c : cid) : alike eq (get_container c) (get_container c).
Proof.
  intros g1 g2 (Hw & Hv & Hc & Hb). unfold get_container. rewrite Hc.
  destruct (containers g2 !! c); cbn [fst snd same_result]; repeat split; assumption.
Qed.

Lemma alike_update_container (c : cid) (f : AutoFillContainer -> AutoFillContainer) :
  alike eq (update_container c f) (update_container c f).
Proof.
  intros g1 g2 (Hw & Hv & Hc & Hb). unfold update_container, with_containers.
  cbn [fst snd same_result]. repeat split; gui_simpl; congruence.
Qed.

Lemma alike_get_browser (b : bid) : alike eq (get_browser b) (get_browser b).
Proof.
  intros g1 g2 (Hw & Hv & Hc & Hb). unfold get_browser. rewrite Hb.
  destruct (browsers g2 !! b); cbn [fst snd same_result]; repeat split; assumption.
Qed.

Lemma alike_alloc_browser (o : FileBrowser) :
  alike eq (alloc_browser o) (alloc_browser o).
Proof.
  intros g1 g2 (Hw & Hv & Hc & Hb). unfold alloc_browser, with_browsers.
  cbn [fst snd same_result]. rewrite Hb. repeat split; gui_simpl; congruence.
Qed.

(** Tooltips make no difference: whatever is attached, or nothing. *)
Lemma alike_Tooltip (w w' : wid) (t t' : option string) (n n' : Z) :
  alike eq (Tooltip w t n) (Tooltip w' t' n').
Proof. intros g1 g2 Hg. split; [reflexivity|exact Hg]. Qed.

Lemma alike_Tooltip_none (w : wid) (t : option string) (n : Z) :
  alike eq (Tooltip w t n) (ret tt).
Proof. intros g1 g2 Hg. split; [reflexivity|exact Hg]. Qed.

Lemma alike_required {A} (x : option A) : alike eq (required x) (required x).
Proof. destruct x; [apply alike_ret; reflexivity|apply alike_raise]. Qed.

Lemma alike_for_each {A} (l : list A) (f f' : A -> M unit) :
  (forall x, alike eq (f x) (f' x)) -> alike eq (for_each l f) (for_each l f').
Proof.
  intros Hf. induction l as [|x l IH]; cbn [for_each].
  - apply alike_ret. reflexivity.
  - apply alike_bind_eq; [apply Hf|]. intros _. exact IH.
Qed.

Create HintDb alike discriminated.
#[local] Hint Resolve alike_raise alike_lift alike_create_widget alike_configure
  alike_pack alike_new_var alike_var_set alike_get_container
  alike_update_container alike_get_browser alike_alloc_browser alike_Tooltip
  alike_Tooltip_none alike_required : alike.

(** One step through two computations of the same shape. *)
Ltac alike_step :=
  first
    [ solve [auto with alike]
    | apply alike_ret; reflexivity
    | apply alike_for_each; intros ?
    | apply alike_bind_eq; [|intros ?]
    | match goal with
      | |- alike _ (if ?b then _ else _) (if ?b then _ else _) => destruct b
      | |- alike _ (match ?x with Some _ => _ | None => _ end)
                   (match ?x with Some _ => _ | None => _ end) => destruct x
      end ].

Lemma alike_subframe (c : cid) : alike eq (subframe c) (subframe c).
Proof. unfold subframe. repeat alike_step. Qed.

Lemma alike_control_frame (p : wid) : alike eq (control_frame p) (control_frame p).
Proof. unfold control_frame. repeat alike_step. Qed.

Lemma alike_set_tk_var (frame : wid) (default : pyval) (dt : dtype)
    (selected : pyval) (blank : bool) :
  alike eq (set_tk_var frame default dt selected blank)
           (set_tk_var frame default dt selected blank).
Proof. unfold set_tk_var. repeat alike_step. Qed.

Lemma alike_icons (kind : string) : alike eq (icons kind) (icons kind).
Proof.
  unfold icons. destruct (existsb _ _); [apply alike_ret; reflexivity|apply alike_raise].
Qed.

#[local] Hint Resolve alike_icons : alike.

Lemma alike_add_browser_button (b : bid) (frame : wid) (kind : string) :
  alike eq (add_browser_button b frame kind) (add_browser_button b frame kind).
Proof. unfold add_browser_button. repeat alike_step. Qed.

Lemma alike_new_filebrowser (v : vid) (frame : wid) (d : sysbrowser) :
  alike eq (new_filebrowser v frame d) (new_filebrowser v frame d).
Proof.
  unfold new_filebrowser, add_browser_buttons. repeat alike_step.
Qed.

#[local] Hint Resolve alike_subframe alike_control_frame alike_set_tk_var
  alike_new_filebrowser : alike.

(** The label is built alike with and without help text. *)
Lemma alike_build_control_label (frame : wid) (title : string) (lw : Z)
    (h : option string) :
  alike eq (build_control_label frame title lw h)
           (build_control_label frame title lw None).
Proof. unfold build_control_label. repeat alike_step. destruct h; auto with alike.
  apply alike_ret. reflexivity. Qed.

Lemma alike_slider_control (frame : wid) (v : vid) (dt : dtype)
    (rounding : option num) (mm : option (num * num)) :
  alike eq (slider_control frame v dt rounding mm)
           (slider_control frame v dt rounding mm).
Proof. unfold slider_control. repeat alike_step. Qed.

Lemma alike_control_to_checkframe (chk : option cid) (title : string) (v : vid)
    (h : option string) :
  alike eq (control_to_checkframe chk title v h)
           (control_to_checkframe chk title v None).
Proof. unfold control_to_checkframe. repeat alike_step. Qed.

Lemma alike_control_to_optionsframe (frame : wid) (control : wclass) (v : vid)
    (choices : option (list string)) (d : option sysbrowser) :
  alike eq (control_to_optionsframe frame control v choices d)
           (control_to_optionsframe frame control v choices d).
Proof. unfold control_to_optionsframe. repeat alike_step. Qed.

Lemma alike_set_control_width (ctl : wid) (cw : option Z) :
  alike eq (set_control_width ctl cw) (set_control_width ctl cw).
Proof. unfold set_control_width. repeat alike_step. Qed.

#[local] Hint Resolve alike_slider_control alike_control_to_checkframe
  alike_control_to_optionsframe alike_set_control_width
  alike_build_control_label : alike.

(** Every control but the radio group is built alike with and without help
    text. *)
Lemma alike_build_one_control (frame : wid) (title : string) (control : wclass)
    (v : vid) (h : option string) (chk : option cid) (choices : option (list string))
    (dt : dtype) (rounding : option num) (mm : option (num * num))
    (sb : option sysbrowser) (rc : Z) (cw : option Z) :
  control <> Radiobutton ->
  alike eq
    (build_one_control frame title control v h chk choices dt rounding mm sb rc cw)
    (build_one_control frame title control v None chk choices dt rounding mm sb rc cw).
Proof.
  intros Hc. unfold build_one_control.
  apply alike_bind_eq.
  - destruct control; try contradiction; cbn [wclass_eqb]; repeat alike_step.
  - intros [[ctl fb] helpset]. repeat alike_step.
    destruct h as [h|]; [|apply alike_ret; reflexivity].
    destruct helpset; cbn [negb]; [apply alike_ret; reflexivity|].
    apply alike_Tooltip_none.
Qed.

Lemma alike_build_control (frame : wid) (title : string) (lw : Z) (control : wclass)
    (v : vid) (h : option string) (chk : option cid) (choices : option (list string))
    (dt : dtype) (rounding : option num) (mm : option (num * num))
    (sb : option sysbrowser) (rc : Z) (cw : option Z) :
  control <> Radiobutton ->
  alike eq
    (build_control frame title lw control v h chk choices dt rounding mm sb rc cw)
    (build_control frame title lw control v None chk choices dt rounding mm sb rc cw).
Proof.
  intros Hc. unfold build_control. apply alike_bind_eq.
  - destruct (negb _); [apply alike_build_control_label|apply alike_ret; reflexivity].
  - intros _. apply alike_build_one_control. exact Hc.
Qed.

(** The radio group needs its help text: without one its construction stops
    with an AttributeError, before any radio button is made. *)
Lemma radio_control_needs_helptext (frame : wid) (title : string) (v : vid)
    (choices : option (list string)) (columns : Z) (g : gui) :
  radio_control frame title v None choices columns g = (Raise AttributeError, g).
Proof. reflexivity. Qed.

(** Where the variable of an option is made the construction of the
    control goes on, or stops when [set] refuses the initial value. *)
Lemma new_control_run
    (parent : wid) (title : string) (dt : dtype) (default selected : pyval)
    (choices : option (list string)) (is_radio : bool) (rounding : option num)
    (min_max : option (num * num)) (sb : option sysbrowser) (h : option string)
    (radio_columns label_width : Z) (chk : option cid) (control_width : option Z)
    (blank_nones : bool) (g : gui) :
  exists frame g1 g2,
    control_frame parent g = (Ok frame, g1)
    /\ vars g1 = vars g
    /\ snd (set_tk_var frame default dt selected blank_nones g1) = g2
    /\ new_control parent title dt default selected choices is_radio rounding
         min_max sb h radio_columns label_width chk control_width blank_nones g
       = match refused dt default selected blank_nones with
         | Some e => (Raise e, g2)
         | None =>
             (r <- build_control frame title label_width
                     (set_control dt choices is_radio) (length (vars g))
                     (format_helptext title h) chk choices dt rounding min_max sb
                     radio_columns control_width ;;
              ret (mkControlBuilder title default (format_helptext title h) (snd r)
                     label_width (fst r) frame chk
                     (set_control dt choices is_radio) (length (vars g)))) g2
         end.
Proof.
  do 3 eexists. split; [reflexivity|]. split; [reflexivity|]. split; [reflexivity|].
  unfold new_control. cbv zeta. unfold bind at 1.
  unfold control_frame at 1, bind at 1, create_widget at 1, bind at 1, pack at 1,
    ret at 1.
  unfold bind at 1. rewrite !set_tk_var_run. unfold refused. cbv zeta.
  destruct (converted _ _) as [y|e]; reflexivity.
Qed.

(** Only the variable of a [bool] option can refuse its initial value, and
    it takes a boolean. *)
Lemma refused_bool_only (dt : dtype) (default selected : pyval) (blank_nones : bool) :
  dt <> DBool -> refused dt default selected blank_nones = None.
Proof.
  intros Hdt. unfold refused. cbv zeta. rewrite (converted_as_given dt _ Hdt).
  reflexivity.
Qed.

Lemma refused_boolean (default selected : pyval) (blank_nones b : bool) :
  (if is_none selected then default else selected) = PBool b ->
  refused DBool default selected blank_nones = None.
Proof. intros H. unfold refused. cbv zeta. rewrite H. reflexivity. Qed.

(** C10: a radio group (choices given and the radio flag set) cannot be
    built without help text: its construction stops, with an AttributeError
    once its variable is made (always, unless the option is a [bool] whose
    initial value the toolkit does not read as a boolean: then [set] has
    stopped it before).  For every other control kind the help text makes
    no difference to how the construction ends: it ends without help text
    as it ends with any. *)
Theorem radio_group_requires_helptext
    (parent : wid) (title : string) (dt : dtype) (default selected : pyval)
    (choices : option (list string)) (is_radio : bool) (rounding : option num)
    (min_max : option (num * num)) (sb : option sysbrowser)
    (radio_columns label_width : Z) (chk : option cid) (control_width : option Z)
    (blank_nones : bool) (g : gui) :
  (has_choices choices = true -> is_radio = true ->
   outcome (new_control parent title dt default selected choices is_radio rounding
              min_max sb None radio_columns label_width chk control_width
              blank_nones g)
   = Some (match refused dt default selected blank_nones with
           | Some e => e
           | None => AttributeError
           end)
   /\ (dt <> DBool \/ (exists b, (if is_none selected then default else selected)
                                   = PBool b) ->
       outcome (new_control parent title dt default selected choices is_radio rounding
                  min_max sb None radio_columns label_width chk control_width
                  blank_nones g)
       = Some AttributeError))
  /\ (set_control dt choices is_radio <> Radiobutton ->
      forall h : string,
        outcome (new_control parent title dt default selected choices is_radio
                   rounding min_max sb None radio_columns label_width chk
                   control_width blank_nones g)
        = outcome (new_control parent title dt default selected choices is_radio
                     rounding min_max sb (Some h) radio_columns label_width chk
                     control_width blank_nones g)).
Proof.
  split.
  - intros Hc ->.
    assert (Hout : outcome (new_control parent title dt default selected choices true
                              rounding min_max sb None radio_columns label_width chk
                              control_width blank_nones g)
                   = Some (match refused dt default selected blank_nones with
                           | Some e => e
                           | None => AttributeError
                           end)).
    { destruct (new_control_run parent title dt default selected choices true rounding
                  min_max sb None radio_columns label_width chk control_width
                  blank_nones g) as (frame & g1 & g2 & _ & _ & _ & ->).
      destruct (refused dt default selected blank_nones) as [e|]; [reflexivity|].
      unfold set_control. rewrite Hc. cbn [andb format_helptext]. reflexivity. }
    split; [exact Hout|]. intros [Hdt|[b Hb]]; rewrite Hout.
    + rewrite (refused_bool_only dt _ _ _ Hdt). reflexivity.
    + unfold refused. cbv zeta. rewrite Hb. cbn [is_none andb].
      destruct (var_class_of dt); reflexivity.
  - intros Hctl h.
    set (control := set_control dt choices is_radio) in *.
    assert (Halike : alike (fun _ _ : ControlBuilder => True)
              (new_control parent title dt default selected choices is_radio
                 rounding min_max sb (Some h) radio_columns label_width chk
                 control_width blank_nones)
              (new_control parent title dt default selected choices is_radio
                 rounding min_max sb None radio_columns label_width chk
                 control_width blank_nones)).
    { unfold new_control. cbv zeta. fold control.
      apply alike_bind_eq; [apply alike_control_frame|]. intros frame.
      apply alike_bind_eq; [apply alike_set_tk_var|]. intros v.
      apply alike_bind_eq; [apply alike_build_control; exact Hctl|]. intros r.
      apply alike_ret. exact I. }
    destruct (Halike g g (same_but_tooltips_refl g)) as [Hres _].
    unfold outcome.
    destruct (fst (new_control _ _ _ _ _ _ _ _ _ _ (Some h) _ _ _ _ _ g)),
             (fst (new_control _ _ _ _ _ _ _ _ _ _ None _ _ _ _ _ g));
      cbn in Hres; try contradiction; congruence.
Qed.

Lemma radio_group_requires_helptext_witness :
  outcome (new_control 0%nat "sample" DStr (PStr "fast") PNone two_choices true
             None None None None 3 20 None None true root_gui)
  = Some AttributeError
  /\ outcome (new_control 0%nat "sample" DStr (PStr "fast") PNone two_choices false
                None None None None 3 20 None None true root_gui)
     = outcome (new_control 0%nat "sample" DStr (PStr "fast") PNone two_choices false
                  None None None (Some "pick one"%string) 3 20 None None true root_gui).
Proof.
  split.
  - apply (radio_group_requires_helptext 0%nat "sample" DStr (PStr "fast") PNone
             two_choices true None None None 3 20 None None true root_gui);
      [reflexivity | reflexivity | left; discriminate].
  - apply (radio_group_requires_helptext 0%nat "sample" DStr (PStr "fast") PNone
             two_choices false None None None 3 20 None None true root_gui).
    discriminate.
Defined.

(** Without help text the radio group fails and the four other kinds of
    control are built; with help text the radio group is built too. *)
Example radio_without_helptext :
  outcome (build_sample DStr (PStr "fast") two_choices true None None)
  = Some AttributeError.
Proof. vm_compute. reflexivity. Qed.

Example radio_with_helptext :
  outcome (build_sample DStr (PStr "fast") two_choices true None
             (Some ("R|speed." ++ s_nl ++ "L|fast: quick." ++ s_nl
                    ++ "L|slow: careful.")%string))
  = None.
Proof. vm_compute. reflexivity. Qed.

Example dropdown_without_helptext :
  outcome (build_sample DStr (PStr "fast") two_choices false None None) = None.
Proof. vm_compute. reflexivity. Qed.

Example checkbox_without_helptext :
  outcome (build_sample DBool (PBool false) None false None None) = None.
Proof. vm_compute. reflexivity. Qed.

Example slider_without_helptext :
  outcome (build_sample DInt (PNum (NInt 5)) None false (Some (NInt 0, NInt 10)) None)
  = None.
Proof. vm_compute. reflexivity. Qed.

Example entry_without_helptext :
  outcome (build_sample DStr (PStr "") None false None None) = None.
Proof. vm_compute. reflexivity. Qed.

(** ** The bound variable after construction *)

Lemma keeps_ret {A} (a : A) : keeps_vars (ret a).
Proof. intros g. reflexivity. Qed.

Lemma keeps_raise {A} (e : exn) : keeps_vars (@raise A e).
Proof. intros g. reflexivity. Qed.

Lemma keeps_lift {A} (r : result A) : keeps_vars (lift r).
Proof. intros g. reflexivity. Qed.

Lemma keeps_bind {A B} (m : M A) (k : A -> M B) :
  keeps_vars m -> (forall a, keeps_vars (k a)) -> keeps_vars (bind m k).
Proof.
  intros Hm Hk g. unfold bind. specialize (Hm g).
  destruct (m g) as [[a|e] g']; cbn [snd] in *; [|exact Hm].
  rewrite (Hk a g'). exact Hm.
Qed.

Lemma keeps_create_widget (w : widget) : keeps_vars (create_widget w).
Proof. intros g. reflexivity. Qed.

Lemma keeps_pack (w : wid) : keeps_vars (pack w).
Proof. intros g. reflexivity. Qed.

Lemma keeps_configure (w : wid) (f : widget -> widget) : keeps_vars (configure w f).
Proof. intros g. reflexivity. Qed.

Lemma keeps_winfo_name (w : wid) : keeps_vars (winfo_name w).
Proof. intros g. unfold winfo_name. destruct (widgets g !! w); reflexivity. Qed.

Lemma keeps_Tooltip (w : wid) (t : option string) (n : Z) : keeps_vars (Tooltip w t n).
Proof. intros g. reflexivity. Qed.

Lemma keeps_get_container (c : cid) : keeps_vars (get_container c).
Proof. intros g. unfold get_container. destruct (containers g !! c); reflexivity. Qed.

Lemma keeps_update_container (c : cid) (f : AutoFillContainer -> AutoFillContainer) :
  keeps_vars (update_container c f).
Proof. intros g. reflexivity. Qed.

Lemma keeps_get_browser (b : bid) : keeps_vars (get_browser b).
Proof. intros g. unfold get_browser. destruct (browsers g !! b); reflexivity. Qed.

Lemma keeps_alloc_browser (o : FileBrowser) : keeps_vars (alloc_browser o).
Proof. intros g. reflexivity. Qed.

Lemma keeps_required {A} (x : option A) : keeps_vars (required x).
Proof. destruct x; [apply keeps_ret|apply keeps_raise]. Qed.

Lemma keeps_for_each {A} (l : list A) (f : A -> M unit) :
  (forall x, keeps_vars (f x)) -> keeps_vars (for_each l f).
Proof.
  intros Hf. induction l as [|x l IH]; cbn [for_each]; [apply keeps_ret|].
  apply keeps_bind; [apply Hf|]. intros _. exact IH.
Qed.

Create HintDb keeps discriminated.
#[local] Hint Resolve keeps_ret keeps_raise keeps_lift keeps_create_widget keeps_pack
  keeps_configure keeps_winfo_name keeps_Tooltip keeps_get_container
  keeps_update_container keeps_get_browser keeps_alloc_browser keeps_required
  : keeps.

Ltac keeps_step :=
  first
    [ solve [auto with keeps]
    | apply keeps_for_each; intros ?
    | apply keeps_bind; [|intros ?]
    | match goal with
      | |- keeps_vars (if ?b then _ else _) => destruct b
      | |- keeps_vars (match ?x with Some _ => _ | None => _ end) => destruct x
      | |- keeps_vars (let '(_, _) := ?x in _) => destruct x
      end ].

Lemma keeps_subframe (c : cid) : keeps_vars (subframe c).
Proof. unfold subframe. repeat keeps_step. Qed.

Lemma keeps_set_subframes_loop (c : cid) (idxs : list Z) :
  forall acc, keeps_vars (set_subframes_loop c acc idxs).
Proof.
  induction idxs as [|idx rest IH]; intros acc; cbn [set_subframes_loop].
  - apply keeps_ret.
  - apply keeps_bind; [|intros acc'; apply IH].
    unfold set_subframes_step. repeat keeps_step.
Qed.

Lemma keeps_new_container (p : wid) (C : Z) : keeps_vars (new_container p C).
Proof.
  unfold new_container. apply keeps_bind; [intros g; reflexivity|]. intros c.
  apply keeps_bind.
  - unfold set_subframes. apply keeps_bind; [apply keeps_get_container|].
    intros o. apply keeps_set_subframes_loop.
  - intros l. repeat keeps_step.
Qed.

Lemma keeps_help_items (lines : list string) :
  forall acc, keeps_vars (help_items lines acc).
Proof.
  induction lines as [|line rest IH]; intros acc; cbn [help_items].
  - apply keeps_ret.
  - destruct (PyStr.startswith " - " line); [|apply IH].
    apply keeps_bind; [apply keeps_lift|]. intros word. apply IH.
Qed.

#[local] Hint Resolve keeps_subframe keeps_new_container keeps_help_items : keeps.

Lemma keeps_radio_loop (c : cid) (columns : Z) (v : vid) (intro : option string)
    (helpitems : gmap string string) (choices : list string) :
  forall helpset, keeps_vars (radio_loop c columns v intro helpitems helpset choices).
Proof.
  induction choices as [|choice rest IH]; intros helpset; cbn [radio_loop].
  - apply keeps_ret.
  - apply keeps_bind; [|intros h; apply IH].
    unfold radio_step. repeat keeps_step.
Qed.

#[local] Hint Resolve keeps_radio_loop : keeps.

Lemma keeps_new_filebrowser (v : vid) (frame : wid) (d : sysbrowser) :
  keeps_vars (new_filebrowser v frame d).
Proof.
  unfold new_filebrowser, add_browser_buttons. repeat keeps_step.
  unfold add_browser_button, icons. repeat keeps_step.
Qed.

#[local] Hint Resolve keeps_new_filebrowser : keeps.

(** Once the variable is made, the rest of the construction leaves the
    variables alone. *)
Lemma keeps_build_control (frame : wid) (title : string) (lw : Z) (control : wclass)
    (v : vid) (h : option string) (chk : option cid) (choices : option (list string))
    (dt : dtype) (rounding : option num) (mm : option (num * num))
    (sb : option sysbrowser) (rc : Z) (cw : option Z) :
  keeps_vars
    (build_control frame title lw control v h chk choices dt rounding mm sb rc cw).
Proof.
  unfold build_control, build_control_label, build_one_control, slider_control,
    radio_control, control_to_checkframe, control_to_optionsframe, set_control_width.
  repeat keeps_step.
Qed.

(** A control that is built: its attributes are those the constructor was
    given or worked out, its frame is the first widget made and its variable
    the one variable made, which holds the initial value as its class
    converts it. *)
Lemma new_control_ok
    (p : wid) (title : string) (dt : dtype) (default selected : pyval)
    (choices : option (list string)) (is_radio : bool) (rounding : option num)
    (mm : option (num * num)) (sb : option sysbrowser) (h : option string)
    (rc lw : Z) (chk : option cid) (cw : option Z) (blank_nones : bool)
    (g g' : gui) (ctl : ControlBuilder) :
  new_control p title dt default selected choices is_radio rounding mm sb h rc lw
    chk cw blank_nones g = (Ok ctl, g') ->
  exists y,
    converted (var_class_of dt)
      (let val := if is_none selected then default else selected in
       if is_none val && blank_nones then PStr "" else val) = Ok y
    /\ vars g' = vars g ++ [mkVar (var_class_of dt) (cb_frame ctl) y]
    /\ tk_var ctl = length (vars g)
    /\ cb_frame ctl = length (widgets g)
    /\ cb_title ctl = title /\ cb_default ctl = default
    /\ cb_helptext ctl = format_helptext title h
    /\ cb_label_width ctl = lw /\ chkbtns ctl = chk
    /\ control ctl = set_control dt choices is_radio.
Proof.
  intros Hrun.
  destruct (new_control_run p title dt default selected choices is_radio rounding
              mm sb h rc lw chk cw blank_nones g)
    as (frame & g1 & g2 & Hframe & Hv1 & Hg2 & Heq).
  rewrite Heq in Hrun. clear Heq.
  rewrite set_tk_var_run in Hg2. unfold refused in Hrun. cbv zeta in *.
  destruct (converted _ _) as [y|e]; [|discriminate]. cbn [snd] in Hg2.
  exists y. split; [reflexivity|].
  unfold bind, ret in Hrun.
  match type of Hrun with
  | context [build_control ?a1 ?a2 ?a3 ?a4 ?a5 ?a6 ?a7 ?a8 ?a9 ?a10 ?a11 ?a12 ?a13 ?a14 ?g2] =>
      pose proof (keeps_build_control a1 a2 a3 a4 a5 a6 a7 a8 a9 a10 a11 a12 a13 a14 g2) as Hk;
      destruct (build_control a1 a2 a3 a4 a5 a6 a7 a8 a9 a10 a11 a12 a13 a14 g2)
        as [[r|e] g3]
  end; [|discriminate].
  injection Hrun as <- <-. cbn [tk_var cb_frame cb_title cb_default cb_helptext
                                 cb_label_width chkbtns control snd] in *.
  assert (Hfr : frame = length (widgets g)).
  { unfold control_frame, bind, create_widget, pack, ret in Hframe.
    injection Hframe as <- _. reflexivity. }
  rewrite Hk, <- Hg2. gui_simpl. rewrite Hv1. repeat split; assumption.
Qed.

(** X25: when the construction of a control succeeds, the state has one
    variable more, the control's, and it holds the selected value or else
    the default, blanked when both are None and [blank_nones] is set, as
    its class converts it (a [BooleanVar] holds the boolean the toolkit
    reads, the other classes the value as it is given): the rest of the
    construction writes no variable. *)
Lemma new_control_variable
    (p : wid) (title : string) (dt : dtype) (default selected : pyval)
    (choices : option (list string)) (is_radio : bool) (rounding : option num)
    (mm : option (num * num)) (sb : option sysbrowser) (h : option string)
    (rc lw : Z) (chk : option cid) (cw : option Z) (blank_nones : bool)
    (g g' : gui) (ctl : ControlBuilder) :
  new_control p title dt default selected choices is_radio rounding mm sb h rc lw
    chk cw blank_nones g = (Ok ctl, g') ->
  let val := if is_none selected then default else selected in
  let val := if is_none val && blank_nones then PStr "" else val in
  exists y,
    converted (var_class_of dt) val = Ok y
    /\ (dt <> DBool \/ (exists b, val = PBool b) -> y = val)
    /\ tk_var ctl = length (vars g)
    /\ vars g' = vars g ++ [mkVar (var_class_of dt) (cb_frame ctl) y].
Proof.
  intros Hrun val0 val.
  destruct (new_control_ok _ _ _ _ _ _ _ _ _ _ _ _ _ _ _ _ _ _ _ Hrun)
    as (y & Hy & Hvars & Htk & _).
  exists y. split; [exact Hy|]. split; [|split; assumption].
  cbv zeta in Hy. fold val0 in Hy. fold val in Hy.
  intros [Hdt|[b Hb]].
  - rewrite (converted_as_given dt _ Hdt) in Hy. congruence.
  - rewrite Hb in Hy |- *. destruct (var_class_of dt); cbn in Hy; congruence.
Qed.

Example built_control_holds_default :
  match build_sample DStr (PStr "fast") two_choices false None None with
  | (Ok ctl, g) => var_value <$> vars g !! tk_var ctl
  | (Raise _, _) => None
  end = Some (PStr "fast").
Proof. vm_compute. reflexivity. Qed.

(** * Further properties *)

(** ** Slider rounding: errors, bounds and fixed points *)

(** X1: an integer slider without lattice (a zero step, a positive step
    with [min >= max + step], or a negative step with [min <= max + step])
    raises ValueError and writes nothing. *)
Theorem slider_without_lattice_raises
    (value : Q) (var : vid) (lo hi step : Z) (g : gui) :
  step = 0 \/ (0 < step /\ hi + step <= lo) \/ (step < 0 /\ lo <= hi + step) ->
  set_slider_rounding value var DInt (Some (NInt step)) (Some (NInt lo, NInt hi)) g
  = (Raise ValueError, g).
Proof.
  intros H. unfold set_slider_rounding. cbn [dtype_eqb]. unfold bind, lift, py_range.
  destruct (Z.eqb_spec step 0) as [Hz|Hnz]; [reflexivity|].
  assert (Hlen : range_len lo (hi + step) step = 0).
  { unfold range_len. destruct H as [?|[[Hs Hle]|[Hs Hle]]]; [contradiction| |].
    - destruct (Z.ltb_spec 0 step); [|lia].
      destruct (Z.ltb_spec lo (hi + step)); [lia|reflexivity].
    - destruct (Z.ltb_spec 0 step); [lia|].
      destruct (Z.ltb_spec (hi + step) lo); [lia|reflexivity]. }
  rewrite Hlen. reflexivity.
Qed.

Lemma slider_without_lattice_raises_witness :
  set_slider_rounding 35 0%nat DInt (Some (NInt 0)) (Some (NInt 0, NInt 100)) one_var
  = (Raise ValueError, one_var).
Proof.
  apply (slider_without_lattice_raises 35 0%nat 0 100 0 one_var). left. reflexivity.
Defined.

(** X2: a raw value whose integer part is a point of the lattice is written
    back as that integer: snapping leaves the lattice points where they
    are. *)
Theorem slider_lattice_point_kept
    (value : Q) (var : vid) (lo hi step : Z) (g : gui) :
  0 < step -> on_lattice lo hi step (int_of_float value) ->
  set_slider_rounding value var DInt (Some (NInt step)) (Some (NInt lo, NInt hi)) g
  = var_set var (PNum (NInt (int_of_float value))) g.
Proof.
  intros Hs Hon.
  assert (Hlt : lo < hi + step) by (destruct Hon as (i & Hi & Hx & Hxlt); nia).
  destruct (snap_closest lo hi step (int_of_float value) Hs Hlt)
    as (l & r & Hrange & Hmin & _ & Hclose).
  destruct (Hclose _ Hon) as [Hd _].
  assert (r = int_of_float value) by lia. subst r.
  unfold set_slider_rounding. cbn [dtype_eqb]. unfold bind, lift.
  rewrite Hrange, Hmin. reflexivity.
Qed.

Lemma slider_lattice_point_kept_witness :
  set_slider_rounding 70 0%nat DInt (Some (NInt 10)) (Some (NInt 0, NInt 100)) one_var
  = var_set 0%nat (PNum (NInt (int_of_float 70))) one_var.
Proof.
  apply (slider_lattice_point_kept 70 0%nat 0 100 10 one_var); [lia|].
  exists 7. vm_compute. repeat split; discriminate.
Defined.

(** X3: the value written lies between [min] and [max + step]; a raw value
    at or below [min] is set to [min]; and when the step divides
    [max - min], a raw value at or below [max] is never set above [max]. *)
Theorem slider_value_within_bounds
    (value : Q) (var : vid) (lo hi step : Z) (g : gui) :
  0 < step -> lo <= hi ->
  exists r,
    set_slider_rounding value var DInt (Some (NInt step)) (Some (NInt lo, NInt hi)) g
    = var_set var (PNum (NInt r)) g
    /\ lo <= r < hi + step
    /\ (int_of_float value <= lo -> r = lo)
    /\ ((step | hi - lo) -> int_of_float value <= hi -> r <= hi).
Proof.
  intros Hs Hle.
  destruct (snap_closest lo hi step (int_of_float value) Hs ltac:(lia))
    as (l & r & Hrange & Hmin & Hon & Hclose).
  exists r. split.
  { unfold set_slider_rounding. cbn [dtype_eqb]. unfold bind, lift.
    rewrite Hrange, Hmin. reflexivity. }
  assert (Hr : lo <= r < hi + step) by (destruct Hon as (i & Hi & Hx & Hxlt); nia).
  split; [exact Hr|]. split.
  - intros Hn. assert (Hlo : on_lattice lo hi step lo) by (exists 0; lia).
    destruct (Hclose lo Hlo) as [Hd _]. lia.
  - intros [k Hk] Hn.
    assert (Hhi : on_lattice lo hi step hi).
    { exists k. split; [nia|]. split; lia. }
    destruct (Hclose hi Hhi) as [Hd _]. lia.
Qed.

Lemma slider_value_within_bounds_witness :
  exists r,
    set_slider_rounding 97 0%nat DInt (Some (NInt 10)) (Some (NInt 0, NInt 100)) one_var
    = var_set 0%nat (PNum (NInt r)) one_var
    /\ 0 <= r < 100 + 10
    /\ (int_of_float 97 <= 0 -> r = 0)
    /\ ((10 | 100 - 0) -> int_of_float 97 <= 100 -> r <= 100).
Proof.
  apply (slider_value_within_bounds 97 0%nat 0 100 10 one_var); lia.
Defined.

(** When the step does not divide [max - min] the value written can exceed
    the maximum: bounds (0, 110) and step 30 set the raw value 110 to 120. *)
Example slider_above_max :
  var_value <$>
    vars (snd (set_slider_rounding 110 0%nat DInt (Some (NInt 30))
                 (Some (NInt 0, NInt 110)) one_var)) !! 0%nat
  = Some (PNum (NInt 120)).
Proof. vm_compute. reflexivity. Qed.

Lemma range_len_neg (lo stop step : Z) :
  step < 0 -> stop < lo ->
  0 < range_len lo stop step
  /\ forall i, 0 <= i -> (stop < lo + i * step <-> i < range_len lo stop step).
Proof.
  intros Hs Hlt. unfold range_len.
  destruct (Z.ltb_spec 0 step); [lia|]. destruct (Z.ltb_spec stop lo); [|lia].
  assert (Hp : 0 < - step) by lia.
  pose proof (Z.div_pos (lo - stop - 1) (- step) ltac:(lia) Hp) as Hq.
  split; [lia|]. intros i Hi.
  pose proof (Z.mul_div_le (lo - stop - 1) (- step) Hp) as Hle.
  pose proof (Z.mul_succ_div_gt (lo - stop - 1) (- step) Hp) as Hgt.
  split; intros H'; nia.
Qed.

(** X4: with a negative step the lattice runs downward from [min]: the
    value written is the point [min + i * step] above [max + step] that is
    closest to the integer part of the raw value, and of two equally close
    points the higher one, which comes first. *)
Theorem slider_negative_step_ties_high
    (value : Q) (var : vid) (lo hi step : Z) (g : gui) :
  step < 0 -> hi + step < lo ->
  exists r,
    set_slider_rounding value var DInt (Some (NInt step)) (Some (NInt lo, NInt hi)) g
    = var_set var (PNum (NInt r)) g
    /\ on_lattice_down lo hi step r
    /\ closest_high (on_lattice_down lo hi step) (int_of_float value) r.
Proof.
  intros Hs Hlt. set (n := int_of_float value).
  destruct (range_len_neg lo (hi + step) step Hs Hlt) as [Hpos Hlen].
  set (f := fun i : nat => lo + Z.of_nat i * step).
  set (len := Z.to_nat (range_len lo (hi + step) step)).
  assert (Hlen0 : (0 < len)%nat) by (unfold len; lia).
  destruct len as [|len'] eqn:Elen; [lia|].
  destruct (min_from_first (fun x => Z.abs (x - n)) (map f (seq 1 len')) (f 0%nat))
    as (l1 & l2 & Heq & H1 & H2 & _).
  set (r := min_from _ _ _) in *.
  change (f 0%nat :: map f (seq 1 len')) with (map f (seq 0 (S len'))) in Heq.
  destruct (map_seq_split f l1 _ _ _ _ Heq) as (Hr & Hl1 & Hin). simpl in Hr.
  exists r. split; [|split].
  - unfold set_slider_rounding. cbn [dtype_eqb]. unfold bind, lift, py_range.
    destruct (Z.eqb_spec step 0) as [?|_]; [lia|].
    fold f. fold len. rewrite Elen. reflexivity.
  - exists (Z.of_nat (length l1)). split; [lia|]. split; [exact Hr|].
    rewrite Hr. unfold f. apply Hlen; lia.
  - intros x (i & Hi & Hx & Hxgt).
    assert (Hilt : (Z.to_nat i < S len')%nat).
    { rewrite Hx in Hxgt. apply Hlen in Hxgt; [|exact Hi]. lia. }
    assert (Hxf : x = f (Z.to_nat i)) by (unfold f; rewrite Z2Nat.id by lia; exact Hx).
    assert (Hxin : In x (l1 ++ r :: l2)).
    { rewrite <- Heq, Hxf. apply in_map. apply in_seq. lia. }
    rewrite Forall_forall in H1, H2.
    split.
    + apply in_app_or in Hxin. destruct Hxin as [Hx1|[Hxr|Hx2]].
      * apply list_elem_of_In, H1 in Hx1. lia.
      * subst x. rewrite Hxr. lia.
      * apply list_elem_of_In, H2 in Hx2. lia.
    + intros Htie.
      destruct (Nat.lt_ge_cases (Z.to_nat i) (length l1)) as [Hlt1|Hge1].
      * assert (Hx1 : In x l1) by (rewrite Hxf; apply Hin; lia).
        apply list_elem_of_In, H1 in Hx1. lia.
      * rewrite Hr, Hx. unfold f. nia.
Qed.

Lemma slider_negative_step_ties_high_witness :
  exists r,
    set_slider_rounding 35 0%nat DInt (Some (NInt (-10))) (Some (NInt 100, NInt 0)) one_var
    = var_set 0%nat (PNum (NInt r)) one_var
    /\ on_lattice_down 100 0 (-10) r
    /\ closest_high (on_lattice_down 100 0 (-10)) (int_of_float 35) r.
Proof.
  apply (slider_negative_step_ties_high 35 0%nat 100 0 (-10) one_var); lia.
Defined.

Example slider_negative_step_35 :
  var_value <$>
    vars (snd (set_slider_rounding 35 0%nat DInt (Some (NInt (-10)))
                 (Some (NInt 100, NInt 0)) one_var)) !! 0%nat
  = Some (PNum (NInt 40)).
Proof. vm_compute. reflexivity. Qed.

(** ** AutoFillContainer: the cursor, the last column and empty containers *)

Lemma insert_after_alter {A} (f : A -> A) (x : A) (i : nat) (l : list A) :
  <[i := x]> (alter f i l) = <[i := x]> l.
Proof.
  apply list_eq. intros j. destruct (decide (j = i)) as [->|Hne].
  - destruct (decide (i < length l)%nat) as [Hlt|Hge].
    + rewrite !list_lookup_insert_eq by (rewrite ?length_alter; lia). reflexivity.
    + rewrite !list_insert_ge by (rewrite ?length_alter; lia).
      rewrite list_lookup_alter_eq. rewrite (lookup_ge_None_2 l i) by lia. reflexivity.
  - rewrite !list_lookup_insert_ne by congruence.
    rewrite list_lookup_alter_ne by congruence. reflexivity.
Qed.

(** [k] requests move the cursor [k] columns on, around the container, and
    change nothing else in the state. *)
Lemma requests_move_cursor (c : cid) (k : nat) : forall (g : gui) (o : AutoFillContainer),
  containers g !! c = Some o ->
  1 <= columns o -> length (subframes o) = Z.to_nat (columns o) ->
  0 <= _idx o < columns o ->
  exists rs,
    requests c k g
    = (Ok rs,
       with_containers
         (fun cs => <[c := set_idx ((_idx o + Z.of_nat k) mod columns o) o]> cs) g).
Proof.
  induction k as [|k IH]; intros g o Hc HC Hlen Hidx.
  - exists []. cbn [requests]. unfold ret. f_equal.
    rewrite Z.add_0_r, Z.mod_small by lia.
    destruct g as [ws vs ts cs bs]. unfold with_containers. gui_simpl. f_equal.
    cbn [containers] in Hc. rewrite list_insert_id; [reflexivity|].
    rewrite Hc. destruct o; reflexivity.
  - destruct (subframe_run c g o Hc ltac:(lia)) as (w & Hw & Hrun).
    set (next := if negb (_idx o + 1 =? columns o) then _idx o + 1 else 0) in *.
    set (g1 := with_containers (alter (set_idx next) c) g) in *.
    assert (Hc1 : containers g1 !! c = Some (set_idx next o)).
    { unfold g1, with_containers. gui_simpl.
      rewrite list_lookup_alter_eq, Hc. reflexivity. }
    assert (Hnext : 0 <= next < columns o).
    { unfold next. destruct (Z.eqb_spec (_idx o + 1) (columns o)); cbn [negb]; lia. }
    destruct (IH g1 (set_idx next o) Hc1 HC Hlen Hnext) as (rs & Hreq).
    exists (w :: rs). cbn [requests]. unfold bind. rewrite Hrun, Hreq. unfold ret.
    f_equal. unfold g1, with_containers, set_idx. gui_simpl.
    rewrite insert_after_alter. do 3 f_equal.
    unfold next. destruct (Z.eqb_spec (_idx o + 1) (columns o)) as [He|Hne]; cbn [negb].
    + replace (_idx o + Z.of_nat (S k)) with (0 + Z.of_nat k + 1 * columns o) by lia.
      rewrite Z_mod_plus_full. reflexivity.
    + f_equal. lia.
Qed.

(** X5: a full round of requests, one per column, returns the columns in
    order and leaves the whole state as it was after construction: the
    cursor is back on column 0. *)
Theorem full_round_restores_container (p : wid) (C : Z) (g : gui) :
  1 <= C -> is_Some (widgets g !! p) ->
  exists c g0 o,
    new_container p C g = (Ok c, g0)
    /\ containers g0 !! c = Some o
    /\ requests c (Z.to_nat C) g0 = (Ok (subframes o), g0).
Proof.
  intros HC Hp.
  destruct (new_container_ready p C g HC Hp)
    as (c & g0 & o & Hnew & Hc & Hcols & Hidx & _ & Hlen).
  exists c, g0, o. split; [exact Hnew|]. split; [exact Hc|].
  destruct (requests_move_cursor c (Z.to_nat C) g0 o Hc ltac:(lia)
              ltac:(congruence) ltac:(lia)) as (rs & Hreq).
  destruct (requests_run c (Z.to_nat C) g0 o Hc ltac:(lia) ltac:(congruence) ltac:(lia))
    as (rs' & gk & Hreq' & Hrs).
  rewrite Hreq in Hreq'. injection Hreq' as <- _.
  rewrite Hreq. f_equal.
  - f_equal. apply map_Some_inj. rewrite Hrs, <- map_lookup_seq, Hlen.
    apply map_ext_in. intros j Hj. apply in_seq in Hj.
    rewrite Hidx, Hcols, Z.add_0_l, Z.mod_small by lia. rewrite Nat2Z.id. reflexivity.
  - rewrite Hidx, Hcols, Z.add_0_l, Z2Nat.id, Z.mod_same by lia.
    destruct g0 as [ws vs ts cs bs]. unfold with_containers. gui_simpl. f_equal.
    cbn [containers] in Hc. rewrite list_insert_id; [reflexivity|].
    rewrite Hc. destruct o. cbn in Hidx. subst. reflexivity.
Qed.

Lemma full_round_restores_container_witness :
  exists c g0 o,
    new_container 0%nat 3 one_var = (Ok c, g0)
    /\ containers g0 !! c = Some o
    /\ requests c (Z.to_nat 3) g0 = (Ok (subframes o), g0).
Proof.
  apply (full_round_restores_container 0%nat 3 one_var); [lia|].
  eexists. reflexivity.
Defined.

(** X6: [last_subframe] returns the column of the highest index, whatever
    number of requests came before, and changes nothing: the cursor stays
    where the requests left it. *)
Theorem last_subframe_is_last_column (p : wid) (C : Z) (g : gui) (k : nat) :
  1 <= C -> is_Some (widgets g !! p) ->
  exists c g0 o rs gk w,
    new_container p C g = (Ok c, g0)
    /\ containers g0 !! c = Some o
    /\ requests c k g0 = (Ok rs, gk)
    /\ subframes o !! Z.to_nat (C - 1) = Some w
    /\ last_subframe c gk = (Ok w, gk).
Proof.
  intros HC Hp.
  destruct (new_container_ready p C g HC Hp)
    as (c & g0 & o & Hnew & Hc & Hcols & Hidx & _ & Hlen).
  destruct (requests_move_cursor c k g0 o Hc ltac:(lia) ltac:(congruence) ltac:(lia))
    as (rs & Hreq).
  destruct (lookup_lt_is_Some_2 (subframes o) (Z.to_nat (C - 1))) as [w Hw]; [lia|].
  do 6 eexists. split; [exact Hnew|]. split; [exact Hc|]. split; [exact Hreq|].
  split; [exact Hw|].
  unfold last_subframe, bind, get_container, lift, with_containers. gui_simpl.
  rewrite list_lookup_insert_eq by (eapply lookup_lt_Some, Hc).
  unfold set_idx. gui_simpl. unfold py_index. rewrite Hcols.
  destruct (Z.ltb_spec (C - 1) 0) as [?|_]; [lia|].
  destruct (Z.ltb_spec (C - 1) 0) as [?|_]; [lia|].
  destruct (Z.leb_spec (Z.of_nat (length (subframes o))) (C - 1)) as [?|_]; [lia|].
  cbn [orb]. rewrite Hw. reflexivity.
Qed.

Lemma last_subframe_is_last_column_witness :
  exists c g0 o rs gk w,
    new_container 0%nat 3 one_var = (Ok c, g0)
    /\ containers g0 !! c = Some o
    /\ requests c 2 g0 = (Ok rs, gk)
    /\ subframes o !! Z.to_nat (3 - 1) = Some w
    /\ last_subframe c gk = (Ok w, gk).
Proof.
  apply (last_subframe_is_last_column 0%nat 3 one_var 2); [lia|].
  eexists. reflexivity.
Defined.

(** X7: a container built with a column count of zero or less has no
    column at all and holds no item: no widget is created, and a request
    for the next or for the last column raises IndexError and leaves the
    state as it is. *)
Theorem container_without_columns (p : wid) (C : Z) (g : gui) :
  C <= 0 ->
  exists c g0,
    new_container p C g = (Ok c, g0)
    /\ widgets g0 = widgets g
    /\ containers g0 !! c = Some (mkContainer p C 0 0 [])
    /\ subframe c g0 = (Raise IndexError, g0)
    /\ last_subframe c g0 = (Raise IndexError, g0).
Proof.
  intros HC. destruct g as [ws vs ts cs bs].
  assert (Hrange : range0 C = []).
  { unfold range0. replace (Z.to_nat C) with 0%nat by lia. reflexivity. }
  do 2 eexists. split.
  - unfold new_container, bind at 1. unfold with_containers. gui_simpl.
    unfold bind at 1. unfold set_subframes, bind at 1, get_container. gui_simpl.
    rewrite lookup_last. gui_simpl. rewrite Hrange. cbn [set_subframes_loop].
    unfold ret at 1. unfold bind, update_container, ret, with_containers. gui_simpl.
    rewrite alter_last. reflexivity.
  - gui_simpl. split; [reflexivity|]. unfold set_subframes_field. gui_simpl.
    split; [apply lookup_last|].
    unfold subframe, last_subframe, bind, get_container, lift. gui_simpl.
    rewrite lookup_last. gui_simpl. unfold py_index. cbn [length Z.of_nat].
    split.
    + reflexivity.
    + destruct (Z.ltb_spec (C - 1) 0) as [_|?]; [|lia]. cbn [Z.of_nat].
      rewrite Z.add_0_r. destruct (Z.ltb_spec (C - 1) 0) as [_|?]; [|lia].
      reflexivity.
Qed.

Lemma container_without_columns_witness :
  exists c g0,
    new_container 0%nat 0 one_var = (Ok c, g0)
    /\ widgets g0 = widgets one_var
    /\ containers g0 !! c = Some (mkContainer 0%nat 0 0 0 [])
    /\ subframe c g0 = (Raise IndexError, g0)
    /\ last_subframe c g0 = (Raise IndexError, g0).
Proof. apply (container_without_columns 0%nat 0 one_var). lia. Defined.

Lemma items_counts_columns_witness :
  exists c g0 rs gk,
    new_container 0%nat 4 one_var = (Ok c, g0)
    /\ requests c 6 g0 = (Ok rs, gk)
    /\ fst (items c g0) = Ok 4
    /\ fst (items c gk) = Ok 4.
Proof.
  apply (items_counts_columns 0%nat 4 one_var 6); [lia|]. eexists. reflexivity.
Defined.

(** ** FileBrowser: the buttons *)

Lemma helptext_kind_has_method (kind : string) :
  is_Some (browser_helptext kind) -> has_ask_method kind = true.
Proof.
  unfold browser_helptext, has_ask_method. cbn [existsb].
  destruct (String.eqb kind "folder"); [reflexivity|].
  destruct (String.eqb kind "load"); [reflexivity|].
  destruct (String.eqb kind "load_multi"); [reflexivity|].
  destruct (String.eqb kind "context"); [intros _; rewrite !orb_true_r; reflexivity|].
  destruct (String.eqb kind "save"); [reflexivity|].
  intros [t Ht]. discriminate.
Qed.

Lemma helptext_kind_has_icon (kind : string) :
  is_Some (browser_helptext kind) -> existsb (String.eqb kind) icon_names = true.
Proof.
  unfold browser_helptext, icon_names. cbn [existsb].
  destruct (String.eqb kind "folder"); [reflexivity|].
  destruct (String.eqb kind "load"); [reflexivity|].
  destruct (String.eqb kind "load_multi"); [reflexivity|].
  destruct (String.eqb kind "context"); [intros _; rewrite !orb_true_r; reflexivity|].
  destruct (String.eqb kind "save"); [reflexivity|].
  intros [t Ht]. discriminate.
Qed.

(** A button with its tooltip is added for a kind that has an icon, a
    dialog routine and a tooltip text. *)
Lemma add_browser_button_run (b : bid) (frame : wid) (kind : string)
    (ws : list widget) (vs : list tkvar) (ts : list tooltip)
    (cs : list AutoFillContainer) (bs : list FileBrowser) :
  is_Some (browser_helptext kind) ->
  add_browser_button b frame kind (mkGui ws vs ts cs bs)
  = (Ok tt, mkGui (ws ++ [browser_button b frame kind]) vs
              (ts ++ [browser_tooltip (length ws) 0 kind]) cs bs).
Proof.
  intros Hk. pose proof (helptext_kind_has_method kind Hk) as Hm.
  pose proof (helptext_kind_has_icon kind Hk) as Hi.
  destruct Hk as [t Ht].
  unfold add_browser_button, icons, bind, ret, create_widget, pack, required, Tooltip,
    with_widgets. rewrite Hi, Hm, Ht. gui_simpl. rewrite alter_last.
  unfold browser_button, browser_tooltip. rewrite Ht, Nat.add_0_r. reflexivity.
Qed.

Lemma add_browser_buttons_loop (b : bid) (frame : wid) (vs : list tkvar)
    (cs : list AutoFillContainer) (bs : list FileBrowser) (kinds : list string) :
  forall (ws : list widget) (ts : list tooltip),
    Forall (fun k => is_Some (browser_helptext k)) kinds ->
    for_each kinds (add_browser_button b frame) (mkGui ws vs ts cs bs)
    = (Ok tt, mkGui (ws ++ map (browser_button b frame) kinds) vs
                (ts ++ imap (browser_tooltip (length ws)) kinds) cs bs).
Proof.
  induction kinds as [|k rest IH]; intros ws ts Hall.
  - cbn. rewrite !app_nil_r. reflexivity.
  - apply Forall_cons in Hall. destruct Hall as [Hk Hrest].
    cbn [for_each]. unfold bind. rewrite (add_browser_button_run _ _ _ _ _ _ _ _ Hk).
    rewrite (IH _ _ Hrest). cbn [map imap]. rewrite <- !app_assoc. cbn [app].
    do 3 f_equal. f_equal. apply imap_ext. intros i x _.
    unfold browser_tooltip, compose. f_equal. rewrite length_app. cbn. lia.
Qed.

(** X8: a file browser whose dialog kinds all are among folder, load,
    load_multi, context and save is built without error: the browser object
    is added, and for each kind, in order, one packed button in the
    control's frame that runs the dialog routine of that kind, with the
    fixed tooltip of the kind; nothing else changes. *)
Theorem filebrowser_one_button_per_kind
    (tk_var frame : nat) (d : sysbrowser) (g : gui) (kinds : list string)
    (ftypes : string) :
  sb_browser d = Some kinds -> sb_filetypes d = Some ftypes ->
  Forall (fun k => is_Some (browser_helptext k)) kinds ->
  new_filebrowser tk_var frame d g
  = (Ok (length (browsers g)),
     mkGui (widgets g ++ map (browser_button (length (browsers g)) frame) kinds)
       (vars g)
       (tooltips g ++ imap (browser_tooltip (length (widgets g))) kinds)
       (containers g)
       (browsers g ++
          [mkBrowser tk_var frame kinds ftypes
             (action_of_name (sb_action_option d)) (sb_command d)
             (sb_destination d)])).
Proof.
  intros Hb Hf Hall. destruct g as [ws vs ts cs bs].
  unfold new_filebrowser, bind at 1. rewrite Hb. unfold required at 1, ret at 1.
  unfold bind at 1. rewrite Hf. unfold required at 1, ret at 1.
  unfold bind at 1. unfold alloc_browser, with_browsers. gui_simpl.
  unfold bind at 1. unfold add_browser_buttons, bind at 1, get_browser. gui_simpl.
  rewrite lookup_last. cbn [browser fb_frame].
  rewrite (add_browser_buttons_loop _ _ _ _ _ _ _ _ Hall). reflexivity.
Qed.

Lemma filebrowser_one_button_per_kind_witness :
  new_filebrowser 0%nat 0%nat
    (mkSysbrowser (Some ["folder"; "load"]%string) (Some "all"%string) None None None)
    one_var
  = (Ok (length (browsers one_var)),
     mkGui (widgets one_var
              ++ map (browser_button (length (browsers one_var)) 0%nat)
                   ["folder"; "load"]%string)
       (vars one_var)
       (tooltips one_var
          ++ imap (browser_tooltip (length (widgets one_var))) ["folder"; "load"]%string)
       (containers one_var)
       (browsers one_var ++
          [mkBrowser 0%nat 0%nat ["folder"; "load"]%string "all"
             (action_of_name None) None None])).
Proof.
  apply (filebrowser_one_button_per_kind 0%nat 0%nat
           (mkSysbrowser (Some ["folder"; "load"]%string) (Some "all"%string)
              None None None)
           one_var ["folder"; "load"]%string "all"%string);
    [reflexivity | reflexivity |].
  repeat constructor; eexists; reflexivity.
Defined.

Lemma for_each_app_ok {A} (f : A -> M unit) (l1 l2 : list A) :
  forall g g1, for_each l1 f g = (Ok tt, g1) ->
               for_each (l1 ++ l2) f g = for_each l2 f g1.
Proof.
  induction l1 as [|x l1 IH]; intros g g1 H.
  - injection H as <-. reflexivity.
  - cbn [for_each app] in *. unfold bind in *.
    destruct (f x g) as [[[]|e] g']; [|discriminate]. apply IH. exact H.
Qed.

(** X9: the dialog kind "nothing" has a dialog routine, [ask_nothing], but
    no file browser can be built with it: the construction raises KeyError
    when it comes to this kind, after the buttons of the kinds before it are
    made.  (The kind has no tooltip text, so [self.helptext[browser]]
    raises KeyError if the icon lookup has not done so before.) *)
Theorem filebrowser_kind_without_tooltip_fails
    (tk_var frame : nat) (d : sysbrowser) (g : gui) (before after : list string)
    (ftypes : string) :
  sb_browser d = Some (before ++ "nothing"%string :: after) ->
  sb_filetypes d = Some ftypes ->
  Forall (fun k => is_Some (browser_helptext k)) before ->
  has_ask_method "nothing" = true
  /\ browser_helptext "nothing" = None
  /\ exists g' rest,
       new_filebrowser tk_var frame d g = (Raise KeyError, g')
       /\ widgets g'
          = widgets g ++ map (browser_button (length (browsers g)) frame) before
            ++ rest
       /\ (rest = [] \/ rest = [browser_button (length (browsers g)) frame "nothing"])
       /\ vars g' = vars g.
Proof.
  intros Hb Hf Hall. split; [reflexivity|]. split; [reflexivity|].
  destruct g as [ws vs ts cs bs].
  unfold new_filebrowser, bind at 1. rewrite Hb. unfold required at 1, ret at 1.
  unfold bind at 1. rewrite Hf. unfold required at 1, ret at 1.
  unfold bind at 1. unfold alloc_browser, with_browsers. gui_simpl.
  unfold bind at 1. unfold add_browser_buttons, bind at 1, get_browser. gui_simpl.
  rewrite lookup_last. cbn [browser fb_frame].
  rewrite (for_each_app_ok _ before ("nothing"%string :: after) _ _
             (add_browser_buttons_loop _ _ _ _ _ _ _ _ Hall)).
  cbn [for_each]. unfold bind at 1.
  exists (snd (add_browser_button (length bs) frame "nothing"
                 (mkGui (ws ++ map (browser_button (length bs) frame) before) vs
                    (ts ++ imap (browser_tooltip (length ws)) before) cs
                    (bs ++ [mkBrowser tk_var frame (before ++ "nothing"%string :: after)
                              ftypes (action_of_name (sb_action_option d))
                              (sb_command d) (sb_destination d)])))), [].
  split; [reflexivity|]. rewrite app_nil_r. split; [reflexivity|].
  split; [left|]; reflexivity.
Qed.

Lemma filebrowser_kind_without_tooltip_fails_witness :
  exists g' rest,
    new_filebrowser 0%nat 0%nat
      (mkSysbrowser (Some (app ["load"%string] ("nothing"%string :: ["save"%string])))
         (Some "all"%string) None None None) one_var
    = (Raise KeyError, g')
    /\ widgets g'
       = widgets one_var
         ++ map (browser_button (length (browsers one_var)) 0%nat) ["load"%string]
         ++ rest
    /\ (rest = []
        \/ rest = [browser_button (length (browsers one_var)) 0%nat "nothing"])
    /\ vars g' = vars one_var.
Proof.
  apply (filebrowser_kind_without_tooltip_fails 0%nat 0%nat
           (mkSysbrowser (Some (app ["load"%string] ("nothing"%string :: ["save"%string])))
              (Some "all"%string) None None None)
           one_var ["load"%string] ["save"%string] "all"%string);
    try reflexivity.
  repeat constructor; eexists; reflexivity.
Defined.

Example nothing_kind_raises_KeyError :
  fst (new_filebrowser 0%nat 0%nat
         (mkSysbrowser (Some ["nothing"%string]) (Some "all"%string) None None None)
         one_var)
  = Raise KeyError.
Proof. vm_compute. reflexivity. Qed.

(** ** FileBrowser: the context action option *)

(** On options that all have their switches and variables the mapping is
    built, and a name that is no option's first switch is not in it. *)
Lemma action_vars_wired (values : list item) :
  forall (acc : gmap string vid) (g : gui),
    Forall wired values ->
    exists m,
      action_vars values acc g = (Ok m, g)
      /\ forall name,
           (forall d, In (Descr d) values -> first_opt d <> Some name) ->
           m !! name = acc !! name.
Proof.
  induction values as [|i rest IH]; intros acc g Hw.
  - exists acc. split; [reflexivity|]. reflexivity.
  - apply Forall_cons in Hw. destruct Hw as [(d & key & v0 & -> & Hkey & Hsel) Hw].
    assert (Hopts : exists tl, o_opts d = Some (key :: tl)).
    { unfold first_opt in Hkey. destruct (o_opts d) as [[|k tl]|]; try discriminate.
      injection Hkey as ->. eauto. }
    destruct Hopts as [tl Hopts].
    destruct (IH (<[key := v0]> acc) g Hw) as (m & Hrun & Hm).
    exists m. split.
    + cbn [action_vars]. unfold bind, as_descr, required, ret, lift.
      rewrite Hopts, Hsel, py_index_head. exact Hrun.
    + intros name Hno. rewrite Hm by (intros d' Hin; apply Hno; right; exact Hin).
      apply lookup_insert_ne. intros ->. exact (Hno d (or_introl eq_refl) Hkey).
Qed.

(** X10: for a context file browser whose options all have their switches
    and variables, [set_context_action_option] fails and changes nothing
    when the action option cannot be looked up: with KeyError when the
    configured name is no option's first switch or no action option is
    configured, with TypeError when the action option is a variable already,
    as it is after a first call. *)
Theorem context_action_option_unknown
    (b : bid) (options : options_map) (g : gui) (o : FileBrowser) :
  browsers g !! b = Some o -> browser o = ["context"%string] ->
  Forall (fun e => wired (snd e)) options ->
  (forall name, action_option o = ActName name ->
     forall key d, In (key, Descr d) options -> first_opt d <> Some name) ->
  set_context_action_option b options g
  = (Raise (match action_option o with
            | ActVar _ => TypeError
            | ActNone | ActName _ => KeyError
            end), g).
Proof.
  intros Hb Hctx Hw Hno.
  unfold set_context_action_option, bind at 1. unfold get_browser. rewrite Hb.
  rewrite bool_decide_eq_true_2 by exact Hctx. cbn [negb]. unfold bind.
  destruct (action_vars_wired (map snd options) ∅ g) as (m & Hrun & Hm).
  { apply Forall_forall. intros i Hi. apply list_elem_of_In, in_map_iff in Hi.
    destruct Hi as (e & <- & He). rewrite Forall_forall in Hw.
    apply Hw, list_elem_of_In, He. }
  rewrite Hrun. destruct (action_option o) as [|name|v] eqn:Hact; try reflexivity.
  rewrite Hm, lookup_empty; [reflexivity|].
  intros d Hd. apply in_map_iff in Hd. destruct Hd as ([k i] & Hi & He).
  cbn [snd] in Hi. subst i. exact (Hno name eq_refl k d He).
Qed.

Lemma context_action_option_unknown_witness :
  set_context_action_option 0%nat
    [("input"%string, Descr (switch_option ["-i"; "--input"]%string 0%nat))]
    unfinished_gui
  = (Raise KeyError, unfinished_gui)
  /\ set_context_action_option 0%nat context_options browser_gui
     = (Raise TypeError, browser_gui).
Proof.
  split.
  - apply (context_action_option_unknown 0%nat
             [("input"%string, Descr (switch_option ["-i"; "--input"]%string 0%nat))]
             unfinished_gui context_browser); try reflexivity.
    + repeat constructor; cbn [snd]; do 3 eexists; repeat split; reflexivity.
    + intros name [= <-] key d [[= <- <-]|[]]. discriminate.
  - apply (context_action_option_unknown 0%nat context_options browser_gui
             (mkBrowser 0%nat 0%nat ["context"%string] "all" (ActVar 1%nat)
                (Some "convert"%string) (Some "output"%string))); try reflexivity.
    + repeat constructor; cbn [snd]; do 3 eexists; repeat split; reflexivity.
    + intros name [=].
Defined.

(** The options up to the first one that is no dict are taken in, then the
    construction of the mapping stops with a TypeError. *)
Lemma action_vars_text (before after : list item) (s : string) :
  forall (acc : gmap string vid) (g : gui),
    Forall wired before ->
    action_vars (before ++ Text s :: after) acc g = (Raise TypeError, g).
Proof.
  induction before as [|i rest IH]; intros acc g Hw.
  - reflexivity.
  - apply Forall_cons in Hw. destruct Hw as [(d & key & v0 & -> & Hkey & Hsel) Hw].
    assert (Hopts : exists tl, o_opts d = Some (key :: tl)).
    { unfold first_opt in Hkey. destruct (o_opts d) as [[|k tl]|]; try discriminate.
      injection Hkey as ->. eauto. }
    destruct Hopts as [tl Hopts].
    cbn [action_vars app]. unfold bind, as_descr, required, ret, lift.
    rewrite Hopts, Hsel, py_index_head. apply IH. exact Hw.
Qed.

(** X11: [set_context_action_option] goes through all the values of the
    options mapping, the text under the reserved key [helptext] included:
    with such a text among otherwise complete options, a context file
    browser raises TypeError and changes nothing, although the panel skips
    that key everywhere else. *)
Theorem context_action_option_text_entry
    (b : bid) (before after : options_map) (key text : string) (g : gui)
    (o : FileBrowser) :
  browsers g !! b = Some o -> browser o = ["context"%string] ->
  Forall (fun e => wired (snd e)) before ->
  set_context_action_option b (before ++ (key, Text text) :: after) g
  = (Raise TypeError, g).
Proof.
  intros Hb Hctx Hw.
  unfold set_context_action_option, bind at 1. unfold get_browser. rewrite Hb.
  rewrite bool_decide_eq_true_2 by exact Hctx. cbn [negb]. unfold bind.
  rewrite map_app. cbn [map snd]. rewrite action_vars_text; [reflexivity|].
  apply Forall_forall. intros i Hi. apply list_elem_of_In, in_map_iff in Hi.
  destruct Hi as (e & <- & He). rewrite Forall_forall in Hw.
  apply Hw, list_elem_of_In, He.
Qed.

Lemma context_action_option_text_entry_witness :
  set_context_action_option 0%nat
    (context_options ++ ("helptext"%string, Text "Options of the command") :: [])
    unfinished_gui
  = (Raise TypeError, unfinished_gui).
Proof.
  apply (context_action_option_text_entry 0%nat context_options []
           "helptext"%string "Options of the command"%string unfinished_gui
           context_browser); try reflexivity.
  repeat constructor; cbn [snd]; do 3 eexists; repeat split; reflexivity.
Defined.




(** ** ControlPanel: groups, options and the header *)

(** X13: the frames of a group are made once and found again under any
    spelling of the group's name that differs in letter case only: after a
    first successful call, a call for such a name returns the same frames
    and the same table, and touches nothing in the state. *)
Theorem group_frame_reused
    (opts : cid) (radio_columns : Z) (gfs gfs' : gmap string group_frame)
    (group group' : string) (gf : group_frame) (g g' : gui) :
  get_group_frame opts radio_columns gfs group g = (Ok (gf, gfs'), g') ->
  PyStr.lower group' = PyStr.lower group ->
  forall g2, get_group_frame opts radio_columns gfs' group' g2 = (Ok (gf, gfs'), g2).
Proof.
  intros Hrun Hlow g2.
  assert (Hfound : gfs' !! PyStr.lower group = Some gf).
  { unfold get_group_frame in Hrun.
    destruct (gfs !! PyStr.lower group) as [gf0|] eqn:Hlook.
    - injection Hrun as <- <- _. exact Hlook.
    - unfold bind in Hrun.
      destruct (subframe opts g) as [[w|e] g1]; [|discriminate].
      destruct (create_widget _ g1) as [[fr|e] g3]; [|discriminate].
      destruct (pack fr g3) as [[u|e] g4]; [|discriminate].
      destruct (checkbuttons_frame fr radio_columns g4) as [[chk|e] g5];
        [|discriminate].
      injection Hrun as <- <- _. apply lookup_insert_eq. }
  unfold get_group_frame. rewrite Hlow, Hfound. reflexivity.
Qed.

Lemma group_frame_reused_witness :
  exists gf gfs' g',
    output_group = (Ok (gf, gfs'), g')
    /\ forall g2, get_group_frame 0%nat 4 gfs' "OUTPUT" g2 = (Ok (gf, gfs'), g2).
Proof.
  destruct output_group as [[[gf gfs']|e] g'] eqn:Hrun;
    [|vm_compute in Hrun; discriminate].
  exists gf, gfs', g'. split; [reflexivity|].
  apply (group_frame_reused 0%nat 4 ∅ gfs' "Output" "OUTPUT" gf panel_ready g' Hrun).
  reflexivity.
Defined.

(** X14: the first use of a group makes its frame in the next column of the
    options container, named by the group in lower case (a plain frame for
    the master group, a frame titled with the capitalized name for any
    other) and packed, and under it the frame of the check buttons, which
    is left unpacked; the group is entered in the table under its name in
    lower case. *)
Theorem group_frame_created
    (opts : cid) (radio_columns : Z) (gfs gfs' : gmap string group_frame)
    (group : string) (gf : group_frame) (g g' : gui) :
  gfs !! PyStr.lower group = None ->
  get_group_frame opts radio_columns gfs group g = (Ok (gf, gfs'), g') ->
  exists column g1,
    subframe opts g = (Ok column, g1)
    /\ gf_frame gf = length (widgets g)
    /\ widgets g' !! gf_frame gf
       = Some (set_packed (group_widget column (PyStr.lower group)))
    /\ widgets g' !! S (gf_frame gf)
       = Some (named_frame (gf_frame gf) (Named "chkbuttons"))
    /\ chkbtns_packed g' gf = Some false
    /\ gfs' = <[PyStr.lower group := gf]> gfs.
Proof.
  intros Hnew Hrun. unfold get_group_frame in Hrun. rewrite Hnew in Hrun.
  unfold bind at 1 in Hrun.
  destruct (subframe opts g) as [[column|e] g1] eqn:Hsub; [|discriminate].
  pose proof (subframe_widgets _ _ _ _ Hsub) as Hws.
  exists column, g1. split; [reflexivity|].
  destruct g1 as [ws vs ts cs bs]. cbn [widgets] in Hws. subst ws.
  unfold bind at 1 in Hrun. unfold create_widget at 1, with_widgets in Hrun.
  cbn [widgets vars tooltips containers browsers] in Hrun.
  unfold bind at 1 in Hrun. unfold pack at 1, with_widgets in Hrun.
  cbn [widgets vars tooltips containers browsers] in Hrun.
  rewrite alter_last in Hrun.
  unfold bind at 1 in Hrun.
  unfold checkbuttons_frame, bind at 1, create_widget at 1, with_widgets in Hrun.
  cbn [widgets vars tooltips containers browsers] in Hrun.
  fold (group_widget column (PyStr.lower group)) in Hrun.
  set (n := length (widgets g)) in *.
  set (w1 := set_packed (group_widget column (PyStr.lower group))) in *.
  set (w2 := named_frame n (Named "chkbuttons")) in *.
  assert (Hlen : length ((widgets g ++ [w1]) ++ [w2]) = S (S n)).
  { rewrite !length_app. cbn. unfold n. lia. }
  assert (Hl1 : length (widgets g ++ [w1]) = S n).
  { rewrite length_app. cbn. unfold n. lia. }
  rewrite Hl1 in Hrun.
  assert (Hw2 : ((widgets g ++ [w1]) ++ [w2]) !! S n = Some w2).
  { rewrite <- Hl1. apply lookup_last. }
  assert (Hw1 : ((widgets g ++ [w1]) ++ [w2]) !! n = Some w1).
  { rewrite lookup_app_l by (rewrite Hl1; lia). apply lookup_last. }
  destruct (Z.eq_dec radio_columns 1) as [->|Hne].
  - rewrite new_container_one in Hrun. unfold ret in Hrun.
    injection Hrun as <- <- <-. unfold with_containers, chkbtns_packed.
    gui_simpl. cbn [gf_frame gf_chkbtns]. rewrite lookup_last. gui_simpl.
    split; [reflexivity|]. split; [exact Hw1|]. split; [exact Hw2|].
    split; [|reflexivity]. etransitivity; [apply (f_equal (fmap w_packed) Hw2)|].
    reflexivity.
  - rewrite (new_container_many _ _ _ w2 Hne) in Hrun by exact Hw2.
    unfold ret in Hrun. injection Hrun as <- <- <-. unfold chkbtns_packed.
    gui_simpl. cbn [gf_frame gf_chkbtns]. rewrite lookup_last. gui_simpl.
    set (cols := column_frames (S n) (Named "chkbuttons") (range0 radio_columns)).
    assert (Hw2' : (((widgets g ++ [w1]) ++ [w2]) ++ cols) !! S n = Some w2).
    { rewrite lookup_app_l by (rewrite Hlen; lia). exact Hw2. }
    assert (Hw1' : (((widgets g ++ [w1]) ++ [w2]) ++ cols) !! n = Some w1).
    { rewrite lookup_app_l by (rewrite Hlen; lia). exact Hw1. }
    split; [reflexivity|]. split; [exact Hw1'|]. split; [exact Hw2'|].
    split; [|reflexivity]. etransitivity; [apply (f_equal (fmap w_packed) Hw2')|].
    reflexivity.
Qed.

Lemma group_frame_created_witness :
  exists gf gfs' g' column g1,
    output_group = (Ok (gf, gfs'), g')
    /\ subframe 0%nat panel_ready = (Ok column, g1)
    /\ gf_frame gf = length (widgets panel_ready)
    /\ widgets g' !! gf_frame gf
       = Some (set_packed (group_widget column (PyStr.lower "Output")))
    /\ widgets g' !! S (gf_frame gf)
       = Some (named_frame (gf_frame gf) (Named "chkbuttons"))
    /\ chkbtns_packed g' gf = Some false
    /\ gfs' = <[PyStr.lower "Output" := gf]> ∅.
Proof.
  destruct output_group as [[[gf gfs']|e] g'] eqn:Hrun;
    [|vm_compute in Hrun; discriminate].
  exists gf, gfs', g'.
  destruct (group_frame_created 0%nat 4 ∅ gfs' "Output" gf panel_ready g'
              (lookup_empty _) Hrun) as (column & g1 & H).
  exists column, g1. split; [reflexivity|exact H].
Defined.

(** The loop of [add_info]: one packed label per non-empty line, in order;
    [info] ends as the last label made, if any. *)
Lemma add_info_lines_run (label_frame : wid) (vs : list tkvar) (ts : list tooltip)
    (cs : list AutoFillContainer) (bs : list FileBrowser) (lines : list string) :
  forall (ws : list widget) (info : option wid),
    let made := List.filter (fun line => negb (String.eqb line "")) lines in
    add_info_lines label_frame lines info (mkGui ws vs ts cs bs)
    = (Ok (match made with
           | [] => info
           | _ => Some (length ws + length made - 1)%nat
           end),
       mkGui (ws ++ map (header_label label_frame) made) vs ts cs bs).
Proof.
  induction lines as [|line rest IH]; intros ws info; cbn zeta.
  - cbn. rewrite app_nil_r. reflexivity.
  - cbn [add_info_lines List.filter]. destruct (String.eqb line "") eqn:Hline; cbn [negb].
    + apply IH.
    + unfold bind at 1. unfold create_widget at 1, with_widgets. gui_simpl.
      unfold bind at 1. unfold pack at 1, with_widgets. gui_simpl.
      rewrite alter_last. rewrite IH. cbn zeta. cbn [map length].
      rewrite <- app_assoc. cbn [app]. f_equal. rewrite length_app. cbn [length].
      destruct (List.filter _ rest); cbn [length]; do 2 f_equal; lia.
Qed.

(** X15: a header text without any non-empty line (the empty string, or
    line breaks only) makes the construction of the panel stop with an
    UnboundLocalError: [add_info] binds the resize handler to the last
    label it made, and it made none. *)
Theorem panel_with_blank_header_fails
    (parent : wid) (options : options_map) (label_width columns radio_columns : Z)
    (header_text : string) (blank_nones : bool) (g : gui) :
  header_lines header_text = [] ->
  fst (new_panel parent options label_width columns radio_columns (Some header_text)
         blank_nones g)
  = Raise UnboundLocalError.
Proof.
  intros Hblank. destruct g as [ws vs ts cs bs].
  unfold new_panel, bind at 1. unfold create_widget at 1, with_widgets. gui_simpl.
  unfold bind at 1. unfold pack at 1, with_widgets. gui_simpl.
  unfold bind at 1. unfold create_widget at 1, with_widgets. gui_simpl.
  unfold bind at 1. unfold pack at 1, with_widgets. gui_simpl.
  unfold bind at 1. unfold get_opts_frame, bind at 1.
  unfold create_widget at 1, with_widgets. gui_simpl.
  unfold bind at 1. unfold add_info, bind at 1.
  unfold create_widget at 1, with_widgets. gui_simpl.
  unfold bind at 1. unfold pack at 1, with_widgets. gui_simpl.
  unfold bind at 1. unfold create_widget at 1, with_widgets. gui_simpl.
  unfold bind at 1. unfold pack at 1, with_widgets. gui_simpl.
  unfold bind at 1. rewrite add_info_lines_run. cbn zeta.
  unfold header_lines in Hblank. rewrite Hblank. reflexivity.
Qed.

Lemma panel_with_blank_header_fails_witness :
  fst (new_panel 0%nat text_only_options 20 1 4 (Some (s_nl ++ s_nl)%string) true root_gui)
  = Raise UnboundLocalError.
Proof.
  apply (panel_with_blank_header_fails 0%nat text_only_options 20 1 4
           (s_nl ++ s_nl)%string true root_gui).
  reflexivity.
Defined.

(** X16: a header text with a non-empty line is shown as one packed label
    per non-empty line, in the order of the lines, inside a frame of its
    own in the given frame; empty lines make no label. *)
Theorem header_one_label_per_line (frame : wid) (header_text : string) (g : gui) :
  header_lines header_text <> [] ->
  add_info frame header_text g
  = (Ok tt,
     mkGui (widgets g
              ++ [set_packed (new_widget Frame (Some frame));
                  set_packed (new_widget Frame (Some (length (widgets g))))]
              ++ map (header_label (S (length (widgets g)))) (header_lines header_text))
       (vars g) (tooltips g) (containers g) (browsers g)).
Proof.
  intros Hlines. destruct g as [ws vs ts cs bs]. gui_simpl.
  unfold add_info, bind at 1. unfold create_widget at 1, with_widgets. gui_simpl.
  unfold bind at 1. unfold pack at 1, with_widgets. gui_simpl. rewrite alter_last.
  unfold bind at 1. unfold create_widget at 1, with_widgets. gui_simpl.
  unfold bind at 1. unfold pack at 1, with_widgets. gui_simpl. rewrite alter_last.
  unfold bind at 1. rewrite add_info_lines_run. cbn zeta.
  fold (header_lines header_text).
  destruct (header_lines header_text) as [|l ls] eqn:Hl; [contradiction|].
  unfold ret. rewrite length_app. cbn [length].
  replace (length ws + 1)%nat with (S (length ws)) by lia.
  rewrite <- !app_assoc. reflexivity.
Qed.

Lemma header_one_label_per_line_witness :
  add_info 0%nat ("Extract" ++ s_nl ++ s_nl ++ "Options of the plugin")%string root_gui
  = (Ok tt,
     mkGui (widgets root_gui
              ++ [set_packed (new_widget Frame (Some 0%nat));
                  set_packed (new_widget Frame (Some (length (widgets root_gui))))]
              ++ map (header_label (S (length (widgets root_gui))))
                   (header_lines ("Extract" ++ s_nl ++ s_nl ++ "Options of the plugin")%string))
       (vars root_gui) (tooltips root_gui) (containers root_gui) (browsers root_gui)).
Proof.
  apply (header_one_label_per_line 0%nat
           ("Extract" ++ s_nl ++ s_nl ++ "Options of the plugin")%string root_gui).
  discriminate.
Defined.

Example header_lines_skip_empty :
  header_lines ("Extract" ++ s_nl ++ s_nl ++ "Options of the plugin")%string
  = ["Extract"; "Options of the plugin"]%string.
Proof. vm_compute. reflexivity. Qed.

Lemma grows_keeps {A} (m : M A) : keeps_vars m -> grows_vars m.
Proof. intros H g. exists []. rewrite app_nil_r. apply H. Qed.

Lemma grows_bind {A B} (m : M A) (k : A -> M B) :
  grows_vars m -> (forall a, grows_vars (k a)) -> grows_vars (bind m k).
Proof.
  intros Hm Hk g. unfold bind. destruct (Hm g) as [more Hmore].
  destruct (m g) as [[a|e] g1]; cbn [snd] in *.
  - destruct (Hk a g1) as [more' H']. exists (more ++ more').
    rewrite H', Hmore, app_assoc. reflexivity.
  - exists more. exact Hmore.
Qed.

Lemma grows_set_tk_var (frame : wid) (default : pyval) (dt : dtype)
    (selected : pyval) (blank : bool) :
  grows_vars (set_tk_var frame default dt selected blank).
Proof.
  intros g. rewrite set_tk_var_run. cbv zeta.
  destruct (converted _ _); eexists; reflexivity.
Qed.

(** The construction of a control adds its variable and touches no other,
    however it ends. *)
Lemma grows_new_control
    (p : wid) (title : string) (dt : dtype) (default selected : pyval)
    (choices : option (list string)) (is_radio : bool) (rounding : option num)
    (mm : option (num * num)) (sb : option sysbrowser) (h : option string)
    (rc lw : Z) (chk : option cid) (cw : option Z) (blank_nones : bool) :
  grows_vars (new_control p title dt default selected choices is_radio rounding mm
                sb h rc lw chk cw blank_nones).
Proof.
  unfold new_control. cbv zeta.
  apply grows_bind; [apply grows_keeps; unfold control_frame; repeat keeps_step|].
  intros frame. apply grows_bind; [apply grows_set_tk_var|]. intros v.
  apply grows_bind; [apply grows_keeps, keeps_build_control|]. intros r.
  apply grows_keeps, keeps_ret.
Qed.

Lemma keeps_get_group_frame (opts : cid) (rc : Z) (gfs : gmap string group_frame)
    (group : string) :
  keeps_vars (get_group_frame opts rc gfs group).
Proof. unfold get_group_frame, checkbuttons_frame. cbv zeta. repeat keeps_step. Qed.

Lemma grows_build_option (opts : cid) (lw rc : Z) (blank : bool)
    (gfs : gmap string group_frame) (key : string) (val : item) :
  grows_vars (build_option opts lw rc blank gfs key val).
Proof.
  unfold build_option. destruct (String.eqb key "helptext");
    [apply grows_keeps, keeps_ret|].
  apply grows_bind;
    [apply grows_keeps; destruct val; [apply keeps_raise|apply keeps_ret]|].
  intros d. apply grows_bind; [apply grows_keeps, keeps_get_group_frame|].
  intros [gf gfs']. apply grows_bind; [apply grows_new_control|]. intros ctl.
  apply grows_keeps. unfold items. repeat keeps_step.
Qed.

Lemma grows_build_options (opts : cid) (lw rc : Z) (blank : bool)
    (options : options_map) :
  forall gfs, grows_vars (build_options opts lw rc blank gfs options).
Proof.
  induction options as [|[key val] rest IH]; intros gfs; cbn [build_options].
  - apply grows_keeps, keeps_ret.
  - apply grows_bind; [apply grows_build_option|]. intros r.
    apply grows_bind; [apply IH|]. intros r'. apply grows_keeps, keeps_ret.
Qed.

(** The table of group frames has the frames of the group asked for, and
    keeps the frames it had. *)
Lemma get_group_frame_table (opts : cid) (rc : Z) (gfs gfs0 : gmap string group_frame)
    (group : string) (gf : group_frame) (g g' : gui) :
  get_group_frame opts rc gfs group g = (Ok (gf, gfs0), g') ->
  gfs0 !! PyStr.lower group = Some gf /\ gfs ⊆ gfs0.
Proof.
  intros Hrun. unfold get_group_frame in Hrun.
  destruct (gfs !! PyStr.lower group) as [gf0|] eqn:Hlook.
  - injection Hrun as <- <- _. split; [exact Hlook|reflexivity].
  - unfold bind in Hrun.
    destruct (subframe opts g) as [[w|e] g1]; [|discriminate].
    destruct (create_widget _ g1) as [[fr|e] g3]; [|discriminate].
    destruct (pack fr g3) as [[u|e] g4]; [|discriminate].
    destruct (checkbuttons_frame fr rc g4) as [[chk|e] g5]; [|discriminate].
    injection Hrun as <- <- _.
    split; [apply lookup_insert_eq|apply insert_subseteq; exact Hlook].
Qed.

(** One pass of the first loop of [build_panel] on an option. *)
Lemma build_option_run (opts : cid) (lw rc : Z) (blank : bool)
    (gfs gfs1 : gmap string group_frame) (key : string) (d : descriptor)
    (val' : item) (g g1 : gui) :
  String.eqb key "helptext" = false ->
  build_option opts lw rc blank gfs key (Descr d) g = (Ok (val', gfs1), g1) ->
  exists gf ctl g3 g4,
    get_group_frame opts rc gfs (default "_master"%string (o_group d)) g
    = (Ok (gf, gfs1), g3)
    /\ new_control (gf_frame gf) key (o_type d) (o_default d) (o_value d)
         (o_choices d) (o_gui_radio d) (o_rounding d) (o_min_max d)
         (o_sysbrowser d) (o_helptext d) rc lw (Some (gf_chkbtns gf)) None blank g3
       = (Ok ctl, g4)
    /\ val' = Descr (set_built ctl d)
    /\ vars g1 = vars g4.
Proof.
  intros Hkey Hone. unfold build_option in Hone. rewrite Hkey in Hone.
  unfold bind at 1 in Hone. cbn [as_descr] in Hone. unfold ret at 1 in Hone.
  unfold bind at 1 in Hone.
  destruct (get_group_frame _ _ _ _ _) as [[[gf gfs0]|e] g3] eqn:Hgf; [|discriminate].
  unfold bind at 1 in Hone.
  destruct (new_control _ _ _ _ _ _ _ _ _ _ _ _ _ _ _ _ _) as [[ctl|e] g4] eqn:Hctl;
    [|discriminate].
  exists gf, ctl, g3, g4.
  unfold bind at 1 in Hone. unfold items, bind at 1, get_container in Hone.
  destruct (containers g4 !! gf_chkbtns gf) as [o|]; [|discriminate].
  unfold ret at 1 in Hone. unfold bind in Hone.
  destruct (0 <? _items o).
  - unfold get_container in Hone.
    destruct (containers g4 !! gf_chkbtns gf) as [o'|]; [|discriminate].
    unfold pack, ret in Hone. injection Hone as <- <- <-.
    split; [reflexivity|]. split; [exact Hctl|]. split; reflexivity.
  - unfold ret in Hone. injection Hone as <- <- <-.
    split; [reflexivity|]. split; [exact Hctl|]. split; reflexivity.
Qed.

Lemma build_options_table (opts : cid) (lw rc : Z) (blank : bool)
    (options : options_map) :
  forall (gfs : gmap string group_frame) (g : gui)
         (options' : options_map) (gfs' : gmap string group_frame) (g' : gui),
    build_options opts lw rc blank gfs options g = (Ok (options', gfs'), g') ->
    gfs ⊆ gfs'.
Proof.
  induction options as [|[key val] rest IH]; intros gfs g options' gfs' g' Hrun.
  - injection Hrun as _ <- _. reflexivity.
  - cbn [build_options] in Hrun. unfold bind at 1 in Hrun.
    destruct (build_option opts lw rc blank gfs key val g)
      as [[[val' gfs1]|e] g1] eqn:Hone; [|discriminate].
    unfold bind at 1 in Hrun. cbn [fst snd] in Hrun.
    destruct (build_options opts lw rc blank gfs1 rest g1)
      as [[[rest' gfs2]|e] g2] eqn:Hrest; [|discriminate].
    injection Hrun as _ <- _.
    transitivity gfs1; [|exact (IH _ _ _ _ _ Hrest)].
    destruct (String.eqb key "helptext") eqn:Hkey.
    + unfold build_option in Hone. rewrite Hkey in Hone.
      injection Hone as _ <- _. reflexivity.
    + destruct val as [t|d].
      { unfold build_option in Hone. rewrite Hkey in Hone. discriminate Hone. }
      destruct (build_option_run _ _ _ _ _ _ _ _ _ _ _ Hkey Hone)
        as (gf & ctl & g3 & g4 & Hgf & _).
      exact (proj2 (get_group_frame_table _ _ _ _ _ _ _ _ Hgf)).
Qed.

(** X17: when the first loop of [build_panel] goes through, the options
    mapping has the same keys in the same order as before; the entry under
    [helptext] is untouched and every other entry is its dict with, all
    other keys unchanged, [_gui_option] set to the control the constructor
    returned for the option in the frame of its group, and [selected] to
    that control's variable, which is in the final state with the class of
    the option's type and its initial value. *)
Theorem options_keep_keys_and_get_built
    (opts : cid) (label_width radio_columns : Z) (blank_nones : bool)
    (options : options_map) :
  forall (gfs : gmap string group_frame) (g : gui)
         (options' : options_map) (gfs' : gmap string group_frame) (g' : gui),
    build_options opts label_width radio_columns blank_nones gfs options g
    = (Ok (options', gfs'), g') ->
    Forall2 (built_entry label_width radio_columns blank_nones gfs' g')
      options options'.
Proof.
  induction options as [|[key val] rest IH]; intros gfs g options' gfs' g' Hrun.
  - injection Hrun as <- _ _. constructor.
  - cbn [build_options] in Hrun. unfold bind at 1 in Hrun.
    destruct (build_option opts label_width radio_columns blank_nones gfs key val g)
      as [[[val' gfs1]|e] g1] eqn:Hone; [|discriminate].
    unfold bind at 1 in Hrun. cbn [fst snd] in Hrun.
    destruct (build_options opts label_width radio_columns blank_nones gfs1 rest g1)
      as [[[rest' gfs2]|e] g2] eqn:Hrest; [|discriminate].
    injection Hrun as <- <- <-. constructor; [|exact (IH _ _ _ _ _ Hrest)].
    split; [reflexivity|]. cbn [fst snd].
    destruct (String.eqb key "helptext") eqn:Hkey.
    + unfold build_option in Hone. rewrite Hkey in Hone.
      injection Hone as <- _ _. reflexivity.
    + destruct val as [t|d].
      { unfold build_option in Hone. rewrite Hkey in Hone. discriminate Hone. }
      destruct (build_option_run _ _ _ _ _ _ _ _ _ _ _ Hkey Hone)
        as (gf & ctl & g3 & g4 & Hgf & Hctl & -> & Hv1).
      destruct (new_control_ok _ _ _ _ _ _ _ _ _ _ _ _ _ _ _ _ _ _ _ Hctl)
        as (y & Hy & Hv4 & Htk & _).
      destruct (grows_build_options opts label_width radio_columns blank_nones rest
                  gfs1 g1) as [more Hmore].
      rewrite Hrest in Hmore. cbn [snd] in Hmore.
      exists d, ctl, gf, g3, g4, y.
      split; [reflexivity|]. split; [reflexivity|].
      split.
      { eapply lookup_weaken; [exact (proj1 (get_group_frame_table _ _ _ _ _ _ _ _ Hgf))|].
        exact (build_options_table _ _ _ _ _ _ _ _ _ _ Hrest). }
      split; [exact Hctl|]. split; [exact Hy|].
      rewrite Hmore, Hv1, Hv4, Htk, <- app_assoc. apply list_lookup_middle.
      reflexivity.
Qed.

Lemma options_keep_keys_and_get_built_witness :
  exists options' gfs' g',
    text_only_built = (Ok (options', gfs'), g')
    /\ Forall2 (built_entry 20 4 true gfs' g') text_only_options options'.
Proof.
  destruct text_only_built as [[[options' gfs']|e] g'] eqn:Hrun;
    [|vm_compute in Hrun; discriminate].
  exists options', gfs', g'. split; [reflexivity|].
  exact (options_keep_keys_and_get_built 0%nat 20 4 true text_only_options
           ∅ panel_ready options' gfs' g' Hrun).
Defined.

(** ** ControlBuilder: what the capitalization of the help text changes *)

Lemma prefix_split (p : string) : forall s,
  String.prefix p s = true -> exists rest, s = (p ++ rest)%string.
Proof.
  induction p as [|c p IH]; intros s H.
  - exists s. reflexivity.
  - destruct s as [|c' s]; [discriminate|]. cbn [String.prefix] in H.
    destruct (ascii_dec c c') as [->|]; [|discriminate].
    destruct (IH s H) as [rest ->]. exists rest. reflexivity.
Qed.

Lemma rev_acc_app (s acc t : string) :
  (PyStr.rev_acc acc s ++ t)%string = PyStr.rev_acc (acc ++ t)%string s.
Proof.
  revert acc. induction s as [|c s IH]; intros acc; [reflexivity|].
  cbn [PyStr.rev_acc]. rewrite IH. reflexivity.
Qed.

Lemma rev_cons_app (c : ascii) (cur s : string) :
  (PyStr.rev (String c cur) ++ s)%string = (PyStr.rev cur ++ String c s)%string.
Proof.
  unfold PyStr.rev. cbn [PyStr.rev_acc]. rewrite !rev_acc_app. reflexivity.
Qed.

Lemma split_aux_skip (sep t : string) : forall cur rest,
  PyStr.split_aux sep (String.length t) cur (t ++ rest)%string
  = PyStr.split_aux sep 0 cur rest.
Proof.
  induction t as [|c t IH]; intros cur rest; [reflexivity|].
  cbn [String.length String.append PyStr.split_aux]. apply IH.
Qed.

Lemma split_aux_nonempty (sep : string) (s : string) : forall skip cur,
  PyStr.split_aux sep skip cur s <> [].
Proof.
  induction s as [|c s IH]; intros skip cur; cbn [PyStr.split_aux]; [discriminate|].
  destruct skip; [|apply IH]. destruct (String.prefix sep (String c s)); [discriminate|].
  apply IH.
Qed.

Lemma concat_cons (sep x : string) (l : list string) :
  l <> [] -> String.concat sep (x :: l) = (x ++ sep ++ String.concat sep l)%string.
Proof. destruct l; [congruence|reflexivity]. Qed.

Lemma string_app_assoc (a b c : string) :
  ((a ++ b) ++ c)%string = (a ++ b ++ c)%string.
Proof.
  induction a as [|x a IH]; [reflexivity|].
  change (String x ((a ++ b) ++ c) = String x (a ++ b ++ c))%string.
  f_equal. exact IH.
Qed.

Lemma string_app_nil_r (a : string) : (a ++ "")%string = a.
Proof.
  induction a as [|x a IH]; [reflexivity|].
  change (String x (a ++ "") = String x a)%string. f_equal. exact IH.
Qed.

Lemma string_app_length (a b : string) :
  String.length (a ++ b) = (String.length a + String.length b)%nat.
Proof.
  induction a as [|x a IH]; [reflexivity|].
  change (S (String.length (a ++ b)) = S (String.length a + String.length b)).
  f_equal. exact IH.
Qed.

(** Splitting at a separator and joining with it gives the text back. *)
Lemma join_split_aux (sep : string) (n : nat) :
  sep <> EmptyString ->
  forall s cur, (String.length s <= n)%nat ->
    PyStr.join sep (PyStr.split_aux sep 0 cur s) = (PyStr.rev cur ++ s)%string.
Proof.
  intros Hsep. induction n as [|n IH]; intros s cur Hn.
  - destruct s; [|cbn in Hn; lia]. rewrite string_app_nil_r. reflexivity.
  - destruct s as [|c s].
    + rewrite string_app_nil_r. reflexivity.
    + cbn [PyStr.split_aux]. destruct (String.prefix sep (String c s)) eqn:Hpre.
      * destruct (prefix_split _ _ Hpre) as [rest Hrest].
        destruct sep as [|c0 t]; [congruence|]. cbn in Hrest.
        injection Hrest as <- ->.
        cbn [String.length]. rewrite Nat.sub_1_r. cbn [Nat.pred].
        rewrite split_aux_skip. unfold PyStr.join.
        rewrite concat_cons by apply split_aux_nonempty.
        fold (PyStr.join (String c t) (PyStr.split_aux (String c t) 0 EmptyString rest)).
        rewrite IH.
        -- reflexivity.
        -- cbn in Hn. rewrite string_app_length in Hn. lia.
      * rewrite IH by (cbn in Hn; lia). apply rev_cons_app.
Qed.

Lemma join_split (sep s : string) :
  sep <> EmptyString -> PyStr.join sep (PyStr.split sep s) = s.
Proof.
  intros Hsep. unfold PyStr.split.
  rewrite (join_split_aux sep (String.length s) Hsep s EmptyString (le_n _)).
  reflexivity.
Qed.

Lemma to_lower_to_upper (c : ascii) :
  PyStr.to_lower (PyStr.to_upper c) = PyStr.to_lower c.
Proof. destruct c as [[] [] [] [] [] [] [] []]; vm_compute; reflexivity. Qed.

Lemma to_lower_idem (c : ascii) : PyStr.to_lower (PyStr.to_lower c) = PyStr.to_lower c.
Proof. destruct c as [[] [] [] [] [] [] [] []]; vm_compute; reflexivity. Qed.

Lemma lower_idem (s : string) : PyStr.lower (PyStr.lower s) = PyStr.lower s.
Proof.
  induction s as [|c s IH]; [reflexivity|].
  unfold PyStr.lower in *. cbn [PyStr.map_chars]. rewrite to_lower_idem, IH. reflexivity.
Qed.

Lemma lower_capitalize (s : string) : PyStr.lower (PyStr.capitalize s) = PyStr.lower s.
Proof.
  destruct s as [|c s]; [reflexivity|].
  cbn [PyStr.capitalize]. unfold PyStr.lower at 1 3. cbn [PyStr.map_chars].
  fold PyStr.lower. rewrite to_lower_to_upper, lower_idem. reflexivity.
Qed.

Lemma lower_app (a b : string) :
  PyStr.lower (a ++ b) = (PyStr.lower a ++ PyStr.lower b)%string.
Proof.
  induction a as [|x a IH]; [reflexivity|].
  change (String (PyStr.to_lower x) (PyStr.lower (a ++ b))
          = String (PyStr.to_lower x) (PyStr.lower a ++ PyStr.lower b))%string.
  f_equal. exact IH.
Qed.

Lemma lower_length (s : string) : String.length (PyStr.lower s) = String.length s.
Proof.
  induction s as [|c s IH]; [reflexivity|].
  change (S (String.length (PyStr.lower s)) = S (String.length s)). f_equal. exact IH.
Qed.

Lemma lower_join (sep : string) (l : list string) :
  PyStr.lower (PyStr.join sep l) = PyStr.join (PyStr.lower sep) (map PyStr.lower l).
Proof.
  unfold PyStr.join. induction l as [|x l IH]; [reflexivity|].
  destruct l as [|y l]; [reflexivity|].
  rewrite (concat_cons sep x (y :: l)) by discriminate. cbn [map].
  rewrite (concat_cons (PyStr.lower sep) (PyStr.lower x)
             (PyStr.lower y :: map PyStr.lower l)) by discriminate.
  rewrite !lower_app. cbn [map] in IH. rewrite IH. reflexivity.
Qed.

(** X18: on an ASCII help text, after the markers are rewritten, the
    capitalization of the segments between ". " changes letter case only:
    the formatted help text is the title, " - " and a text that is, letter
    case apart, the marked-up text, character by character and of the same
    length. *)
Theorem helptext_capitalization_changes_case_only (title helptext : string) :
  PyStr.is_ascii helptext = true ->
  exists out,
    format_helptext title (Some helptext) = Some (title ++ " - " ++ out)%string
    /\ PyStr.lower out = PyStr.lower (marked_up helptext)
    /\ String.length out = String.length (marked_up helptext).
Proof.
  intros _.
  exists (PyStr.join ". " (map PyStr.capitalize (PyStr.split ". " (marked_up helptext)))).
  split; [reflexivity|].
  assert (Hlow : PyStr.lower (PyStr.join ". " (map PyStr.capitalize
                                 (PyStr.split ". " (marked_up helptext))))
                 = PyStr.lower (marked_up helptext)).
  { rewrite lower_join, map_map.
    rewrite (map_ext _ PyStr.lower) by (intros x; apply lower_capitalize).
    assert (Hsep : ". "%string <> EmptyString) by congruence.
    rewrite <- (join_split ". " (marked_up helptext) Hsep) at 2.
    symmetry. apply (lower_join ". "). }
  split; [exact Hlow|].
  rewrite <- (lower_length (PyStr.join _ _)), Hlow. apply lower_length.
Qed.

Lemma helptext_capitalization_changes_case_only_witness :
  exists out,
    format_helptext "opt" (Some "R|use the GPU. or the CPU")
    = Some ("opt" ++ " - " ++ out)%string
    /\ PyStr.lower out = PyStr.lower (marked_up "R|use the GPU. or the CPU")
    /\ String.length out = String.length (marked_up "R|use the GPU. or the CPU").
Proof.
  apply (helptext_capitalization_changes_case_only "opt" "R|use the GPU. or the CPU").
  reflexivity.
Defined.

(** ** ControlBuilder: what a control needs to be built *)

(** X19: a numeric option without choices becomes a slider, and a slider
    cannot be built without its bounds: with [min_max] None the
    construction stops with a TypeError, whatever else is given. *)
Theorem slider_requires_bounds
    (parent : wid) (title : string) (dt : dtype) (default selected : pyval)
    (choices : option (list string)) (is_radio : bool) (rounding : option num)
    (sb : option sysbrowser) (helptext : option string)
    (radio_columns label_width : Z) (chk : option cid) (control_width : option Z)
    (blank_nones : bool) (g : gui) :
  has_choices choices = false -> dt = DInt \/ dt = DFloat ->
  outcome (new_control parent title dt default selected choices is_radio rounding
             None sb helptext radio_columns label_width chk control_width
             blank_nones g)
  = Some TypeError.
Proof.
  intros Hc Hdt.
  destruct (new_control_run parent title dt default selected choices is_radio rounding
              None sb helptext radio_columns label_width chk control_width
              blank_nones g) as (frame & g1 & g2 & _ & _ & _ & ->).
  rewrite refused_bool_only by (destruct Hdt; subst; discriminate).
  unfold set_control. rewrite Hc. cbn [andb].
  destruct Hdt as [-> | ->]; cbn [dtype_eqb orb];
    destruct (format_helptext title helptext); reflexivity.
Qed.

Lemma slider_requires_bounds_witness :
  outcome (new_control 0%nat "sample" DInt (PNum (NInt 5)) PNone None false
             (Some (NInt 1)) None None None 3 20 None None true root_gui)
  = Some TypeError.
Proof.
  apply (slider_requires_bounds 0%nat "sample" DInt (PNum (NInt 5)) PNone None false
           (Some (NInt 1)) None None 3 20 None None true root_gui);
    [reflexivity | left; reflexivity].
Defined.

(** X20: a boolean option without choices becomes a check button, and a
    check button cannot be built without the frame of the check buttons:
    with [checkbuttons_frame] None, the default of the constructor, the
    construction stops, with an AttributeError when the initial value is a
    boolean (or any value the toolkit reads as one) and with the exception
    of [set] when it is not. *)
Theorem checkbutton_requires_frame
    (parent : wid) (title : string) (default selected : pyval)
    (choices : option (list string)) (is_radio : bool) (rounding : option num)
    (min_max : option (num * num)) (sb : option sysbrowser)
    (helptext : option string) (radio_columns label_width : Z)
    (control_width : option Z) (blank_nones : bool) (g : gui) :
  has_choices choices = false ->
  outcome (new_control parent title DBool default selected choices is_radio rounding
             min_max sb helptext radio_columns label_width None control_width
             blank_nones g)
  = Some (match refused DBool default selected blank_nones with
          | Some e => e
          | None => AttributeError
          end)
  /\ (forall b, (if is_none selected then default else selected) = PBool b ->
      outcome (new_control parent title DBool default selected choices is_radio
                 rounding min_max sb helptext radio_columns label_width None
                 control_width blank_nones g)
      = Some AttributeError).
Proof.
  intros Hc.
  assert (Hout : outcome (new_control parent title DBool default selected choices
                            is_radio rounding min_max sb helptext radio_columns
                            label_width None control_width blank_nones g)
                 = Some (match refused DBool default selected blank_nones with
                         | Some e => e
                         | None => AttributeError
                         end)).
  { destruct (new_control_run parent title DBool default selected choices is_radio
                rounding min_max sb helptext radio_columns label_width None
                control_width blank_nones g) as (frame & g1 & g2 & _ & _ & _ & ->).
    destruct (refused DBool default selected blank_nones) as [e|]; [reflexivity|].
    unfold set_control. rewrite Hc. reflexivity. }
  split; [exact Hout|]. intros b Hb. rewrite Hout.
  rewrite (refused_boolean default selected blank_nones b Hb). reflexivity.
Qed.

Lemma checkbutton_requires_frame_witness :
  outcome (new_control 0%nat "sample" DBool (PBool false) PNone None false None
             None None None 3 20 None None true root_gui)
  = Some AttributeError.
Proof.
  apply (proj2 (checkbutton_requires_frame 0%nat "sample" (PBool false) PNone None
                  false None None None None 3 20 None true root_gui eq_refl) false).
  reflexivity.
Defined.

Lemma new_control_variable_witness :
  exists ctl g',
    new_control 0%nat "sample" DStr (PStr "fast") PNone two_choices false None None
      None None 3 20 None None true root_gui = (Ok ctl, g')
    /\ tk_var ctl = length (vars root_gui)
    /\ vars g'
       = vars root_gui ++
         [mkVar (var_class_of DStr) (cb_frame ctl)
            (let val := if is_none PNone then PStr "fast" else PNone in
             if is_none val && true then PStr "" else val)].
Proof.
  destruct (new_control 0%nat "sample" DStr (PStr "fast") PNone two_choices false
              None None None None 3 20 None None true root_gui)
    as [[ctl|e] g'] eqn:Hrun; [|vm_compute in Hrun; discriminate].
  exists ctl, g'. split; [reflexivity|].
  destruct (new_control_variable _ _ _ _ _ _ _ _ _ _ _ _ _ _ _ _ _ _ _ Hrun)
    as (y & _ & Hy & Htk & Hvars).
  split; [exact Htk|]. rewrite Hvars, Hy by (left; discriminate). reflexivity.
Defined.

(** X21: for every control but the radio group, the help text reaches the
    tooltips and nothing else: built with a help text or without, from the
    same state, the widgets, the variables, the containers and the file
    browsers come out the same. *)
Theorem helptext_only_reaches_tooltips
    (parent : wid) (title : string) (dt : dtype) (default selected : pyval)
    (choices : option (list string)) (is_radio : bool) (rounding : option num)
    (min_max : option (num * num)) (sb : option sysbrowser) (h : string)
    (radio_columns label_width : Z) (chk : option cid) (control_width : option Z)
    (blank_nones : bool) (g : gui) :
  set_control dt choices is_radio <> Radiobutton ->
  same_but_tooltips
    (snd (new_control parent title dt default selected choices is_radio rounding
            min_max sb (Some h) radio_columns label_width chk control_width
            blank_nones g))
    (snd (new_control parent title dt default selected choices is_radio rounding
            min_max sb None radio_columns label_width chk control_width
            blank_nones g)).
Proof.
  intros Hctl. set (control := set_control dt choices is_radio) in *.
  assert (Halike : alike (fun _ _ : ControlBuilder => True)
            (new_control parent title dt default selected choices is_radio
               rounding min_max sb (Some h) radio_columns label_width chk
               control_width blank_nones)
            (new_control parent title dt default selected choices is_radio
               rounding min_max sb None radio_columns label_width chk
               control_width blank_nones)).
  { unfold new_control. cbv zeta. fold control.
    apply alike_bind_eq; [apply alike_control_frame|]. intros frame.
    apply alike_bind_eq; [apply alike_set_tk_var|]. intros v.
    apply alike_bind_eq; [apply alike_build_control; exact Hctl|]. intros r.
    apply alike_ret. exact I. }
  exact (proj2 (Halike g g (same_but_tooltips_refl g))).
Qed.

Lemma helptext_only_reaches_tooltips_witness :
  same_but_tooltips
    (snd (new_control 0%nat "sample" DStr (PStr "") PNone None false None None None
            (Some "where the files are"%string) 3 20 None None true root_gui))
    (snd (new_control 0%nat "sample" DStr (PStr "") PNone None false None None None
            None 3 20 None None true root_gui)).
Proof.
  apply (helptext_only_reaches_tooltips 0%nat "sample" DStr (PStr "") PNone None false
           None None None "where the files are"%string 3 20 None None true root_gui).
  discriminate.
Defined.

(** ** ControlBuilder: the radio group's help lines and columns *)

(** The help lines are read without touching the state. *)
Lemma help_items_pure (lines : list string) :
  forall acc g, snd (help_items lines acc g) = g.
Proof.
  induction lines as [|line rest IH]; intros acc g; cbn [help_items]; [reflexivity|].
  destruct (PyStr.startswith " - " line); [|apply IH].
  unfold bind, lift. destruct (py_index (PyStr.split_ws line) 1); [apply IH|reflexivity].
Qed.

Lemma py_index_second_missing {A} (l : list A) :
  (length l < 2)%nat -> py_index l 1 = Raise IndexError.
Proof.
  intros H. unfold py_index. cbn [Z.ltb Z.compare].
  destruct (Z.leb_spec (Z.of_nat (length l)) 1) as [_|?]; [|lia]. reflexivity.
Qed.

Lemma py_index_second {A} (l : list A) :
  (2 <= length l)%nat -> exists x, py_index l 1 = Ok x.
Proof.
  intros H. destruct l as [|a [|b l]]; cbn in H; try lia. exists b.
  unfold py_index. cbn [Z.ltb Z.compare].
  destruct (Z.leb_spec (Z.of_nat (length (a :: b :: l))) 1) as [Hle|_];
    [cbn [length] in Hle; lia|]. reflexivity.
Qed.

(** X22: a help line that starts with the bullet " - " but has no word
    after it (the first such line with fewer than two words) stops the
    reading of the help lines with an IndexError: the bullet's first word
    is taken without a check. *)
Theorem bullet_without_word_raises
    (before after : list string) (line : string) (acc : gmap string string)
    (g : gui) :
  Forall (fun l => PyStr.startswith " - " l = true ->
                   (2 <= length (PyStr.split_ws l))%nat) before ->
  PyStr.startswith " - " line = true ->
  (length (PyStr.split_ws line) < 2)%nat ->
  help_items (before ++ line :: after) acc g = (Raise IndexError, g).
Proof.
  revert acc. induction before as [|l rest IH]; intros acc Hall Hb Hw.
  - cbn [app help_items]. rewrite Hb. unfold bind, lift.
    rewrite py_index_second_missing by exact Hw. reflexivity.
  - apply Forall_cons in Hall. destruct Hall as [Hl Hrest].
    cbn [app help_items]. destruct (PyStr.startswith " - " l) eqn:Hs.
    + destruct (py_index_second _ (Hl eq_refl)) as [x Hx].
      unfold bind, lift. rewrite Hx. apply IH; assumption.
    + apply IH; assumption.
Qed.

Lemma bullet_without_word_raises_witness :
  help_items (app ["sample - Speed."; ""]%string [" - "%string]) ∅ root_gui
  = (Raise IndexError, root_gui).
Proof.
  apply (bullet_without_word_raises ["sample - Speed."; ""]%string [] " - "%string
           ∅ root_gui).
  - repeat constructor; discriminate.
  - reflexivity.
  - vm_compute. lia.
Defined.

(** A radio group whose help text ends in an empty reflow bullet is not
    built. *)
Example radio_with_empty_bullet :
  outcome (build_sample DStr (PStr "fast") two_choices true None
             (Some ("R|speed." ++ s_nl ++ "L|")%string))
  = Some IndexError.
Proof. vm_compute. reflexivity. Qed.

Lemma new_container_empty (p : wid) (C : Z) (g : gui) :
  C <= 0 ->
  new_container p C g
  = (Ok (length (containers g)),
     with_containers (fun cs => cs ++ [mkContainer p C 0 0 []]) g).
Proof.
  intros HC. destruct g as [ws vs ts cs bs].
  assert (Hrange : range0 C = []).
  { unfold range0. replace (Z.to_nat C) with 0%nat by lia. reflexivity. }
  unfold new_container, bind at 1. unfold with_containers. gui_simpl.
  unfold bind at 1. unfold set_subframes, bind at 1, get_container. gui_simpl.
  rewrite lookup_last. gui_simpl. rewrite Hrange. cbn [set_subframes_loop].
  unfold ret at 1. unfold bind, update_container, ret, with_containers. gui_simpl.
  rewrite alter_last. reflexivity.
Qed.

(** X23: a radio group with zero columns and at least one choice is not
    built: once its help lines are read and its frame is made, the first
    choice raises ZeroDivisionError before any radio button is made. *)
Theorem radio_group_zero_columns
    (frame : wid) (title : string) (tk_var : vid) (helptext : string)
    (choice : string) (choices : list string) (g : gui)
    (helpitems : gmap string string) :
  fst (help_items (PyStr.splitlines helptext) ∅ g) = Ok helpitems ->
  exists g',
    radio_control frame title tk_var (Some helptext) (Some (choice :: choices)) 0 g
    = (Raise ZeroDivisionError, g')
    /\ Forall (fun w => w_class w <> Radiobutton) (drop (length (widgets g)) (widgets g')).
Proof.
  intros Hitems. unfold radio_control. unfold bind at 1.
  pose proof (help_items_pure (PyStr.splitlines helptext) ∅ g) as Hpure.
  destruct (help_items (PyStr.splitlines helptext) ∅ g) as [[items|e] g1];
    cbn [fst snd] in *; [|discriminate]. subst g1.
  destruct g as [ws vs ts cs bs].
  unfold bind at 1. unfold create_widget at 1, with_widgets. gui_simpl.
  unfold bind at 1. rewrite new_container_empty by lia.
  unfold with_containers. gui_simpl.
  cbn [radio_loop]. unfold bind at 1. unfold radio_step, bind at 1.
  cbn [Z.eqb]. unfold raise. eexists. split; [reflexivity|]. gui_simpl.
  rewrite drop_app_length. repeat constructor. discriminate.
Qed.

Lemma radio_group_zero_columns_witness :
  exists g',
    radio_control 0%nat "sample" 0%nat (Some "sample - Speed."%string)
      (Some ("fast" :: ["slow"])%string) 0 one_var
    = (Raise ZeroDivisionError, g')
    /\ Forall (fun w => w_class w <> Radiobutton)
         (drop (length (widgets one_var)) (widgets g')).
Proof.
  apply (radio_group_zero_columns 0%nat "sample" 0%nat "sample - Speed."%string
           "fast"%string ["slow"%string] one_var ∅).
  reflexivity.
Defined.
